(** * AI scheduling agent: dialogue state machine and scheduling store

    A shallow embedding of [ai_scheduling_agent/agent.py] (the LangGraph
    nodes and the router) and [ai_scheduling_agent/tools.py] (the three
    CSV-backed tables), followed by the properties of the specification
    that concern them.

    Conventions of the embedding.
    - Python [str] is [string]; [lower], [strip] and the [in] operator are
      defined on ASCII text (every keyword of the source is ASCII).
    - A Python dict whose keys are fixed by the code is a record of
      options ([None] for an absent key); the insurance bag, whose keys
      come from the extraction result, is a [gmap string string].
    - A CSV file is [Missing], [Blank] (zero bytes) or a list of typed
      rows: the table as [read_csv] returns it.  [read_csv] infers the
      type of every cell again, so a cell the program wrote comes back as
      the same text only when it does not read as a missing value, a
      number or a boolean ([Csv.text]); the properties that write a cell
      and read it back assume this of the cell.
    - [datetime.now()], [uuid.uuid4()], the language model and I/O faults
      are supplied by an environment record.
    - The decorative non-ASCII symbols of the reply texts are left out. *)

From Stdlib Require Import ZArith Ascii String List Bool Lia Sorted Permutation.
From stdpp Require Import base option list sorting gmap strings.

Local Open Scope string_scope.
Local Open Scope Z_scope.

(** ** Python string primitives *)

Module Py.

Definition lower_ascii (c : ascii) : ascii :=
  let n := nat_of_ascii c in
  if ((65 <=? n) && (n <=? 90))%nat then ascii_of_nat (n + 32) else c.

(** [s.lower()] *)
Fixpoint lower (s : string) : string :=
  match s with
  | EmptyString => EmptyString
  | String c s' => String (lower_ascii c) (lower s')
  end.

(** [kw in s] on strings *)
Fixpoint contains (kw s : string) : bool :=
  String.prefix kw s ||
  match s with
  | EmptyString => false
  | String _ s' => contains kw s'
  end.

(** [any(keyword in s for keyword in keywords)] *)
Definition any_in (keywords : list string) (s : string) : bool :=
  existsb (fun keyword => contains keyword s) keywords.

(** ASCII characters for which [str.isspace] holds *)
Definition isspace (c : ascii) : bool :=
  let n := nat_of_ascii c in
  (((9 <=? n) && (n <=? 13)) || ((28 <=? n) && (n <=? 32)))%nat.

Fixpoint lstrip (s : string) : string :=
  match s with
  | EmptyString => EmptyString
  | String c s' => if isspace c then lstrip s' else s
  end.

Fixpoint rstrip (s : string) : string :=
  match s with
  | EmptyString => EmptyString
  | String c s' =>
      match rstrip s' with
      | EmptyString => if isspace c then EmptyString else String c EmptyString
      | r => String c r
      end
  end.

(** [s.strip()] *)
Definition strip (s : string) : string := rstrip (lstrip s).

(** truth value of a string *)
Definition truthy (s : string) : bool :=
  match s with EmptyString => false | _ => true end.

(** truth value of [d.get(key)] for a string-valued entry *)
Definition filled (v : option string) : bool :=
  match v with Some s => truthy s | None => false end.

Definition is_digit (c : ascii) : bool :=
  let n := nat_of_ascii c in ((48 <=? n) && (n <=? 57))%nat.

Definition digit_val (c : ascii) : Z := Z.of_nat (nat_of_ascii c) - 48.

(** digits of a decimal literal; a single underscore may separate digits *)
Fixpoint digits (acc : Z) (prev_digit : bool) (s : string) : option Z :=
  match s with
  | EmptyString => if prev_digit then Some acc else None
  | String c s' =>
      if is_digit c then digits (10 * acc + digit_val c) true s'
      else if (Ascii.eqb c "_") && prev_digit then digits acc false s'
      else None
  end.

(** [int(s)] on ASCII input: [None] stands for [ValueError] *)
Definition int (s : string) : option Z :=
  match strip s with
  | String "-" r => Z.opp <$> digits 0 false r
  | String "+" r => digits 0 false r
  | r => digits 0 false r
  end.

Fixpoint str_pos (fuel : nat) (p : Z) (acc : string) : string :=
  match fuel with
  | O => acc
  | S fuel' =>
      let acc' := String (ascii_of_nat (48 + Z.to_nat (p mod 10))) acc in
      if p <? 10 then acc' else str_pos fuel' (p / 10) acc'
  end.

(** [str(n)] for an integer *)
Definition str (n : Z) : string :=
  if n <? 0 then String "-" (str_pos (Z.to_nat (Z.log2 (- n)) + 1) (- n) "")
  else str_pos (Z.to_nat (Z.log2 n) + 1) n "".

(** [s.replace(old, new)] for single characters *)
Fixpoint replace_char (old new : ascii) (s : string) : string :=
  match s with
  | EmptyString => EmptyString
  | String c s' =>
      String (if Ascii.eqb c old then new else c) (replace_char old new s')
  end.

Definition is_alpha (c : ascii) : bool :=
  let n := nat_of_ascii c in
  (((65 <=? n) && (n <=? 90)) || ((97 <=? n) && (n <=? 122)))%nat.

Definition upper_ascii (c : ascii) : ascii :=
  let n := nat_of_ascii c in
  if ((97 <=? n) && (n <=? 122))%nat then ascii_of_nat (n - 32) else c.

Fixpoint title_from (prev_cased : bool) (s : string) : string :=
  match s with
  | EmptyString => EmptyString
  | String c s' =>
      String (if prev_cased then lower_ascii c else upper_ascii c)
             (title_from (is_alpha c) s')
  end.

(** [s.title()] *)
Definition title (s : string) : string := title_from false s.

(** [sep.join(parts)] *)
Fixpoint join (sep : string) (parts : list string) : string :=
  match parts with
  | [] => ""
  | [x] => x
  | x :: rest => x ++ sep ++ join sep rest
  end.

(** how an f-string prints [d.get(key)] *)
Definition fmt (v : option string) : string := default "None" v.

End Py.

(** ** Tables of the scheduling store (tools.py) *)

(** A cell read back from a CSV column: [None] is pandas' NaN. *)
Definition eq_cell (a b : option string) : bool :=
  match a, b with
  | Some x, Some y => String.eqb x y
  | _, _ => false
  end.

(** [column.str.lower() == name.lower()] *)
Definition eq_cell_lower (a : option string) (name : string) : bool :=
  match a with
  | Some x => String.eqb (Py.lower x) (Py.lower name)
  | None => false
  end.

(** patients.csv.  [is_returning] is [Some b] for a cell that equals the
    boolean [b] and [None] for any other cell (an empty one, for
    instance): such a cell equals neither boolean and is truthy. *)
Module Patients.
Record row := {
  patient_id : Z;
  first_name : option string;
  last_name : option string;
  dob : option string;
  is_returning : option bool;
  email : option string;
  location : option string;
  phone_number : string;
  insurance_carrier : string;
  member_id : string;
  group_number : string }.
End Patients.

(** doctor_schedules.csv *)
Module Schedule.
Record row := {
  doctor_name : string;
  date : string;
  time : string;
  is_available : bool }.

Definition set_is_available (b : bool) (r : row) : row :=
  {| doctor_name := doctor_name r; date := date r; time := time r;
     is_available := b |}.
End Schedule.

(** appointments_report.csv *)
Module Appointments.
Record row := {
  appointment_id : string;
  patient_first_name : option string;
  patient_last_name : option string;
  patient_dob : option string;
  patient_phone : string;
  patient_email : option string;
  patient_location : option string;
  doctor_name : option string;
  appointment_date : option string;
  appointment_time : option string;
  duration_minutes : option Z;
  is_returning_patient : option bool;
  insurance_carrier : option string;
  insurance_member_id : option string;
  insurance_group_number : option string;
  created_at : string;
  status : string;
  cancellation_reason : string;
  cancelled_at : string }.

(** the three assignments [df.loc[mask, ...] = ...] of a cancellation *)
Definition cancel_row (reason timestamp : string) (r : row) : row :=
  {| appointment_id := appointment_id r;
     patient_first_name := patient_first_name r;
     patient_last_name := patient_last_name r;
     patient_dob := patient_dob r;
     patient_phone := patient_phone r;
     patient_email := patient_email r;
     patient_location := patient_location r;
     doctor_name := doctor_name r;
     appointment_date := appointment_date r;
     appointment_time := appointment_time r;
     duration_minutes := duration_minutes r;
     is_returning_patient := is_returning_patient r;
     insurance_carrier := insurance_carrier r;
     insurance_member_id := insurance_member_id r;
     insurance_group_number := insurance_group_number r;
     created_at := created_at r;
     status := "Cancelled";
     cancellation_reason :=
       if Py.truthy reason then reason else cancellation_reason r;
     cancelled_at := timestamp |}.
End Appointments.

(** ** Conversation bags (agent.py) *)

(** [patient_info] *)
Module PatientInfo.
Record t := {
  first_name : option string;
  last_name : option string;
  dob : option string;
  location : option string;
  email : option string;
  phone_number : option string;
  is_returning : option bool }.
End PatientInfo.

(** [appointment_info]; [update(selected_slot)] adds the slot's columns *)
Module AppointmentInfo.
Record t := {
  duration : option Z;
  doctor : option string;
  doctor_name : option string;
  date : option string;
  time : option string;
  is_available : option bool }.

Definition empty : t :=
  {| duration := None; doctor := None; doctor_name := None; date := None;
     time := None; is_available := None |}.

(** [appointment_info.update(selected_slot)] *)
Definition update (a : t) (s : Schedule.row) : t :=
  {| duration := duration a; doctor := doctor a;
     doctor_name := Some (Schedule.doctor_name s);
     date := Some (Schedule.date s);
     time := Some (Schedule.time s);
     is_available := Some (Schedule.is_available s) |}.

(** [appointment_info.pop("doctor_name", None)] *)
Definition pop_doctor_name (a : t) : t :=
  {| duration := duration a; doctor := doctor a; doctor_name := None;
     date := date a; time := time a; is_available := is_available a |}.
End AppointmentInfo.

(** ** What [read_csv] makes of a cell that [to_csv] wrote

    With its default arguments [read_csv] takes a cell for a missing value
    when it is one of the markers of [na_values], for a number when it is
    a decimal literal or an infinity word, and for a boolean when it is
    [True] or [False] in one of three spellings.  Every other cell of
    printable characters comes back as the text that was written.
    [Csv.text] holds of cells that come back as text; it is kept simple
    and leaves out somewhat more than the cells pandas converts. *)
Module Csv.

(** the default [na_values], the boolean words and the infinity words, in
    lower case *)
Definition reserved : list string :=
  [""; "#n/a"; "#n/a n/a"; "#na"; "-1.#ind"; "-1.#qnan"; "-nan"; "1.#ind";
   "1.#qnan"; "<na>"; "n/a"; "na"; "null"; "nan"; "+nan"; "none";
   "true"; "false";
   "inf"; "+inf"; "-inf"; "infinity"; "+infinity"; "-infinity"].

(** the cell is, up to case and surrounding blanks, a reserved word *)
Definition is_reserved (s : string) : bool :=
  existsb (String.eqb (Py.lower (Py.strip s))) reserved.

Fixpoint all_chars (f : ascii -> bool) (s : string) : bool :=
  match s with
  | EmptyString => true
  | String c s' => f c && all_chars f s'
  end.

Definition is_sign (c : ascii) : bool :=
  Ascii.eqb c "+" || Ascii.eqb c "-".

(** the characters a decimal literal is made of, blanks around it and the
    underscore that may separate digits included *)
Definition numeric_char (c : ascii) : bool :=
  Py.is_digit c || is_sign c || Ascii.eqb c "." || Ascii.eqb c "e"
  || Ascii.eqb c "E" || Ascii.eqb c " " || Ascii.eqb c "_".

(** a sign right after a digit or the point: no decimal literal has one
    (a sign opens the literal or its exponent) *)
Fixpoint sign_inside (s : string) : bool :=
  match s with
  | EmptyString => false
  | String c s' =>
      match s' with
      | EmptyString => false
      | String c' _ =>
          ((Py.is_digit c || Ascii.eqb c ".") && is_sign c')
          || sign_inside s'
      end
  end.

(** the cell may read as a number *)
Definition may_be_number (s : string) : bool :=
  all_chars numeric_char s && negb (sign_inside s).

Definition printable (c : ascii) : bool :=
  let n := nat_of_ascii c in ((32 <=? n) && (n <=? 126))%nat.

(** the cell comes back as the text that was written *)
Definition text (s : string) : bool :=
  all_chars printable s && negb (is_reserved s) && negb (may_be_number s).

(** a key that is not set is written as an empty cell and comes back as
    NaN; a key that is set comes back as set when it is text *)
Definition stable (cell : option string) : bool :=
  match cell with
  | Some s => text s
  | None => true
  end.

End Csv.

(** ** Files, faults, exceptions *)

Inductive File (A : Type) : Type :=
  | Missing
  | Blank
  | Rows (rows : list A).
Arguments Missing {A}.
Arguments Blank {A}.
Arguments Rows {A} rows.

Record Disk := {
  patients_file : File Patients.row;
  schedule_file : File Schedule.row;
  appointments_file : File Appointments.row }.

Definition set_patients_file (f : File Patients.row) (d : Disk) : Disk :=
  {| patients_file := f; schedule_file := schedule_file d;
     appointments_file := appointments_file d |}.
Definition set_schedule_file (f : File Schedule.row) (d : Disk) : Disk :=
  {| patients_file := patients_file d; schedule_file := f;
     appointments_file := appointments_file d |}.
Definition set_appointments_file (f : File Appointments.row) (d : Disk) : Disk :=
  {| patients_file := patients_file d; schedule_file := schedule_file d;
     appointments_file := f |}.

(** which I/O calls of one operation fail with an [OSError] *)
Record Faults := {
  read_patients : bool;
  write_patients : bool;
  read_schedule : bool;
  write_schedule : bool;
  read_appointments : bool;
  write_appointments : bool }.

Definition no_faults : Faults :=
  {| read_patients := false; write_patients := false;
     read_schedule := false; write_schedule := false;
     read_appointments := false; write_appointments := false |}.

Inductive Exception :=
  | FileNotFoundError | EmptyDataError | OSError
  | ValueError | AttributeError | KeyError | IndexError.

Inductive Result (A : Type) : Type :=
  | Ok (a : A)
  | Raise (e : Exception).
Arguments Ok {A} a.
Arguments Raise {A} e.

(** values produced by the JSON output parser *)
#[warnings="-register-all"]
Inductive PyVal :=
  | PNone
  | PBool (b : bool)
  | PInt (n : Z)
  | PStr (s : string)
  | PList (items : list PyVal)
  | PDict (items : list (string * PyVal)).

(** what one operation takes from outside the program *)
Record Env := {
  now : Z;                                  (* datetime.now() *)
  now_text : string;                        (* its strftime rendering *)
  uuid8 : string;                           (* str(uuid.uuid4())[:8].upper() *)
  faults : Faults;
  to_datetime : string -> option Z;         (* pd.to_datetime on one cell *)
  strptime : string -> string -> option Z;  (* datetime.strptime(text, fmt) *)
  strftime : Z -> string -> string;         (* d.strftime(fmt) *)
  llm_insurance : string -> Result PyVal }. (* the extraction chain *)

(** the mutable world: the files and the record of model invocations *)
Record World := {
  disk : Disk;
  llm_calls : list string }.

Definition set_disk (d : Disk) (w : World) : World :=
  {| disk := d; llm_calls := llm_calls w |}.

(** ** The monad of the store operations: state and exceptions *)

Definition M (A : Type) : Type := World -> Result A * World.

Definition ret {A} (a : A) : M A := fun w => (Ok a, w).

Definition raise {A} (e : Exception) : M A := fun w => (Raise e, w).

Definition bind {A B} (c : M A) (k : A -> M B) : M B :=
  fun w =>
    match c w with
    | (Ok a, w') => k a w'
    | (Raise e, w') => (Raise e, w')
    end.

(** [try: c  except Exception as e: h e] *)
Definition try_except {A} (c : M A) (h : Exception -> M A) : M A :=
  fun w =>
    match c w with
    | (Ok a, w') => (Ok a, w')
    | (Raise e, w') => h e w'
    end.

Declare Scope store_scope.
Delimit Scope store_scope with store.
Notation "x <- c ;; k" := (bind c (fun x => k))
  (at level 100, c at next level, right associativity) : store_scope.
Notation "c ;; k" := (bind c (fun _ => k))
  (at level 100, right associativity) : store_scope.

(** [os.path.exists(path)] *)
Definition path_exists {A} (sel : Disk -> File A) : M bool :=
  fun w =>
    (Ok match sel (disk w) with Missing => false | _ => true end, w).

(** [pd.read_csv(path)].  The rows of a file are the table as pandas
    returns it, with the types it infers; what a cell that the program
    wrote comes back as is the subject of [Csv]. *)
Definition read_csv {A} (fault : bool) (sel : Disk -> File A) : M (list A) :=
  fun w =>
    if fault then (Raise OSError, w)
    else match sel (disk w) with
         | Missing => (Raise FileNotFoundError, w)
         | Blank => (Raise EmptyDataError, w)
         | Rows rows => (Ok rows, w)
         end.

(** [df.to_csv(path, index=False)] *)
Definition to_csv {A} (fault : bool) (set : File A -> Disk -> Disk)
    (rows : list A) : M unit :=
  fun w =>
    if fault then (Raise OSError, w)
    else (Ok tt, set_disk (set (Rows rows) (disk w)) w).

(** [df.empty] *)
Definition df_empty {A} (df : list A) : bool :=
  match df with [] => true | _ => false end.

(** rows paired with their [datetime] column, compared by it *)
Definition earlier_eq (a b : Schedule.row * Z) : Prop := a.2 <= b.2.

#[global] Instance earlier_eq_dec : RelDecision earlier_eq :=
  fun a b => decide (a.2 <= b.2).

(** ** tools.py: [SchedulingTools] *)

Section Tools.

Variable env : Env.

Local Open Scope store_scope.

Definition date_formats : list string :=
  ["%m/%d/%Y"; "%m-%d-%Y"; "%Y-%m-%d"; "%d/%m/%Y"; "%d-%m-%Y"].

Definition _normalize_date_format (dob : string) : string :=
  (fix try_formats (fmts : list string) : string :=
     match fmts with
     | [] => Py.strip dob
     | fmt :: rest =>
         match strptime env (Py.strip dob) fmt with
         | Some d => strftime env d "%Y-%m-%d"
         | None => try_formats rest
         end
     end) date_formats.

(** [bool(cell)] of an [is_returning] cell *)
Definition flag_truthy (cell : option bool) : bool := default true cell.

(** [column == value] on an [is_returning] cell *)
Definition flag_is (value : bool) (cell : option bool) : bool :=
  match cell with
  | Some b => Bool.eqb b value
  | None => false
  end.

Definition lookup_patient (first_name last_name dob : string) : M bool :=
  try_except
    (present <- path_exists patients_file;;
     if negb present then ret false else
     df <- read_csv (read_patients (faults env)) patients_file;;
     if df_empty df then ret false else
     let dob_formatted := _normalize_date_format dob in
     let matching :=
       List.filter
         (fun r => eq_cell_lower (Patients.first_name r) first_name
                   && eq_cell_lower (Patients.last_name r) last_name
                   && eq_cell (Patients.dob r) (Some dob_formatted)) df in
     match matching with
     | r :: _ => ret (flag_truthy (Patients.is_returning r))
     | [] => ret false
     end)
    (fun _ => ret false).

(** the [datetime] cell of a row *)
Definition slot_datetime (r : Schedule.row) : option Z :=
  to_datetime env (Schedule.date r ++ " " ++ Schedule.time r).

(** [pd.to_datetime(df['date'] + ' ' + df['time'])]; [None] when a cell
    does not parse *)
Fixpoint datetime_column (df : list Schedule.row)
    : option (list (Schedule.row * Z)) :=
  match df with
  | [] => Some []
  | r :: rest =>
      match slot_datetime r, datetime_column rest with
      | Some t, Some col => Some ((r, t) :: col)
      | _, _ => None
      end
  end.

(** [available.sort_values('datetime')]; the order pandas gives to rows of
    equal datetime is not fixed, a merge sort stands for it *)
Definition sort_values (rows : list (Schedule.row * Z))
    : list (Schedule.row * Z) :=
  merge_sort earlier_eq rows.

(** [if doctor:] *)
Definition chosen (doctor : option string) : bool := Py.filled doctor.

Definition get_available_slots (doctor : option string) (duration : Z)
    : M (list Schedule.row) :=
  try_except
    (present <- path_exists schedule_file;;
     if negb present then ret [] else
     df <- read_csv (read_schedule (faults env)) schedule_file;;
     if df_empty df then ret [] else
     match datetime_column df with
     | None => raise ValueError
     | Some col =>
         let future_slots := List.filter (fun rt => now env <? rt.2) col in
         let available :=
           List.filter (fun rt => Schedule.is_available rt.1) future_slots in
         let available :=
           if chosen doctor
           then List.filter
                  (fun rt => eq_cell (Some (Schedule.doctor_name rt.1)) doctor)
                  available
           else available in
         let available := sort_values available in
         ret (map fst (take 8 available))
     end)
    (fun _ => ret []).

Definition max_patient_id (df : list Patients.row) : Z :=
  match df with
  | [] => 0
  | r :: rest => fold_left Z.max (map Patients.patient_id rest) (Patients.patient_id r)
  end.

(** the record [new_patient] built by [_add_new_patient] *)
Definition new_patient (new_patient_id : Z) (patient_info : PatientInfo.t)
    (insurance_info : gmap string string) : Patients.row :=
  {| Patients.patient_id := new_patient_id;
     Patients.first_name := PatientInfo.first_name patient_info;
     Patients.last_name := PatientInfo.last_name patient_info;
     Patients.dob := PatientInfo.dob patient_info;
     Patients.is_returning := Some true;
     Patients.email := PatientInfo.email patient_info;
     Patients.location := PatientInfo.location patient_info;
     Patients.phone_number :=
       default "N/A" (PatientInfo.phone_number patient_info);
     Patients.insurance_carrier := default "N/A" (insurance_info !! "carrier");
     Patients.member_id := default "N/A" (insurance_info !! "member_id");
     Patients.group_number :=
       default "N/A" (insurance_info !! "group_number") |}.

Definition _add_new_patient (patient_info : PatientInfo.t)
    (insurance_info : gmap string string) : M unit :=
  try_except
    (existing <-
       try_except
         (df <- read_csv (read_patients (faults env)) patients_file;;
          ret (df, if df_empty df then 1 else max_patient_id df + 1))
         (fun e =>
            match e with
            | FileNotFoundError | EmptyDataError => ret ([], 1)
            | _ => raise e
            end);;
     let df := existing.1 in
     let new_patient_id := existing.2 in
     to_csv (write_patients (faults env)) set_patients_file
       (df ++ [new_patient new_patient_id patient_info insurance_info]))
    (fun _ => ret tt).

(** the slot named by the three keys *)
Definition slot_mask (doctor date time : option string) (r : Schedule.row)
    : bool :=
  eq_cell (Some (Schedule.doctor_name r)) doctor
  && eq_cell (Some (Schedule.date r)) date
  && eq_cell (Some (Schedule.time r)) time.

(** [df.loc[mask, 'is_available'] = is_available] *)
Definition set_availability (doctor date time : option string)
    (is_available : bool) (df : list Schedule.row) : list Schedule.row :=
  map (fun r => if slot_mask doctor date time r
                then Schedule.set_is_available is_available r else r) df.

Definition _update_schedule_availability (doctor date time : option string)
    (is_available : bool) : M unit :=
  try_except
    (present <- path_exists schedule_file;;
     if negb present then ret tt else
     df <- read_csv (read_schedule (faults env)) schedule_file;;
     if df_empty df then ret tt else
     let df := set_availability doctor date time is_available df in
     to_csv (write_schedule (faults env)) set_schedule_file df)
    (fun _ => ret tt).

(** the record [appointment_data] built by [save_appointment] *)
Definition appointment_data (patient_info : PatientInfo.t)
    (appointment_info : AppointmentInfo.t)
    (insurance_info : gmap string string) : Appointments.row :=
  {| Appointments.appointment_id := uuid8 env;
     Appointments.patient_first_name := PatientInfo.first_name patient_info;
     Appointments.patient_last_name := PatientInfo.last_name patient_info;
     Appointments.patient_dob := PatientInfo.dob patient_info;
     Appointments.patient_phone :=
       default "N/A" (PatientInfo.phone_number patient_info);
     Appointments.patient_email := PatientInfo.email patient_info;
     Appointments.patient_location := PatientInfo.location patient_info;
     Appointments.doctor_name := AppointmentInfo.doctor_name appointment_info;
     Appointments.appointment_date := AppointmentInfo.date appointment_info;
     Appointments.appointment_time := AppointmentInfo.time appointment_info;
     Appointments.duration_minutes := AppointmentInfo.duration appointment_info;
     Appointments.is_returning_patient := PatientInfo.is_returning patient_info;
     Appointments.insurance_carrier := insurance_info !! "carrier";
     Appointments.insurance_member_id := insurance_info !! "member_id";
     Appointments.insurance_group_number := insurance_info !! "group_number";
     Appointments.created_at := now_text env;
     Appointments.status := "Confirmed";
     Appointments.cancellation_reason := "";
     Appointments.cancelled_at := "" |}.

Definition save_appointment (patient_info : PatientInfo.t)
    (appointment_info : AppointmentInfo.t)
    (insurance_info : gmap string string) : M string :=
  (if negb (default false (PatientInfo.is_returning patient_info))
   then _add_new_patient patient_info insurance_info
   else ret tt);;
  try_except
    (let appointment_id := uuid8 env in
     df <-
       try_except
         (read_csv (read_appointments (faults env)) appointments_file)
         (fun e =>
            match e with
            | FileNotFoundError | EmptyDataError => ret []
            | _ => raise e
            end);;
     to_csv (write_appointments (faults env)) set_appointments_file
       (df ++ [appointment_data patient_info appointment_info insurance_info]);;
     _update_schedule_availability
       (AppointmentInfo.doctor_name appointment_info)
       (AppointmentInfo.date appointment_info)
       (AppointmentInfo.time appointment_info) false;;
     ret appointment_id)
    (fun _ => ret "ERROR").

(** [not appointment['is_returning_patient']]; a NaN cell is truthy *)
Definition was_new (cell : option bool) : bool :=
  match cell with
  | Some b => negb b
  | None => false
  end.

(** the rows of the patient table that a cancellation removes *)
Definition patient_mask (first last : string) (dob : option string)
    (r : Patients.row) : bool :=
  eq_cell_lower (Patients.first_name r) first
  && eq_cell_lower (Patients.last_name r) last
  && eq_cell (Patients.dob r) dob.

(** [df_appts['appointment_id'] == appointment_id] on a column of text.
    A file in which every id reads as a number gives a numeric column,
    which equals no [str]: the properties in which an id given as text
    has to be found assume [Csv.text] of it. *)
Definition with_id (appointment_id : string) (r : Appointments.row) : bool :=
  String.eqb (Appointments.appointment_id r) appointment_id.

Definition cancel_appointment (appointment_id reason : string) : M bool :=
  try_except
    (present <- path_exists appointments_file;;
     if negb present then ret false else
     df_appts <- read_csv (read_appointments (faults env)) appointments_file;;
     if df_empty df_appts then ret false else
     let mask := with_id appointment_id in
     match List.filter mask df_appts with
     | [] => ret false
     | appointment :: _ =>
         let was_new_patient :=
           was_new (Appointments.is_returning_patient appointment) in
         let df_appts :=
           map (fun r => if mask r
                         then Appointments.cancel_row reason (now_text env) r
                         else r) df_appts in
         to_csv (write_appointments (faults env)) set_appointments_file
           df_appts;;
         _update_schedule_availability
           (Appointments.doctor_name appointment)
           (Appointments.appointment_date appointment)
           (Appointments.appointment_time appointment) true;;
         (if was_new_patient then
            try_except
              (df_patients <-
                 read_csv (read_patients (faults env)) patients_file;;
               match Appointments.patient_first_name appointment,
                     Appointments.patient_last_name appointment with
               | Some first, Some last =>
                   let df_patients :=
                     List.filter
                       (fun r => negb (patient_mask first last
                                  (Appointments.patient_dob appointment) r))
                       df_patients in
                   to_csv (write_patients (faults env)) set_patients_file
                     df_patients
               | _, _ => raise AttributeError
               end)
              (fun _ => ret tt)
          else ret tt);;
         ret true
     end)
    (fun _ => ret false).

End Tools.

(** ** agent.py: conversation state *)

Inductive BaseMessage :=
  | HumanMessage (content : string)
  | AIMessage (content : string).

(** [SchedulingState]; a key that is not set is [None] *)
Record SchedulingState := {
  messages : list BaseMessage;
  current_stage : option string;
  intent : option string;
  patient_info : option PatientInfo.t;
  appointment_info : option AppointmentInfo.t;
  insurance_info : option (gmap string string);
  available_slots : option (list Schedule.row);
  appointment_id : option string }.

(** the dict a node returns: the keys it sets *)
Record Update := {
  u_messages : list BaseMessage;
  u_current_stage : option string;
  u_intent : option string;
  u_patient_info : option PatientInfo.t;
  u_appointment_info : option AppointmentInfo.t;
  u_insurance_info : option (gmap string string);
  u_available_slots : option (list Schedule.row);
  u_appointment_id : option string }.

(** a reply and a stage, nothing else *)
Definition reply (response stage : string) : Update :=
  {| u_messages := [AIMessage response];
     u_current_stage := Some stage;
     u_intent := None; u_patient_info := None; u_appointment_info := None;
     u_insurance_info := None; u_available_slots := None;
     u_appointment_id := None |}.

Definition overwrite {A} (new old : option A) : option A :=
  match new with
  | Some v => Some v
  | None => old
  end.

(** how the graph folds a node's result into the state: [messages] is
    appended to ([add_messages]), every other key that is set replaces the
    stored value *)
Definition apply_update (state : SchedulingState) (u : Update)
    : SchedulingState :=
  {| messages := messages state ++ u_messages u;
     current_stage := overwrite (u_current_stage u) (current_stage state);
     intent := overwrite (u_intent u) (intent state);
     patient_info := overwrite (u_patient_info u) (patient_info state);
     appointment_info :=
       overwrite (u_appointment_info u) (appointment_info state);
     insurance_info := overwrite (u_insurance_info u) (insurance_info state);
     available_slots :=
       overwrite (u_available_slots u) (available_slots state);
     appointment_id := overwrite (u_appointment_id u) (appointment_id state) |}.

(** ** agent.py: [AISchedulingAgent] *)

Definition router (state : SchedulingState) : string :=
  if (length (messages state) <=? 1)%nat then "greeting"
  else
    let intent := default "" (intent state) in
    if String.eqb intent "cancel" then "cancellation"
    else if String.eqb intent "schedule"
         then default "patient_lookup" (current_stage state)
         else default "greeting" (current_stage state).

Definition greeting_message : string :=
"Hello! Welcome to HealthCare Plus Medical Center.

I'm your AI scheduling assistant. I can help you with:
**Scheduling a new appointment**
**Canceling an existing appointment**

How can I assist you today?".

Definition cancel_keywords : list string :=
  ["cancel"; "cancellation"; "remove"; "delete"; "reschedule"].

Definition schedule_keywords : list string :=
  ["schedule"; "book"; "appointment"; "new"; "visit"; "see doctor"; "make";
   "like"].

Definition cancel_response : string :=
  "I'll help you cancel your appointment. Let me gather some information first.".

Definition schedule_response : string :=
"Great! I'll help you schedule an appointment. Let me start by getting some information. 
What is your First Name?".

Definition clarification_response : string :=
"I'd be happy to help! Could you please specify if you'd like to:

1. **Schedule a new appointment**
2. **Cancel an existing appointment**

Please let me know which option you prefer.".

Definition with_intent (u : Update) (i : string) : Update :=
  {| u_messages := u_messages u; u_current_stage := u_current_stage u;
     u_intent := Some i; u_patient_info := u_patient_info u;
     u_appointment_info := u_appointment_info u;
     u_insurance_info := u_insurance_info u;
     u_available_slots := u_available_slots u;
     u_appointment_id := u_appointment_id u |}.

(** Node 1.  [None] is the Python [None] the function returns when the
    last message is not a [HumanMessage]. *)
Definition _greeting_node (state : SchedulingState) : option Update :=
  if (length (messages state) <=? 1)%nat
  then Some (reply greeting_message "greeting")
  else
    match last (messages state) with
    | Some (HumanMessage content) =>
        let message_content := Py.lower content in
        if Py.any_in cancel_keywords message_content
        then Some (with_intent (reply cancel_response "cancellation") "cancel")
        else if Py.any_in schedule_keywords message_content
        then Some (with_intent (reply schedule_response "patient_lookup")
                     "schedule")
        else Some (reply clarification_response "greeting")
    | _ => None
    end.

Section Nodes.

Variable env : Env.

Local Open Scope store_scope.

Definition selected_response (selected_slot : Schedule.row) : string :=
  "Perfect! You've selected:

**Doctor:** " ++ Schedule.doctor_name selected_slot ++ "
**Date:** " ++ Schedule.date selected_slot ++ "
**Time:** " ++ Schedule.time selected_slot ++ "

Now I need to collect your insurance information to complete the booking.".

Definition out_of_range_response (offered : list Schedule.row) : string :=
  "Please choose a valid slot number between 1 and "
  ++ Py.str (Z.of_nat (length offered)) ++ ".".

(** the lines [f"**{i+1}.** {doctor} - {date} at {time}"] of the listing *)
Fixpoint slot_lines (i : Z) (slots : list Schedule.row) : list string :=
  match slots with
  | [] => []
  | s :: rest =>
      ("**" ++ Py.str (i + 1) ++ ".** " ++ Schedule.doctor_name s ++ " - "
       ++ Schedule.date s ++ " at " ++ Schedule.time s)
      :: slot_lines (i + 1) rest
  end.

Definition newline : string := "
".

Definition slots_response (slots : list Schedule.row) : string :=
  "Here are the available appointment slots:

" ++ Py.join newline (slot_lines 0 slots) ++ "

Please select a slot by entering the number (1-"
  ++ Py.str (Z.of_nat (length slots)) ++ ").".

Definition no_slots_response : string :=
"I'm sorry, there are no available slots for the selected doctor right now. 

Would you like to:
1. Try the other doctor
2. Check different dates

Please let me know your preference.".

(** the second half of Node 4: query the schedule and list the slots *)
Definition show_available_slots (appointment_info : AppointmentInfo.t)
    : M Update :=
  available_slots <-
    get_available_slots env
      (AppointmentInfo.doctor_name appointment_info)
      (default 30 (AppointmentInfo.duration appointment_info));;
  if negb (df_empty available_slots)
  then ret {| u_messages := [AIMessage (slots_response available_slots)];
              u_current_stage := Some "calendar_integration";
              u_intent := None; u_patient_info := None;
              u_appointment_info := Some appointment_info;
              u_insurance_info := None;
              u_available_slots := Some available_slots;
              u_appointment_id := None |}
  else ret {| u_messages := [AIMessage no_slots_response];
              u_current_stage := Some "smart_scheduling";
              u_intent := None; u_patient_info := None;
              u_appointment_info :=
                Some (AppointmentInfo.pop_doctor_name appointment_info);
              u_insurance_info := None;
              u_available_slots := Some available_slots;
              u_appointment_id := None |}.

(** Node 4 *)
Definition _calendar_integration_node (state : SchedulingState) : M Update :=
  let appointment_info :=
    default AppointmentInfo.empty (appointment_info state) in
  match last (messages state) with
  | None => raise IndexError
  | Some (HumanMessage content) =>
      match Py.int (Py.strip content) with
      | Some n =>
          let slot_number := n - 1 in
          let available_slots := default [] (available_slots state) in
          if (0 <=? slot_number)
             && (slot_number <? Z.of_nat (length available_slots))
          then
            match available_slots !! Z.to_nat slot_number with
            | Some selected_slot =>
                let appointment_info :=
                  AppointmentInfo.update appointment_info selected_slot in
                ret {| u_messages :=
                         [AIMessage (selected_response selected_slot)];
                       u_current_stage := Some "insurance_collection";
                       u_intent := None; u_patient_info := None;
                       u_appointment_info := Some appointment_info;
                       u_insurance_info := None;
                       u_available_slots := None;
                       u_appointment_id := None |}
            | None => show_available_slots appointment_info
            end
          else ret (reply (out_of_range_response available_slots)
                      "calendar_integration")
      | None => show_available_slots appointment_info
      end
  | Some (AIMessage _) => show_available_slots appointment_info
  end.

Definition self_pay_keywords : list string :=
  ["no insurance"; "self pay"; "self-pay"; "i don't have"; "paying myself";
   "cash"; "no"].

(** [insurance_info.update({...})] of the self-pay branch *)
Definition self_pay (insurance_info : gmap string string)
    : gmap string string :=
  <["group_number" := "N/A"]>
    (<["member_id" := "N/A"]> (<["carrier" := "Self-Pay"]> insurance_info)).

Definition self_pay_response : string :=
  "Understood. I've marked you as a **self-pay patient**. Let me confirm your appointment details now.".

(** truth value of a parsed JSON value *)
Definition py_truthy (v : PyVal) : bool :=
  match v with
  | PNone => false
  | PBool b => b
  | PInt n => negb (n =? 0)
  | PStr s => Py.truthy s
  | PList items => negb (df_empty items)
  | PDict items => negb (df_empty items)
  end.

(** the loop [for key, value in extracted.items()]: the bag is updated in
    place, so what was written before a value without [strip] raised is
    kept *)
Fixpoint merge_extracted (items : list (string * PyVal))
    (insurance_info : gmap string string) : gmap string string :=
  match items with
  | [] => insurance_info
  | (key, value) :: rest =>
      match value with
      | PStr s =>
          if Py.truthy s && Py.truthy (Py.strip s)
          then merge_extracted rest (<[key := Py.strip s]> insurance_info)
          else merge_extracted rest insurance_info
      | other =>
          if py_truthy other then insurance_info
          else merge_extracted rest insurance_info
      end
  end.

(** [chain.invoke({"message": text})] *)
Definition invoke_extraction (text : string) : M PyVal :=
  fun w =>
    (llm_insurance env text,
     {| disk := disk w; llm_calls := llm_calls w ++ [text] |}).

Definition extract_insurance (text : string)
    (insurance_info : gmap string string) : M (gmap string string) :=
  try_except
    (extracted <- invoke_extraction text;;
     match extracted with
     | PDict items => ret (merge_extracted items insurance_info)
     | _ => ret insurance_info
     end)
    (fun _ => ret insurance_info).

Definition required : list string := ["carrier"; "member_id"; "group_number"].

Definition dq : string := String (ascii_of_nat 34) "".

Definition insurance_prompt : string :=
  "Please provide your insurance information, or type " ++ dq ++ "self-pay"
  ++ dq ++ " if you don't have insurance:

**Insurance Carrier** (e.g., Blue Cross Blue Shield, Aetna)
**Member ID**
**Group Number**

You can provide all details at once or type " ++ dq ++ "self-pay" ++ dq
  ++ " if paying out of pocket.".

Definition with_insurance (u : Update) (i : gmap string string) : Update :=
  {| u_messages := u_messages u; u_current_stage := u_current_stage u;
     u_intent := u_intent u; u_patient_info := u_patient_info u;
     u_appointment_info := u_appointment_info u;
     u_insurance_info := Some i;
     u_available_slots := u_available_slots u;
     u_appointment_id := u_appointment_id u |}.

(** the check for required information that ends Node 5 *)
Definition check_required (insurance_info : gmap string string) : Update :=
  let missing :=
    List.filter (fun field => negb (Py.filled (insurance_info !! field)))
      required in
  match missing with
  | [] =>
      with_insurance
        (reply "Thank you! I have all your insurance information. Let me confirm your appointment details."
           "appointment_confirmation") insurance_info
  | first :: _ =>
      let response :=
        if bool_decide (insurance_info = ∅) then insurance_prompt
        else "Please provide your **"
             ++ Py.title (Py.replace_char "_" " " first) ++ "**." in
      with_insurance (reply response "insurance_collection") insurance_info
  end.

(** Node 5 *)
Definition _insurance_collection_node (state : SchedulingState) : M Update :=
  let insurance_info := default ∅ (insurance_info state) in
  match last (messages state) with
  | None => raise IndexError
  | Some (HumanMessage content) =>
      let message_content := Py.lower content in
      if Py.any_in self_pay_keywords message_content
      then ret (with_insurance (reply self_pay_response "appointment_confirmation")
                  (self_pay insurance_info))
      else
        insurance_info <- extract_insurance content insurance_info;;
        ret (check_required insurance_info)
  | Some (AIMessage _) => ret (check_required insurance_info)
  end.

Definition confirmation_response (patient_info : PatientInfo.t)
    (appointment_info : AppointmentInfo.t)
    (insurance_info : gmap string string) (appointment_id : string) : string :=
  "**APPOINTMENT CONFIRMED**

**Appointment Details:**
**Patient:** " ++ Py.fmt (PatientInfo.first_name patient_info) ++ " "
  ++ Py.fmt (PatientInfo.last_name patient_info) ++ "
**Doctor:** " ++ Py.fmt (AppointmentInfo.doctor_name appointment_info) ++ "
**Date & Time:** " ++ Py.fmt (AppointmentInfo.date appointment_info)
  ++ " at " ++ Py.fmt (AppointmentInfo.time appointment_info) ++ "
**Duration:** "
  ++ Py.fmt (Py.str <$> AppointmentInfo.duration appointment_info)
  ++ " minutes
**Insurance:** " ++ Py.fmt (insurance_info !! "carrier") ++ "
**Appointment ID:** " ++ appointment_id ++ "

Your appointment has been successfully booked!
You'll receive a confirmation email shortly with all the details.".

(** Node 6 *)
Definition _appointment_confirmation_node (state : SchedulingState)
    : M Update :=
  match patient_info state, appointment_info state, insurance_info state with
  | Some patient_info, Some appointment_info, Some insurance_info =>
      appointment_id <-
        save_appointment env patient_info appointment_info insurance_info;;
      ret {| u_messages :=
               [AIMessage (confirmation_response patient_info
                             appointment_info insurance_info appointment_id)];
             u_current_stage := Some "form_distribution";
             u_intent := None; u_patient_info := None;
             u_appointment_info := None; u_insurance_info := None;
             u_available_slots := None;
             u_appointment_id := Some appointment_id |}
  | _, _, _ => raise KeyError
  end.

End Nodes.

(** the rows of the three tables; a file that is missing or blank has none *)
Definition file_rows {A} (f : File A) : list A :=
  match f with
  | Rows rows => rows
  | _ => []
  end.

Definition patient_rows (d : Disk) : list Patients.row :=
  file_rows (patients_file d).
Definition schedule_rows (d : Disk) : list Schedule.row :=
  file_rows (schedule_file d).
Definition ledger_rows (d : Disk) : list Appointments.row :=
  file_rows (appointments_file d).

(** [a] is not later than [b] *)
Definition earliest_first (env : Env) (a b : Schedule.row) : Prop :=
  exists ta tb,
    slot_datetime env a = Some ta /\ slot_datetime env b = Some tb /\ ta <= tb.

(** the state after a node ran: its result folded in, or the state as it
    was when the node raised *)
Definition run_node (node : SchedulingState -> M Update)
    (state : SchedulingState) (w : World) : SchedulingState * World :=
  match node state w with
  | (Ok u, w') => (apply_update state u, w')
  | (Raise _, w') => (state, w')
  end.

(** the insurance bag of a state, [state.get("insurance_info", {})] *)
Definition bag (state : SchedulingState) : gmap string string :=
  default ∅ (insurance_info state).

(** ** Concrete states and environments used below *)

Definition state_of (msgs : list BaseMessage) (stage i : option string)
    : SchedulingState :=
  {| messages := msgs; current_stage := stage; intent := i;
     patient_info := None; appointment_info := None; insurance_info := None;
     available_slots := None; appointment_id := None |}.

Definition reschedule_state : SchedulingState :=
  state_of [HumanMessage "Hello"; AIMessage greeting_message;
            HumanMessage "I need to RESCHEDULE my appointment"]
    (Some "greeting") None.

(** A concrete environment to run the operations on: dates are parsed by
    splitting at the separator, a moment is the number [YYYYMMDDhhmm]. *)
Module Demo.

Fixpoint all_digits (s : string) : bool :=
  match s with
  | EmptyString => true
  | String c s' => Py.is_digit c && all_digits s'
  end.

Fixpoint decimal (acc : Z) (s : string) : Z :=
  match s with
  | EmptyString => acc
  | String c s' => decimal (10 * acc + Py.digit_val c) s'
  end.

(** [s.split(sep)] *)
Fixpoint split (sep : ascii) (s : string) : list string :=
  match s with
  | EmptyString => [EmptyString]
  | String c s' =>
      if Ascii.eqb c sep then EmptyString :: split sep s'
      else match split sep s' with
           | [] => [String c EmptyString]
           | x :: rest => String c x :: rest
           end
  end.

Definition field (min_len max_len : nat) (lo hi : Z) (s : string)
    : option Z :=
  let n := String.length s in
  if all_digits s && (min_len <=? n)%nat && (n <=? max_len)%nat
  then let v := decimal 0 s in
       if (lo <=? v) && (v <=? hi) then Some v else None
  else None.

Definition leap (y : Z) : bool :=
  ((y mod 4 =? 0) && negb (y mod 100 =? 0)) || (y mod 400 =? 0).

Definition days_in_month (y m : Z) : Z :=
  if m =? 2 then (if leap y then 29 else 28)
  else if (m =? 4) || (m =? 6) || (m =? 9) || (m =? 11) then 30
  else 31.

Definition make_date (y m d : option Z) : option Z :=
  match y, m, d with
  | Some y, Some m, Some d =>
      if d <=? days_in_month y m then Some (y * 10000 + m * 100 + d)
      else None
  | _, _, _ => None
  end.

Definition year (s : string) : option Z := field 4 4 1 9999 s.
Definition month (s : string) : option Z := field 1 2 1 12 s.
Definition day (s : string) : option Z := field 1 2 1 31 s.

Definition parse_date (text fmt : string) : option Z :=
  let parts (sep : ascii) (order : string * string * string -> option Z) :=
    match split sep text with
    | [a; b; c] => order (a, b, c)
    | _ => None
    end in
  if String.eqb fmt "%m/%d/%Y"
  then parts "/"%char (fun '(a, b, c) => make_date (year c) (month a) (day b))
  else if String.eqb fmt "%m-%d-%Y"
  then parts "-"%char (fun '(a, b, c) => make_date (year c) (month a) (day b))
  else if String.eqb fmt "%Y-%m-%d"
  then parts "-"%char (fun '(a, b, c) => make_date (year a) (month b) (day c))
  else if String.eqb fmt "%d/%m/%Y"
  then parts "/"%char (fun '(a, b, c) => make_date (year c) (month b) (day a))
  else if String.eqb fmt "%d-%m-%Y"
  then parts "-"%char (fun '(a, b, c) => make_date (year c) (month b) (day a))
  else None.

Definition pad (width : nat) (n : Z) : string :=
  let s := Py.str n in
  String.concat "" (repeat "0" (width - String.length s)) ++ s.

(** the rendering [%Y-%m-%d] *)
Definition render_date (d : Z) (fmt : string) : string :=
  pad 4 (d / 10000) ++ "-" ++ pad 2 (d / 100 mod 100) ++ "-"
  ++ pad 2 (d mod 100).

Definition parse_moment (text : string) : option Z :=
  match split " "%char text with
  | [d; t] =>
      match parse_date d "%Y-%m-%d", split ":"%char t with
      | Some ymd, [h; m] =>
          match field 1 2 0 23 h, field 2 2 0 59 m with
          | Some h, Some m => Some (ymd * 10000 + h * 100 + m)
          | _, _ => None
          end
      | _, _ => None
      end
  | _ => None
  end.

(** the model answers with nothing usable *)
Definition silent (text : string) : Result PyVal := Ok (PDict []).

Definition env (f : Faults) (llm : string -> Result PyVal) : Env :=
  {| now := 202601050800;
     now_text := "2026-01-05 08:00:00";
     uuid8 := "1A2B3C4D";
     faults := f;
     to_datetime := parse_moment;
     strptime := parse_date;
     strftime := render_date;
     llm_insurance := llm |}.

Definition slot (doctor date time : string) (free : bool) : Schedule.row :=
  {| Schedule.doctor_name := doctor; Schedule.date := date;
     Schedule.time := time; Schedule.is_available := free |}.

Definition chen : string := "Dr. Emily Chen".
Definition rodriguez : string := "Dr. David Rodriguez".

Definition schedule : list Schedule.row :=
  [ slot chen "2026-01-06" "09:30" true;
    slot chen "2026-01-06" "09:00" true;
    slot rodriguez "2026-01-06" "09:00" true;
    slot chen "2026-01-05" "07:30" true;
    slot chen "2026-01-06" "10:00" false;
    slot chen "2026-01-07" "09:00" true ].

(** the second record of the sample directory the program creates *)
Definition jane_row : Patients.row :=
  {| Patients.patient_id := 2;
     Patients.first_name := Some "Jane";
     Patients.last_name := Some "Smith";
     Patients.dob := Some "1990-07-22";
     Patients.is_returning := Some false;
     Patients.email := Some "jane.smith@email.com";
     Patients.location := Some "456 Oak Ave, Anytown, USA";
     Patients.phone_number := "555-0124";
     Patients.insurance_carrier := "Aetna";
     Patients.member_id := "987654321";
     Patients.group_number := "123456" |}.

Definition person (first last dob : string) (returning : option bool)
    : PatientInfo.t :=
  {| PatientInfo.first_name := Some first;
     PatientInfo.last_name := Some last;
     PatientInfo.dob := Some dob;
     PatientInfo.location := Some "456 Oak Ave, Anytown, USA";
     PatientInfo.email := Some "jane.smith@email.com";
     PatientInfo.phone_number := None;
     PatientInfo.is_returning := returning |}.

Definition jane : PatientInfo.t :=
  person "Jane" "Smith" "1990-07-22" (Some false).

Definition amy : PatientInfo.t :=
  person "Amy" "Davis" "1988-11-30" (Some false).

(** the appointment bag after the slot [chen], 2026-01-06, 09:00 was
    chosen *)
Definition chosen_slot : AppointmentInfo.t :=
  AppointmentInfo.update
    {| AppointmentInfo.duration := Some 60; AppointmentInfo.doctor := None;
       AppointmentInfo.doctor_name := Some chen;
       AppointmentInfo.date := None; AppointmentInfo.time := None;
       AppointmentInfo.is_available := None |}
    (slot chen "2026-01-06" "09:00" true).

Definition self_pay_bag : gmap string string :=
  {["carrier" := "Self-Pay"; "member_id" := "N/A"; "group_number" := "N/A"]}.

Definition world (d : Disk) : World := {| disk := d; llm_calls := [] |}.

Definition disk0 : Disk :=
  {| patients_file := Rows [jane_row];
     schedule_file := Rows schedule;
     appointments_file := Rows [] |}.

End Demo.

(** states in the middle of a booking conversation *)
Definition booking_state (last_message : string)
    (offered : option (list Schedule.row))
    (insurance : option (gmap string string)) (stage : string)
    : SchedulingState :=
  {| messages := [HumanMessage "Hello"; AIMessage greeting_message;
                  HumanMessage last_message];
     current_stage := Some stage;
     intent := Some "schedule";
     patient_info := Some Demo.amy;
     appointment_info := Some Demo.chosen_slot;
     insurance_info := insurance;
     available_slots := offered;
     appointment_id := None |}.

Definition five_slots : list Schedule.row :=
  [ Demo.slot Demo.chen "2026-01-06" "09:00" true;
    Demo.slot Demo.chen "2026-01-06" "09:30" true;
    Demo.slot Demo.chen "2026-01-07" "09:00" true;
    Demo.slot Demo.chen "2026-01-07" "09:30" true;
    Demo.slot Demo.chen "2026-01-08" "09:00" true ].

(** the model finds a member id and returns blanks for the rest *)
Definition blank_carrier (text : string) : Result PyVal :=
  Ok (PDict [("carrier", PStr "  "); ("member_id", PStr " 123456789 ");
             ("group_number", PStr "")]).

Definition aetna_bag : gmap string string := {["carrier" := "Aetna"]}.

(** the identity tuple of a patient record and of a patient bag *)
Definition patient_key (r : Patients.row)
    : option string * option string * option string :=
  (Patients.first_name r, Patients.last_name r, Patients.dob r).

Definition info_key (p : PatientInfo.t)
    : option string * option string * option string :=
  (PatientInfo.first_name p, PatientInfo.last_name p, PatientInfo.dob p).

(** no two records of the table have the same identity tuple *)
Definition unique_patients (rows : list Patients.row) : Prop :=
  NoDup (map patient_key rows).

(** the slot an appointment bag names *)
Definition booked_slot (a : AppointmentInfo.t) (r : Schedule.row) : bool :=
  slot_mask (AppointmentInfo.doctor_name a) (AppointmentInfo.date a)
    (AppointmentInfo.time a) r.

(** the schedule with the slot of [a] set to [b] and every other row as it
    was *)
Definition with_slot (a : AppointmentInfo.t) (b : bool)
    (rows : list Schedule.row) : list Schedule.row :=
  set_availability (AppointmentInfo.doctor_name a) (AppointmentInfo.date a)
    (AppointmentInfo.time a) b rows.



(** writing the schedule fails *)
Definition schedule_write_fails : Faults :=
  {| read_patients := false; write_patients := false;
     read_schedule := false; write_schedule := true;
     read_appointments := false; write_appointments := false |}.

(** a world given by its three files and its record of model calls *)
Definition world_of (pf : File Patients.row) (sf : File Schedule.row)
    (af : File Appointments.row) (calls : list string) : World :=
  {| disk := {| patients_file := pf; schedule_file := sf;
                appointments_file := af |};
     llm_calls := calls |}.

(** neither reading nor writing the schedule fails *)
Definition schedule_io_ok (env : Env) : Prop :=
  read_schedule (faults env) = false /\ write_schedule (faults env) = false.

(** neither reading nor writing the patient table fails *)
Definition patients_io_ok (env : Env) : Prop :=
  read_patients (faults env) = false /\ write_patients (faults env) = false.

(** the patient table without the records of an identity *)
Definition without_patient (first last : string) (dob : option string)
    (rows : list Patients.row) : list Patients.row :=
  List.filter (fun r => negb (patient_mask first last dob r)) rows.

(** ** tools.py: the remaining store operations *)

(** rows of the ledger compared by [created_at], latest first *)
Definition later_eq (a b : Appointments.row) : Prop :=
  String.leb (Appointments.created_at b) (Appointments.created_at a) = true.

#[global] Instance later_eq_dec : RelDecision later_eq :=
  fun a b =>
    decide (String.leb (Appointments.created_at b) (Appointments.created_at a)
            = true).

(** [patient_info] with no key set *)
Definition no_patient_info : PatientInfo.t :=
  {| PatientInfo.first_name := None; PatientInfo.last_name := None;
     PatientInfo.dob := None; PatientInfo.location := None;
     PatientInfo.email := None; PatientInfo.phone_number := None;
     PatientInfo.is_returning := None |}.

(** [df.loc[mask, 'email'] = email] on one row *)
Definition set_email (email : string) (r : Patients.row) : Patients.row :=
  {| Patients.patient_id := Patients.patient_id r;
     Patients.first_name := Patients.first_name r;
     Patients.last_name := Patients.last_name r;
     Patients.dob := Patients.dob r;
     Patients.is_returning := Patients.is_returning r;
     Patients.email := Some email;
     Patients.location := Patients.location r;
     Patients.phone_number := Patients.phone_number r;
     Patients.insurance_carrier := Patients.insurance_carrier r;
     Patients.member_id := Patients.member_id r;
     Patients.group_number := Patients.group_number r |}.

(** the dict returned by [get_patient_count] *)
Record PatientCount := {
  returning : Z;
  new : Z;
  total : Z }.

Section MoreTools.

Variable env : Env.

Local Open Scope store_scope.

(** the rows of the ledger that [find_appointment_by_patient] matches *)
Definition appointment_mask (patient_info : PatientInfo.t)
    (r : Appointments.row) : bool :=
  eq_cell_lower (Appointments.patient_first_name r)
    (default "" (PatientInfo.first_name patient_info))
  && eq_cell_lower (Appointments.patient_last_name r)
       (default "" (PatientInfo.last_name patient_info))
  && eq_cell (Appointments.patient_dob r)
       (Some (_normalize_date_format env
                (default "" (PatientInfo.dob patient_info)))).

(** [df['status'] == 'Confirmed'] *)
Definition is_confirmed (r : Appointments.row) : bool :=
  String.eqb (Appointments.status r) "Confirmed".

(** [match.sort_values(by='created_at', ascending=False)]; the order of
    rows with equal [created_at] is not fixed by pandas *)
Definition sort_latest_first (rows : list Appointments.row)
    : list Appointments.row :=
  merge_sort later_eq rows.

Definition find_appointment_by_patient (patient_info : PatientInfo.t)
    : M (option Appointments.row) :=
  try_except
    (present <- path_exists appointments_file;;
     if negb present then ret None else
     df <- read_csv (read_appointments (faults env)) appointments_file;;
     if df_empty df then ret None else
     let confirmed := List.filter is_confirmed df in
     if df_empty confirmed then ret None else
     let matching :=
       List.filter (appointment_mask patient_info) confirmed in
     match sort_latest_first matching with
     | latest :: _ => ret (Some latest)
     | [] => ret None
     end)
    (fun _ => ret None).

(** the rows of the patient table that [update_patient_email] and
    [lookup_patient] match *)
Definition identity_mask (first_name last_name dob : string)
    (r : Patients.row) : bool :=
  eq_cell_lower (Patients.first_name r) first_name
  && eq_cell_lower (Patients.last_name r) last_name
  && eq_cell (Patients.dob r) (Some (_normalize_date_format env dob)).

Definition update_patient_email (first_name last_name dob email : string)
    : M bool :=
  try_except
    (present <- path_exists patients_file;;
     if negb present then ret false else
     df <- read_csv (read_patients (faults env)) patients_file;;
     if df_empty df then ret false else
     let mask := identity_mask first_name last_name dob in
     if existsb mask df
     then
       to_csv (write_patients (faults env)) set_patients_file
         (map (fun r => if mask r then set_email email r else r) df);;
       ret true
     else ret false)
    (fun _ => ret false).

Definition get_appointments_report : M (list Appointments.row) :=
  try_except
    (present <- path_exists appointments_file;;
     if present
     then read_csv (read_appointments (faults env)) appointments_file
     else ret [])
    (fun _ => ret []).

Definition no_patients : PatientCount :=
  {| returning := 0; new := 0; total := 0 |}.

Definition get_patient_count : M PatientCount :=
  try_except
    (present <- path_exists patients_file;;
     if negb present then ret no_patients else
     df <- read_csv (read_patients (faults env)) patients_file;;
     if df_empty df then ret no_patients else
     let returning :=
       length (List.filter (fun r => flag_is true (Patients.is_returning r))
                 df) in
     let new :=
       length (List.filter (fun r => flag_is false (Patients.is_returning r))
                 df) in
     ret {| returning := Z.of_nat returning; new := Z.of_nat new;
            total := Z.of_nat (length df) |})
    (fun _ => ret no_patients).

End MoreTools.

(** ** tools.py: creating the data files *)

(** one patient as the [Faker] library invents it *)
Record FakePerson := {
  fake_first_name : string;
  fake_last_name : string;
  fake_date_of_birth : string;
  fake_email : string;
  fake_address : string;
  fake_phone_number : string;
  fake_carrier : string;
  fake_ssn : string;
  fake_group : string }.

(** what the constructor of [SchedulingTools] takes from the machine *)
Record Host := {
  today : Z;                         (* datetime.now(), as a day ordinal *)
  isoformat : Z -> string;           (* strftime('%Y-%m-%d') of a day *)
  seeded_draw : bool;                (* random.seed(42); random.random() > 0.3 *)
  faker : option (nat -> FakePerson) (* None: the import of faker fails *) }.

(** [date.weekday()]: Monday is 0 *)
Definition weekday (day : Z) : Z := (day + 6) mod 7.

(** [f"{n:02d}"] *)
Definition two_digits (n : Z) : string :=
  if (0 <=? n) && (n <? 10) then "0" ++ Py.str n else Py.str n.

Definition doctors : list string := ["Dr. Emily Chen"; "Dr. David Rodriguez"].

Section DataFiles.

Variable env : Env.
Variable host : Host.

Local Open Scope store_scope.

Definition fake_patient (fake : nat -> FakePerson) (i : nat) : Patients.row :=
  {| Patients.patient_id := Z.of_nat i + 1;
     Patients.first_name := Some (fake_first_name (fake i));
     Patients.last_name := Some (fake_last_name (fake i));
     Patients.dob := Some (fake_date_of_birth (fake i));
     Patients.is_returning := Some (negb (Nat.even i));
     Patients.email := Some (fake_email (fake i));
     Patients.location := Some (fake_address (fake i));
     Patients.phone_number := fake_phone_number (fake i);
     Patients.insurance_carrier := fake_carrier (fake i);
     Patients.member_id := fake_ssn (fake i);
     Patients.group_number := fake_group (fake i) |}.

(** the two records written when [faker] cannot be imported *)
Definition basic_data : list Patients.row :=
  [ {| Patients.patient_id := 1;
       Patients.first_name := Some "John";
       Patients.last_name := Some "Doe";
       Patients.dob := Some "1985-03-15";
       Patients.is_returning := Some true;
       Patients.email := Some "john.doe@email.com";
       Patients.location := Some "123 Main St, Anytown, USA";
       Patients.phone_number := "555-0123";
       Patients.insurance_carrier := "Blue Cross Blue Shield";
       Patients.member_id := "123456789";
       Patients.group_number := "987654" |};
    {| Patients.patient_id := 2;
       Patients.first_name := Some "Jane";
       Patients.last_name := Some "Smith";
       Patients.dob := Some "1990-07-22";
       Patients.is_returning := Some false;
       Patients.email := Some "jane.smith@email.com";
       Patients.location := Some "456 Oak Ave, Anytown, USA";
       Patients.phone_number := "555-0124";
       Patients.insurance_carrier := "Aetna";
       Patients.member_id := "987654321";
       Patients.group_number := "123456" |} ].

Definition _create_sample_patients : M unit :=
  match faker host with
  | Some fake =>
      to_csv (write_patients (faults env)) set_patients_file
        (map (fake_patient fake) (seq 0 50))
  | None =>
      to_csv (write_patients (faults env)) set_patients_file basic_data
  end.

(** the slots of one doctor on one day: 9:00 to 16:30, every half hour *)
Definition doctor_day (doctor : string) (day : Z) : list Schedule.row :=
  flat_map
    (fun hour =>
       map (fun minute =>
              {| Schedule.doctor_name := doctor;
                 Schedule.date := isoformat host day;
                 Schedule.time := two_digits hour ++ ":" ++ two_digits minute;
                 Schedule.is_available := seeded_draw host |})
         [0; 30])
    (map Z.of_nat (seq 9 8)).

(** the rows appended in one turn of the loop over the fourteen days *)
Definition schedule_day (day : Z) : list Schedule.row :=
  if weekday day <? 5
  then flat_map (fun doctor => doctor_day doctor day) doctors
  else [].

Definition generated_schedule : list Schedule.row :=
  flat_map (fun k => schedule_day (today host + 1 + Z.of_nat k)) (seq 0 14).

Definition _create_doctor_schedule : M unit :=
  to_csv (write_schedule (faults env)) set_schedule_file generated_schedule.

Definition _create_appointments_file : M unit :=
  to_csv (write_appointments (faults env)) set_appointments_file [].

Definition _ensure_data_files_exist : M unit :=
  present <- path_exists patients_file;;
  (if negb present then _create_sample_patients else ret tt);;
  present <- path_exists schedule_file;;
  (if negb present then _create_doctor_schedule else ret tt);;
  present <- path_exists appointments_file;;
  (if negb present then _create_appointments_file else ret tt).

End DataFiles.

(** a computation leaves an observation of the world as it was, whether
    it returns or raises *)
Definition preserves {A X} (observe : World -> X) (c : M A) : Prop :=
  forall w, observe (c w).2 = observe w.

(** the patient file of a world *)
Definition patients_of (w : World) : File Patients.row :=
  patients_file (disk w).

(** ** agent.py: the remaining nodes *)

(** [s.split()]: the maximal runs of non-whitespace characters *)
Fixpoint split_words (current : string) (s : string) : list string :=
  match s with
  | EmptyString =>
      match current with EmptyString => [] | _ => [current] end
  | String c s' =>
      if Py.isspace c
      then match current with
           | EmptyString => split_words EmptyString s'
           | _ => current :: split_words EmptyString s'
           end
      else split_words (current ++ String c EmptyString) s'
  end.

Definition py_split (s : string) : list string := split_words EmptyString s.

Definition is_upper (c : ascii) : bool :=
  let n := nat_of_ascii c in ((65 <=? n) && (n <=? 90))%nat.

(** [s.isalpha()] *)
Fixpoint all_alpha (s : string) : bool :=
  match s with
  | EmptyString => true
  | String c s' => Py.is_alpha c && all_alpha s'
  end.

Definition isalpha (s : string) : bool := Py.truthy s && all_alpha s.

(** [d.get(key)] on a parsed JSON object whose keys are distinct *)
Fixpoint py_get (key : string) (items : list (string * PyVal))
    : option PyVal :=
  match items with
  | [] => None
  | (k, v) :: rest => if String.eqb k key then Some v else py_get key rest
  end.

(** what the conversation takes from outside besides [Env] *)
Record Chat := {
  (* re.search(pattern, text, flags): the groups of the first match,
     group 0 first; the flag says whether re.IGNORECASE is given *)
  re_search : string -> bool -> string -> option (list (option string));
  llm_names : string -> Result PyVal;   (* the name extraction chain *)
  credentials : bool;                   (* EMAIL_USER and EMAIL_PASSWORD set *)
  smtp_send : string -> string -> bool  (* the SMTP delivery succeeded *) }.

(** [match.group(n)] *)
Definition group (n : nat) (m : list (option string)) : option string :=
  default None (m !! n).

Definition set_first_name (v : string) (p : PatientInfo.t) : PatientInfo.t :=
  {| PatientInfo.first_name := Some v;
     PatientInfo.last_name := PatientInfo.last_name p;
     PatientInfo.dob := PatientInfo.dob p;
     PatientInfo.location := PatientInfo.location p;
     PatientInfo.email := PatientInfo.email p;
     PatientInfo.phone_number := PatientInfo.phone_number p;
     PatientInfo.is_returning := PatientInfo.is_returning p |}.

Definition set_last_name (v : string) (p : PatientInfo.t) : PatientInfo.t :=
  {| PatientInfo.first_name := PatientInfo.first_name p;
     PatientInfo.last_name := Some v;
     PatientInfo.dob := PatientInfo.dob p;
     PatientInfo.location := PatientInfo.location p;
     PatientInfo.email := PatientInfo.email p;
     PatientInfo.phone_number := PatientInfo.phone_number p;
     PatientInfo.is_returning := PatientInfo.is_returning p |}.

Definition set_dob (v : string) (p : PatientInfo.t) : PatientInfo.t :=
  {| PatientInfo.first_name := PatientInfo.first_name p;
     PatientInfo.last_name := PatientInfo.last_name p;
     PatientInfo.dob := Some v;
     PatientInfo.location := PatientInfo.location p;
     PatientInfo.email := PatientInfo.email p;
     PatientInfo.phone_number := PatientInfo.phone_number p;
     PatientInfo.is_returning := PatientInfo.is_returning p |}.

Definition set_location (v : string) (p : PatientInfo.t) : PatientInfo.t :=
  {| PatientInfo.first_name := PatientInfo.first_name p;
     PatientInfo.last_name := PatientInfo.last_name p;
     PatientInfo.dob := PatientInfo.dob p;
     PatientInfo.location := Some v;
     PatientInfo.email := PatientInfo.email p;
     PatientInfo.phone_number := PatientInfo.phone_number p;
     PatientInfo.is_returning := PatientInfo.is_returning p |}.

Definition set_patient_email (v : string) (p : PatientInfo.t)
    : PatientInfo.t :=
  {| PatientInfo.first_name := PatientInfo.first_name p;
     PatientInfo.last_name := PatientInfo.last_name p;
     PatientInfo.dob := PatientInfo.dob p;
     PatientInfo.location := PatientInfo.location p;
     PatientInfo.email := Some v;
     PatientInfo.phone_number := PatientInfo.phone_number p;
     PatientInfo.is_returning := PatientInfo.is_returning p |}.

Definition set_is_returning (v : bool) (p : PatientInfo.t) : PatientInfo.t :=
  {| PatientInfo.first_name := PatientInfo.first_name p;
     PatientInfo.last_name := PatientInfo.last_name p;
     PatientInfo.dob := PatientInfo.dob p;
     PatientInfo.location := PatientInfo.location p;
     PatientInfo.email := PatientInfo.email p;
     PatientInfo.phone_number := PatientInfo.phone_number p;
     PatientInfo.is_returning := Some v |}.

(** [patient_info.get(field)] for the fields the nodes ask for *)
Definition patient_field (field : string) (p : PatientInfo.t)
    : option string :=
  if String.eqb field "first_name" then PatientInfo.first_name p
  else if String.eqb field "last_name" then PatientInfo.last_name p
  else if String.eqb field "dob" then PatientInfo.dob p
  else if String.eqb field "location" then PatientInfo.location p
  else if String.eqb field "email" then PatientInfo.email p
  else None.

(** [[field for field in fields if not patient_info.get(field)]] *)
Definition missing_fields (fields : list string) (p : PatientInfo.t)
    : list string :=
  List.filter (fun field => negb (Py.filled (patient_field field p))) fields.

(** [[f for f in fields if patient_info.get(f)]] *)
Definition completed_fields (fields : list string) (p : PatientInfo.t)
    : list string :=
  List.filter (fun field => Py.filled (patient_field field p)) fields.

Definition with_patient_info (u : Update) (p : PatientInfo.t) : Update :=
  {| u_messages := u_messages u; u_current_stage := u_current_stage u;
     u_intent := u_intent u; u_patient_info := Some p;
     u_appointment_info := u_appointment_info u;
     u_insurance_info := u_insurance_info u;
     u_available_slots := u_available_slots u;
     u_appointment_id := u_appointment_id u |}.

Definition with_appointment_info (u : Update) (a : AppointmentInfo.t)
    : Update :=
  {| u_messages := u_messages u; u_current_stage := u_current_stage u;
     u_intent := u_intent u; u_patient_info := u_patient_info u;
     u_appointment_info := Some a;
     u_insurance_info := u_insurance_info u;
     u_available_slots := u_available_slots u;
     u_appointment_id := u_appointment_id u |}.

Definition common_words : list string :=
  ["the"; "and"; "or"; "but"; "in"; "on"; "at"; "to"; "for"; "of"; "with";
   "by"; "from"; "up"; "about"; "into"; "through"; "during"; "before";
   "after"; "above"; "below"; "between"; "among"; "this"; "that"; "these";
   "those"; "i"; "you"; "he"; "she"; "it"; "we"; "they"; "me"; "him";
   "her"; "us"; "them"; "my"; "your"; "his"; "her"; "its"; "our"; "their";
   "like"; "want"; "need"; "book"; "cancel"; "schedule"; "appointment"].

Definition _is_common_word (word : string) : bool :=
  existsb (String.eqb (Py.lower word)) common_words.

Definition _looks_like_name (word : string) : bool :=
  match word with
  | EmptyString => false
  | String c _ =>
      if (String.length word <? 2)%nat then false
      else is_upper c && isalpha word
  end.

Definition name_patterns : list string :=
  ["\bi am\s+([A-Z][a-z]+)(?:\s+([A-Z][a-z]*))?\b";
   "\bmy name is\s+([A-Z][a-z]+)(?:\s+([A-Z][a-z]*))?\b";
   "\bthis is\s+([A-Z][a-z]+)(?:\s+([A-Z][a-z]*))?\b"].

Definition email_pattern : string :=
  "\b[A-Za-z0-9._%+-]+@[A-Za-z0-9.-]+\.[A-Z|a-z]{2,}\b".

Definition non_name_responses : list string :=
  ["okay"; "sure"; "yes"; "no"; "ok"; "yeah"; "yep"; "alright"; "fine"].

Definition field_question (field : string) : string :=
  if String.eqb field "first_name" then "What is your first name?"
  else if String.eqb field "last_name" then "What is your last name?"
  else if String.eqb field "dob"
  then "What is your date of birth? Please use MM/DD/YYYY format."
  else if String.eqb field "location" then "What is your home address?"
  else if String.eqb field "email" then "What is your email address?"
  else "None".

Definition required_fields : list string :=
  ["first_name"; "last_name"; "dob"; "location"; "email"].

Definition cancellation_fields : list string :=
  ["first_name"; "last_name"; "dob"].

Section MoreNodes.

Variable env : Env.
Variable chat : Chat.

Local Open Scope store_scope.

(** the first pattern that matches gives the names *)
Fixpoint first_pattern_match (patterns : list string) (text : string)
    : option (list (option string)) :=
  match patterns with
  | [] => None
  | pattern :: rest =>
      match re_search chat pattern true text with
      | Some m => Some m
      | None => first_pattern_match rest text
      end
  end.

(** the loop over adjacent words of pattern 4 *)
Fixpoint adjacent_names (words : list string) : option (string * string) :=
  match words with
  | word1 :: ((word2 :: _) as rest) =>
      if _looks_like_name word1 && _looks_like_name word2
         && negb (_is_common_word word1) && negb (_is_common_word word2)
      then Some (word1, word2)
      else adjacent_names rest
  | _ => None
  end.

Definition _simple_name_extraction (text : string)
    : option string * option string :=
  let text := Py.strip text in
  match first_pattern_match name_patterns text with
  | Some m =>
      (group 1 m, if Py.filled (group 2 m) then group 2 m else None)
  | None =>
      match adjacent_names (py_split text) with
      | Some (word1, word2) => (Some word1, Some word2)
      | None => (None, None)
      end
  end.

(** [extraction_chain.invoke({"message": text})] *)
Definition invoke_names (text : string) : M PyVal :=
  fun w =>
    (llm_names chat text,
     {| disk := disk w; llm_calls := llm_calls w ++ [text] |}).

(** [result.get(key, "").strip()] *)
Definition stripped_entry (key : string) (items : list (string * PyVal))
    : M string :=
  match py_get key items with
  | None => ret ""
  | Some (PStr s) => ret (Py.strip s)
  | Some _ => raise AttributeError
  end.

(** the names found by the model: a first name and perhaps a last name *)
Definition _llm_name_extraction (text : string)
    : M (option (string * option string)) :=
  try_except
    (result <- invoke_names text;;
     match result with
     | PDict items =>
         first_name <- stripped_entry "first_name" items;;
         last_name <- stripped_entry "last_name" items;;
         if Py.truthy first_name && (1 <? String.length first_name)%nat
            && negb (_is_common_word first_name)
         then ret (Some (first_name,
                         if Py.truthy last_name then Some last_name else None))
         else ret None
     | _ => ret None
     end)
    (fun _ => ret None).

(** the extraction applied to the first missing field *)
Definition extract_patient_field (current_field user_input : string)
    (p : PatientInfo.t) : M PatientInfo.t :=
  if String.eqb current_field "first_name" then
    let names := _simple_name_extraction user_input in
    match names.1 with
    | Some first_name =>
        if Py.truthy first_name
        then ret (match names.2 with
                  | Some last_name =>
                      if Py.truthy last_name
                      then set_last_name last_name (set_first_name first_name p)
                      else set_first_name first_name p
                  | None => set_first_name first_name p
                  end)
        else
          if negb (existsb (String.eqb (Py.lower user_input))
                     non_name_responses)
          then
            extracted_names <- _llm_name_extraction user_input;;
            match extracted_names with
            | Some (first_name, Some last_name) =>
                ret (set_last_name last_name (set_first_name first_name p))
            | Some (first_name, None) => ret (set_first_name first_name p)
            | None => ret (set_first_name user_input p)
            end
          else ret p
    | None =>
        if negb (existsb (String.eqb (Py.lower user_input))
                   non_name_responses)
        then
          extracted_names <- _llm_name_extraction user_input;;
          match extracted_names with
          | Some (first_name, Some last_name) =>
              ret (set_last_name last_name (set_first_name first_name p))
          | Some (first_name, None) => ret (set_first_name first_name p)
          | None => ret (set_first_name user_input p)
          end
        else ret p
    end
  else if String.eqb current_field "last_name" then
    if Py.truthy user_input && (0 <? String.length (Py.strip user_input))%nat
    then ret (set_last_name (Py.strip user_input) p)
    else ret p
  else if String.eqb current_field "dob" then
    ret (set_dob (_normalize_date_format env user_input) p)
  else if String.eqb current_field "location" then
    ret (set_location (Py.strip user_input) p)
  else if String.eqb current_field "email" then
    match re_search chat email_pattern false user_input with
    | Some m => ret (set_patient_email (default "" (group 0 m)) p)
    | None => ret (set_patient_email (Py.strip user_input) p)
    end
  else ret p.

(** ["Got it! **First Name, Last Name**\n\n"], or nothing *)
Definition progress (fields : list string) (p : PatientInfo.t) : string :=
  match completed_fields fields p with
  | [] => ""
  | completed =>
      "Got it! **"
      ++ Py.join ", "
           (map (fun f => Py.title (Py.replace_char "_" " " f)) completed)
      ++ "**

"
  end.

Definition found_response (p : PatientInfo.t) (is_returning : bool)
    : string :=
  "Perfect! I found you in our system as a **"
  ++ (if is_returning then "returning patient" else "new patient")
  ++ "**, " ++ default "" (PatientInfo.first_name p) ++ ".

**Your Information:**
**Name:** " ++ Py.fmt (PatientInfo.first_name p) ++ " "
  ++ Py.fmt (PatientInfo.last_name p) ++ "
**DOB:** " ++ Py.fmt (PatientInfo.dob p) ++ "
**Email:** " ++ Py.fmt (PatientInfo.email p) ++ "

Which doctor would you prefer for your appointment?
**Dr. Emily Chen** (Internal Medicine)
**Dr. David Rodriguez** (Family Practice)

Please select your preferred doctor.".

(** Node 2 *)
Definition _patient_lookup_node (state : SchedulingState) : M Update :=
  match last (messages state) with
  | None => raise IndexError
  | Some last_message =>
      let current_patient_info :=
        default no_patient_info (patient_info state) in
      current_patient_info <-
        match last_message with
        | HumanMessage content =>
            if Py.truthy (Py.strip content)
            then
              let user_input := Py.strip content in
              match missing_fields required_fields current_patient_info with
              | current_field :: _ =>
                  extract_patient_field current_field user_input
                    current_patient_info
              | [] => ret current_patient_info
              end
            else ret current_patient_info
        | AIMessage _ => ret current_patient_info
        end;;
      match missing_fields required_fields current_patient_info with
      | next_field :: _ =>
          ret (with_patient_info
                 (reply (progress required_fields current_patient_info
                         ++ field_question next_field) "patient_lookup")
                 current_patient_info)
      | [] =>
          is_returning <-
            lookup_patient env
              (default "" (PatientInfo.first_name current_patient_info))
              (default "" (PatientInfo.last_name current_patient_info))
              (default "" (PatientInfo.dob current_patient_info));;
          let current_patient_info :=
            set_is_returning is_returning current_patient_info in
          ret (with_patient_info
                 (reply (found_response current_patient_info is_returning)
                    "smart_scheduling")
                 current_patient_info)
      end
  end.

(** [appointment_info["duration"] = appointment_duration] *)
Definition set_duration (d : Z) (a : AppointmentInfo.t) : AppointmentInfo.t :=
  {| AppointmentInfo.duration := Some d;
     AppointmentInfo.doctor := AppointmentInfo.doctor a;
     AppointmentInfo.doctor_name := AppointmentInfo.doctor_name a;
     AppointmentInfo.date := AppointmentInfo.date a;
     AppointmentInfo.time := AppointmentInfo.time a;
     AppointmentInfo.is_available := AppointmentInfo.is_available a |}.

(** [appointment_info["doctor_name"] = doctor] *)
Definition set_doctor_name (d : string) (a : AppointmentInfo.t)
    : AppointmentInfo.t :=
  {| AppointmentInfo.duration := AppointmentInfo.duration a;
     AppointmentInfo.doctor := AppointmentInfo.doctor a;
     AppointmentInfo.doctor_name := Some d;
     AppointmentInfo.date := AppointmentInfo.date a;
     AppointmentInfo.time := AppointmentInfo.time a;
     AppointmentInfo.is_available := AppointmentInfo.is_available a |}.

(** the doctor a message names, Dr. Chen's keywords first *)
Definition doctor_in (message_content : string) : option string :=
  if Py.contains "emily" message_content || Py.contains "chen" message_content
  then Some "Dr. Emily Chen"
  else if Py.contains "david" message_content
          || Py.contains "rodriguez" message_content
  then Some "Dr. David Rodriguez"
  else None.

Definition scheduling_response (duration : Z) (doctor patient_type : string)
    : string :=
  "Excellent choice! I'm scheduling a **" ++ Py.str duration
  ++ "-minute appointment** with **" ++ doctor ++ "** for a "
  ++ patient_type ++ " patient.

Let me check their availability...".

(** Node 3 *)
Definition _smart_scheduling_node (state : SchedulingState) : Result Update :=
  match patient_info state with
  | None => Raise KeyError
  | Some patient_info =>
      let appointment_info :=
        default AppointmentInfo.empty (appointment_info state) in
      match last (messages state) with
      | None => Raise IndexError
      | Some last_message =>
          let is_returning :=
            default false (PatientInfo.is_returning patient_info) in
          let appointment_duration := if is_returning then 30 else 60 in
          let appointment_info :=
            set_duration appointment_duration appointment_info in
          let doctor := AppointmentInfo.doctor appointment_info in
          let doctor :=
            if negb (Py.filled doctor)
            then match last_message with
                 | HumanMessage content =>
                     match doctor_in (Py.lower content) with
                     | Some d => Some d
                     | None => doctor
                     end
                 | AIMessage _ => doctor
                 end
            else doctor in
          match doctor with
          | Some d =>
              if Py.truthy d
              then
                Ok (with_appointment_info
                      (reply (scheduling_response appointment_duration d
                                (if is_returning then "returning" else "new"))
                         "calendar_integration")
                      (set_doctor_name d appointment_info))
              else
                Ok (with_appointment_info
                      (reply "Please select one of the available doctors to continue with your appointment."
                         "smart_scheduling") appointment_info)
          | None =>
              Ok (with_appointment_info
                    (reply "Please select one of the available doctors to continue with your appointment."
                       "smart_scheduling") appointment_info)
          end
      end
  end.

(** [tools.send_patient_intake_form]: simulated when the credentials are
    not set, delivered over SMTP otherwise *)
Definition send_patient_intake_form (patient_email patient_name : string)
    : bool :=
  if negb (credentials chat) then true
  else smtp_send chat patient_email patient_name.

Definition forms_sent_response : string :=
"**New Patient Forms**

As a new patient, I've sent the intake form to your email address. Please:
Complete the form before your appointment
Bring it with you or submit it online
Arrive 15 minutes early for check-in".

Definition forms_failed_response : string :=
"**New Patient Forms**

I tried to send your intake form, but there was an issue with the email delivery.
Please contact our office at (555) 123-4567 to receive your forms, or arrive 15 minutes early to complete them at the clinic.".

Definition forms_no_email_response : string :=
"**New Patient Forms**

As a new patient, you'll need to complete intake forms. Please arrive 15 minutes early to fill them out, or contact our office at (555) 123-4567 to receive them in advance.".

Definition no_forms_response : string :=
  "As a returning patient, no additional forms are needed. Just arrive on time for your appointment!".

Definition final_message (form_response : string) : string :=
  form_response ++ "

**Reminder System**
You'll receive appointment reminders via email and SMS before your visit.

Is there anything else I can help you with today?".

(** Node 7; the second component lists the calls of
    [send_patient_intake_form]: address and name *)
Definition _form_distribution_node (state : SchedulingState)
    : Result (Update * list (string * string)) :=
  match patient_info state with
  | None => Raise KeyError
  | Some patient_info =>
      if negb (default true (PatientInfo.is_returning patient_info))
      then
        match PatientInfo.email patient_info with
        | Some email =>
            if Py.truthy email
            then
              match PatientInfo.first_name patient_info,
                    PatientInfo.last_name patient_info with
              | Some first_name, Some last_name =>
                  let name := first_name ++ " " ++ last_name in
                  let sent := send_patient_intake_form email name in
                  Ok (reply (final_message
                               (if sent then forms_sent_response
                                else forms_failed_response)) "completed",
                      [(email, name)])
              | _, _ => Raise KeyError
              end
            else Ok (reply (final_message forms_no_email_response)
                       "completed", [])
        | None => Ok (reply (final_message forms_no_email_response)
                        "completed", [])
        end
      else Ok (reply (final_message no_forms_response) "completed", [])
  end.

(** the assignment made for the first missing field of a cancellation *)
Definition cancellation_field (current_field user_input : string)
    (p : PatientInfo.t) : PatientInfo.t :=
  let names := py_split user_input in
  if String.eqb current_field "first_name"
  then set_first_name (default user_input (head names)) p
  else if String.eqb current_field "last_name"
  then set_last_name (default user_input (last names)) p
  else if String.eqb current_field "dob"
  then set_dob (_normalize_date_format env user_input) p
  else p.

(** [not patient_info]: the bag has no key *)
Definition no_key (p : PatientInfo.t) : bool :=
  match PatientInfo.first_name p, PatientInfo.last_name p, PatientInfo.dob p,
        PatientInfo.location p, PatientInfo.email p,
        PatientInfo.phone_number p, PatientInfo.is_returning p with
  | None, None, None, None, None, None, None => true
  | _, _, _, _, _, _, _ => false
  end.

Definition not_found_response (p : PatientInfo.t) : string :=
  "I couldn't find an active appointment for **"
  ++ default "" (PatientInfo.first_name p) ++ " "
  ++ default "" (PatientInfo.last_name p) ++ "**.

This could be because:
The appointment was already cancelled
The name or date of birth doesn't match our records
There might be a spelling difference

Would you like to try again with different information, or would you prefer to call our office at (555) 123-4567 for assistance?".

Definition cancelled_response (r : Appointments.row) : string :=
  "**Appointment Successfully Cancelled**

**Cancelled Appointment Details:**
**Patient:** " ++ Py.fmt (Appointments.patient_first_name r) ++ " "
  ++ Py.fmt (Appointments.patient_last_name r) ++ "
**Doctor:** " ++ Py.fmt (Appointments.doctor_name r) ++ "
**Date & Time:** " ++ Py.fmt (Appointments.appointment_date r) ++ " at "
  ++ Py.fmt (Appointments.appointment_time r) ++ "
**Appointment ID:** " ++ Appointments.appointment_id r ++ "

Your appointment slot has been freed up for other patients. If you'd like to reschedule, I can help you book a new appointment right away!

Would you like to schedule a new appointment now?".

Definition cancellation_error_response (appointment_id : string) : string :=
  "**Cancellation Error**

I'm sorry, but I was unable to cancel appointment **" ++ appointment_id
  ++ "**. This might be due to a system issue.

Please contact our office directly at:
**(555) 123-4567**
**appointments@healthcareplus.com**

Our staff will be happy to assist you with the cancellation.".

Definition cancellation_reason : string :=
  "Patient requested cancellation via AI assistant".

(** the cancellation node *)
Definition _cancellation_node (state : SchedulingState) : M Update :=
  let patient_info := default no_patient_info (patient_info state) in
  match last (messages state) with
  | None => raise IndexError
  | Some last_message =>
      let patient_info :=
        match last_message with
        | HumanMessage content =>
            match missing_fields cancellation_fields patient_info with
            | current_field :: _ =>
                cancellation_field current_field (Py.strip content)
                  patient_info
            | [] => patient_info
            end
        | AIMessage _ => patient_info
        end in
      match missing_fields cancellation_fields patient_info with
      | next_field :: _ =>
          let question :=
            if no_key patient_info
            then "To cancel your appointment, I need to verify your identity. What is your first name?"
            else field_question next_field in
          ret (with_patient_info (reply question "cancellation") patient_info)
      | [] =>
          appointment_to_cancel <-
            find_appointment_by_patient env patient_info;;
          match appointment_to_cancel with
          | None => ret (reply (not_found_response patient_info) "completed")
          | Some appointment =>
              let appointment_id := Appointments.appointment_id appointment in
              cancelled <-
                cancel_appointment env appointment_id cancellation_reason;;
              if cancelled
              then ret (reply (cancelled_response appointment) "completed")
              else ret (reply (cancellation_error_response appointment_id)
                          "completed")
          end
      end
  end.

(** the final node *)
Definition _end_conversation_node (state : SchedulingState) : Update :=
  {| u_messages := []; u_current_stage := Some "completed";
     u_intent := None; u_patient_info := None; u_appointment_info := None;
     u_insurance_info := None; u_available_slots := None;
     u_appointment_id := None |}.

End MoreNodes.

(** ** agent.py: the graph and [process_message] *)

(** the state of a thread that has no checkpoint yet *)
Definition initial_state : SchedulingState :=
  {| messages := []; current_stage := None; intent := None;
     patient_info := None; appointment_info := None; insurance_info := None;
     available_slots := None; appointment_id := None |}.

(** the input [{"messages": [user_msg]}] folded into the stored state *)
Definition add_message (state : SchedulingState) (m : BaseMessage)
    : SchedulingState :=
  {| messages := messages state ++ [m];
     current_stage := current_stage state; intent := intent state;
     patient_info := patient_info state;
     appointment_info := appointment_info state;
     insurance_info := insurance_info state;
     available_slots := available_slots state;
     appointment_id := appointment_id state |}.

(** a result lifted into the store monad *)
Definition lift {A} (r : Result A) : M A := fun w => (r, w).

(** the content of the last [AIMessage] whose content is not blank *)
Definition last_reply (msgs : list BaseMessage) : option string :=
  last (omap (fun m => match m with
                       | AIMessage content =>
                           if Py.truthy (Py.strip content) then Some content
                           else None
                       | HumanMessage _ => None
                       end) msgs).

Definition default_reply : string :=
  "I'm here to help! How can I assist you with scheduling or canceling an appointment today?".

Definition apology : string :=
  "I'm experiencing technical difficulties. Please try again, or contact our office at (555) 123-4567 for assistance.".

Section Graph.

Variable env : Env.
Variable chat : Chat.

Local Open Scope store_scope.

(** the conditional edges from START: the node a branch name leads to,
    run on the state; a name that is not a branch raises *)
Definition run_branch (name : string) (state : SchedulingState)
    : M (option Update * list (string * string)) :=
  if String.eqb name "greeting" then ret (_greeting_node state, [])
  else if String.eqb name "patient_lookup" then
    u <- _patient_lookup_node env chat state;; ret (Some u, [])
  else if String.eqb name "smart_scheduling" then
    u <- lift (_smart_scheduling_node state);; ret (Some u, [])
  else if String.eqb name "calendar_integration" then
    u <- _calendar_integration_node env state;; ret (Some u, [])
  else if String.eqb name "insurance_collection" then
    u <- _insurance_collection_node env state;; ret (Some u, [])
  else if String.eqb name "appointment_confirmation" then
    u <- _appointment_confirmation_node env state;; ret (Some u, [])
  else if String.eqb name "form_distribution" then
    r <- lift (_form_distribution_node chat state);; ret (Some r.1, r.2)
  else if String.eqb name "cancellation" then
    u <- _cancellation_node env state;; ret (Some u, [])
  else if String.eqb name "completed" then
    ret (Some (_end_conversation_node state), [])
  else raise KeyError.

(** [workflow.invoke({"messages": [user_msg]}, config)]: one node runs,
    then the graph ends *)
Definition invoke (state : SchedulingState) (user_msg : BaseMessage)
    : M (SchedulingState * list (string * string)) :=
  let state := add_message state user_msg in
  r <- run_branch (router state) state;;
  ret (match r.1 with
       | Some u => apply_update state u
       | None => state
       end, r.2).

(** [process_message]: the reply, and the state and the forms sent when
    the workflow did not raise *)
Definition process_message (state : SchedulingState) (user_message : string)
    (w : World)
    : (string * option (SchedulingState * list (string * string))) * World :=
  let user_msg :=
    HumanMessage (if String.eqb user_message "start conversation"
                  then "Hello" else user_message) in
  match invoke state user_msg w with
  | (Ok result, w') =>
      ((default default_reply (last_reply (messages result.1)), Some result),
       w')
  | (Raise _, w') => ((apology, None), w')
  end.

End Graph.

(** writing the ledger fails *)
Definition ledger_write_fails : Faults :=
  {| read_patients := false; write_patients := false;
     read_schedule := false; write_schedule := false;
     read_appointments := false; write_appointments := true |}.

(** no pattern matches, the model finds nothing, mail is simulated *)
Definition simulated_mail : Chat :=
  {| re_search := fun _ _ _ => None;
     llm_names := fun _ => Ok (PDict []);
     credentials := false;
     smtp_send := fun _ _ => false |}.

(** every field that is filled in [p] is filled in [p'] *)
Definition keeps_filled (p p' : PatientInfo.t) : Prop :=
  forall field, Py.filled (patient_field field p) = true ->
                Py.filled (patient_field field p') = true.

(** the patient bag a node starts from *)
Definition stored_patient (state : SchedulingState) : PatientInfo.t :=
  default no_patient_info (patient_info state).

(** the patient bag of a cancellation turn after the assignment of the
    first missing field *)
Definition cancellation_turn (env : Env) (state : SchedulingState)
    : PatientInfo.t :=
  match last (messages state) with
  | Some (HumanMessage content) =>
      match missing_fields cancellation_fields (stored_patient state) with
      | current_field :: _ =>
          cancellation_field env current_field (Py.strip content)
            (stored_patient state)
      | [] => stored_patient state
      end
  | _ => stored_patient state
  end.

(** the slot a ledger row names *)
Definition appointment_slot (r : Appointments.row) (s : Schedule.row) : bool :=
  slot_mask (Appointments.doctor_name r) (Appointments.appointment_date r)
    (Appointments.appointment_time r) s.

(** the keys of the conditional edges from START *)
Definition branches : list string :=
  ["greeting"; "patient_lookup"; "smart_scheduling"; "calendar_integration";
   "insurance_collection"; "appointment_confirmation"; "form_distribution";
   "cancellation"; "completed"].

Definition is_branch (name : string) : bool :=
  existsb (String.eqb name) branches.

(** the stage a state stores, when it stores one, is a key of the edges *)
Definition routable (state : SchedulingState) : bool :=
  match current_stage state with
  | Some stage => is_branch stage
  | None => true
  end.

(** the stage a node sets, when it sets one, is a key of the edges *)
Definition sets_branch (u : Update) : bool :=
  match u_current_stage u with
  | Some stage => is_branch stage
  | None => true
  end.

(** every value a computation returns satisfies [P] *)
Definition returns {A} (P : A -> Prop) (c : M A) : Prop :=
  forall w a w', c w = (Ok a, w') -> P a.

(** the message [process_message] hands to the workflow *)
Definition incoming (user_message : string) : BaseMessage :=
  HumanMessage (if String.eqb user_message "start conversation"
                then "Hello" else user_message).

(** a thread that finished a booking *)
Definition booked_thread : SchedulingState :=
  state_of [HumanMessage "Hello"; AIMessage greeting_message;
            HumanMessage "thanks"; AIMessage "See you then."]
    (Some "completed") (Some "schedule").

(** a thread that finished a cancellation *)
Definition cancelled_thread : SchedulingState :=
  {| messages := [HumanMessage "Hello"; AIMessage greeting_message;
                  HumanMessage "cancel"; AIMessage cancel_response];
     current_stage := Some "completed"; intent := Some "cancel";
     patient_info :=
       Some (set_last_name "Brown" (set_first_name "Lisa" no_patient_info));
     appointment_info := None; insurance_info := None;
     available_slots := None; appointment_id := None |}.


(** a record with an empty [is_returning] cell *)
Definition unflagged_row : Patients.row :=
  {| Patients.patient_id := 3;
     Patients.first_name := Some "Lisa";
     Patients.last_name := Some "Brown";
     Patients.dob := Some "1995-09-05";
     Patients.is_returning := None;
     Patients.email := None;
     Patients.location := None;
     Patients.phone_number := "555-0125";
     Patients.insurance_carrier := "Cigna";
     Patients.member_id := "555443333";
     Patients.group_number := "654321" |}.

(** the precedence rule of the router as the specification words it *)
Definition router_rule (state : SchedulingState) : string :=
  if bool_decide (length (messages state) = 1%nat) then "greeting"
  else if bool_decide (intent state = Some "cancel") then "cancellation"
  else if bool_decide (intent state = Some "schedule")
       then default "patient_lookup" (current_stage state)
       else default "greeting" (current_stage state).

(** the appointment bag after the slot of Dr. Rodriguez, 2026-01-06,
    09:00 was chosen *)
Definition rodriguez_slot : AppointmentInfo.t :=
  AppointmentInfo.update
    {| AppointmentInfo.duration := Some 60; AppointmentInfo.doctor := None;
       AppointmentInfo.doctor_name := Some Demo.rodriguez;
       AppointmentInfo.date := None; AppointmentInfo.time := None;
       AppointmentInfo.is_available := None |}
    (Demo.slot Demo.rodriguez "2026-01-06" "09:00" true).

(** * Properties *)

(** ** The string primitives on examples *)

Example lower_ex : Py.lower "I Don't KNOW" = "i don't know".
Proof. reflexivity. Qed.

Example contains_ex : Py.contains "no" "north" = true /\ Py.contains "no" "yes" = false.
Proof. split; reflexivity. Qed.

Example strip_ex : Py.strip "  9 " = "9" /\ Py.strip "   " = "".
Proof. split; reflexivity. Qed.

Example int_ex : Py.int " 9 " = Some 9 /\ Py.int "-3" = Some (-3) /\ Py.int "1_0" = Some 10
                 /\ Py.int "nine" = None /\ Py.int "" = None.
Proof. repeat split; reflexivity. Qed.

Example str_ex : Py.str 5 = "5" /\ Py.str 120 = "120" /\ Py.str 0 = "0" /\ Py.str (-42) = "-42".
Proof. repeat split; reflexivity. Qed.

Example csv_text_ex :
  Csv.text "1A2B3C4D" = true /\ Csv.text "Dr. Emily Chen" = true /\
  Csv.text "1988-11-30" = true /\ Csv.text "09:00" = true /\
  Csv.text "12345678" = false /\ Csv.text "12345E67" = false /\
  Csv.text "NA" = false /\ Csv.text "None" = false /\ Csv.text "" = false /\
  Csv.text "True" = false /\ Csv.text " -1.5e+3 " = false.
Proof. repeat split; reflexivity. Qed.

(** ** The router *)

(** C4: on every state it receives, the router follows the precedence
    rule of the specification.  The graph routes a state only after the
    incoming message has been added to its history ([invoke]), so the
    history the router sees is never empty.  On every state with a
    non-empty history, and so on every state [add_message] produces, the
    router answers as the rule does: [greeting] when the history has
    exactly one message; otherwise [cancellation] when the intent is
    [cancel]; otherwise the stored stage, defaulting to [patient_lookup],
    when the intent is [schedule]; otherwise the stored stage, defaulting
    to [greeting]. *)
Theorem router_precedence (state : SchedulingState) :
  (messages state <> [] -> router state = router_rule state) /\
  (forall user_msg,
     router (add_message state user_msg)
     = router_rule (add_message state user_msg)).
Proof.
  assert (Hrule : forall st, messages st <> [] -> router st = router_rule st).
  { intros st Hne. unfold router, router_rule.
    destruct (messages st) as [|m [|m' ms]]; [congruence | reflexivity |].
    cbn [length]. rewrite bool_decide_eq_false_2 by discriminate.
    change (S (S (length ms)) <=? 1)%nat with false. cbv iota.
    destruct (intent st) as [i|]; cbn [from_option id].
    - destruct (String.eqb_spec i "cancel") as [->|Hc].
      { now rewrite bool_decide_eq_true_2. }
      rewrite bool_decide_eq_false_2 by congruence.
      destruct (String.eqb_spec i "schedule") as [->|Hs].
      { now rewrite bool_decide_eq_true_2. }
      now rewrite bool_decide_eq_false_2 by congruence.
    - reflexivity. }
  split; [apply Hrule|].
  intros user_msg. apply Hrule. cbn [add_message messages].
  now destruct (messages state).
Qed.

Lemma router_precedence_witness :
  router (state_of [HumanMessage "Hello"; AIMessage greeting_message;
                    HumanMessage "cancel it"]
            (Some "patient_lookup") (Some "cancel")) = "cancellation" /\
  router (add_message initial_state (HumanMessage "cancel it")) = "greeting".
Proof.
  split.
  - rewrite (proj1 (router_precedence _)); [reflexivity | discriminate].
  - rewrite (proj2 (router_precedence _)). reflexivity.
Defined.

(** ** Keyword matching *)

Lemma any_in_intro (keywords : list string) (keyword s : string) :
  In keyword keywords -> Py.contains keyword s = true ->
  Py.any_in keywords s = true.
Proof.
  intros Hin Hc. unfold Py.any_in. apply existsb_exists. eauto.
Qed.

(** ** Greeting *)

(** C9: on a greeting turn after the first, a message that contains a
    cancel keyword sets the intent to [cancel] and the stage to
    [cancellation], whatever schedule keywords it also contains; the
    router then selects [cancellation], not [patient_lookup]. *)
Theorem greeting_cancel_before_schedule (state : SchedulingState)
    (content keyword : string) :
  (1 < length (messages state))%nat ->
  last (messages state) = Some (HumanMessage content) ->
  In keyword cancel_keywords ->
  Py.contains keyword (Py.lower content) = true ->
  exists u,
    _greeting_node state = Some u /\
    u = with_intent (reply cancel_response "cancellation") "cancel" /\
    intent (apply_update state u) = Some "cancel" /\
    current_stage (apply_update state u) = Some "cancellation" /\
    current_stage (apply_update state u) <> Some "patient_lookup".
Proof.
  intros Hlen Hlast Hin Hc.
  exists (with_intent (reply cancel_response "cancellation") "cancel").
  unfold _greeting_node. apply Nat.leb_gt in Hlen. rewrite Hlen, Hlast.
  rewrite (any_in_intro _ _ _ Hin Hc). repeat split; discriminate.
Qed.

Lemma greeting_cancel_before_schedule_witness :
  Py.any_in schedule_keywords
    (Py.lower "I need to RESCHEDULE my appointment") = true /\
  exists u,
    _greeting_node reschedule_state = Some u /\
    u = with_intent (reply cancel_response "cancellation") "cancel" /\
    intent (apply_update reschedule_state u) = Some "cancel" /\
    current_stage (apply_update reschedule_state u) = Some "cancellation" /\
    current_stage (apply_update reschedule_state u) <> Some "patient_lookup".
Proof.
  split; [reflexivity|].
  apply (greeting_cancel_before_schedule reschedule_state
           "I need to RESCHEDULE my appointment" "reschedule").
  - simpl; lia.
  - reflexivity.
  - simpl; tauto.
  - reflexivity.
Defined.

Example demo_dates :
  _normalize_date_format (Demo.env no_faults Demo.silent) " 03/15/1985 " = "1985-03-15" /\
  _normalize_date_format (Demo.env no_faults Demo.silent) "1990-07-22" = "1990-07-22" /\
  _normalize_date_format (Demo.env no_faults Demo.silent) "15/03/1985" = "1985-03-15" /\
  _normalize_date_format (Demo.env no_faults Demo.silent) "02/30/1985" = "02/30/1985" /\
  Demo.parse_moment "2026-01-06 09:30" = Some 202601060930.
Proof. repeat split; vm_compute; reflexivity. Qed.

(** ** The slot query *)

Ltac run :=
  unfold try_except, bind, ret, raise, path_exists, read_csv, to_csv; simpl.

Arguments _update_schedule_availability : simpl never.
Arguments _add_new_patient : simpl never.

#[global] Instance earlier_eq_trans : Transitive earlier_eq.
Proof. unfold earlier_eq. intros a b c; lia. Qed.

#[global] Instance earlier_eq_total : Total earlier_eq.
Proof. unfold earlier_eq. intros a b; lia. Qed.

Lemma datetime_column_cells (env : Env) (df : list Schedule.row) col :
  datetime_column env df = Some col ->
  Forall (fun rt => slot_datetime env rt.1 = Some rt.2 /\ rt.1 ∈ df) col.
Proof.
  revert col. induction df as [|r df IH]; simpl; intros col H.
  - injection H as <-. constructor.
  - destruct (slot_datetime env r) as [t|] eqn:Ht; [|discriminate].
    destruct (datetime_column env df) as [c|]; [|discriminate].
    injection H as <-. constructor.
    + split; [exact Ht | left].
    + eapply Forall_impl; [apply IH; reflexivity|].
      intros rt [H1 H2]. split; [exact H1 | now right].
Qed.

Lemma earliest_first_fst (env : Env) (l : list (Schedule.row * Z)) :
  Forall (fun rt => slot_datetime env rt.1 = Some rt.2) l ->
  StronglySorted earlier_eq l ->
  StronglySorted (earliest_first env) (map fst l).
Proof.
  intros Hcells Hsorted. induction Hsorted as [|a l Hs IH Hall]; simpl.
  - constructor.
  - apply Forall_cons in Hcells as [Ha Hl]. constructor; [auto|].
    apply Forall_fmap, Forall_forall. intros b Hb.
    rewrite Forall_forall in Hall, Hl.
    exists a.2, b.2. repeat split; [exact Ha | now apply Hl | now apply Hall].
Qed.

Lemma StronglySorted_take {A} (R : relation A) (n : nat) (l : list A) :
  StronglySorted R l -> StronglySorted R (take n l).
Proof.
  intros H. rewrite <- (take_drop n l) in H.
  now apply StronglySorted_app_1_l in H.
Qed.

(** C5: the slot query returns at most 8 rows of the schedule table; each
    is available, lies strictly after the moment of the query and belongs
    to the chosen doctor; the rows are in order of date and time, earliest
    first.  The query always returns and leaves the files as they are. *)
Theorem get_available_slots_spec (env : Env) (doctor : string)
    (duration : Z) (w : World) :
  doctor <> "" ->
  exists slots,
    get_available_slots env (Some doctor) duration w = (Ok slots, w) /\
    (length slots <= 8)%nat /\
    Forall (fun s =>
              s ∈ schedule_rows (disk w) /\
              Schedule.is_available s = true /\
              Schedule.doctor_name s = doctor /\
              exists t, slot_datetime env s = Some t /\ now env < t) slots /\
    StronglySorted (earliest_first env) slots.
Proof.
  intros Hdoc.
  assert (Hnil : forall P : Schedule.row -> Prop,
             (0 <= 8)%nat /\ Forall P [] /\
             StronglySorted (earliest_first env) []).
  { intros P. repeat split; [lia | constructor | constructor]. }
  destruct w as [[pf sf af] calls].
  unfold get_available_slots, schedule_rows. run.
  destruct sf as [| |df]; simpl.
  1,2: destruct (read_schedule (faults env)); eexists; split;
       [reflexivity | apply Hnil | reflexivity | apply Hnil].
  destruct (read_schedule (faults env)); simpl;
    [eexists; split; [reflexivity | apply Hnil]|].
  destruct (df_empty df) eqn:Hdf; simpl;
    [eexists; split; [reflexivity | apply Hnil]|].
  destruct (datetime_column env df) as [col|] eqn:Hcol; simpl;
    [|eexists; split; [reflexivity | apply Hnil]].
  assert (Hchosen : Py.truthy doctor = true).
  { destruct doctor; [congruence | reflexivity]. }
  rewrite Hchosen. eexists; split; [reflexivity|].
  pose proof (datetime_column_cells env df col Hcol) as Hcells.
  set (available :=
         List.filter _ (List.filter _ (List.filter _ col))).
  assert (Havail : Forall (fun rt =>
            (slot_datetime env rt.1 = Some rt.2 /\ rt.1 ∈ df) /\
            now env < rt.2 /\ Schedule.is_available rt.1 = true /\
            Schedule.doctor_name rt.1 = doctor) available).
  { apply Forall_forall. intros rt Hin. apply list_elem_of_In in Hin.
    subst available. repeat (apply filter_In in Hin as [Hin ?]).
    rewrite Forall_forall in Hcells. apply list_elem_of_In in Hin.
    repeat split; try (now apply Hcells); try assumption.
    - now apply Z.ltb_lt.
    - simpl in *. now apply String.eqb_eq. }
  assert (Hsorted : Forall (fun rt =>
            (slot_datetime env rt.1 = Some rt.2 /\ rt.1 ∈ df) /\
            now env < rt.2 /\ Schedule.is_available rt.1 = true /\
            Schedule.doctor_name rt.1 = doctor) (sort_values available)).
  { unfold sort_values. now rewrite merge_sort_Permutation. }
  repeat split.
  - rewrite length_map, length_take. lia.
  - apply Forall_fmap, Forall_take. eapply Forall_impl; [exact Hsorted|].
    simpl. intros rt [[Ht Hin] (Hnow & Hav & Hd)]. eauto 8.
  - apply earliest_first_fst.
    + apply Forall_take. eapply Forall_impl; [exact Hsorted|].
      now intros rt [[Ht _] _].
    + apply StronglySorted_take. unfold sort_values.
      apply StronglySorted_merge_sort; apply _.
Qed.

Lemma get_available_slots_spec_witness :
  Demo.chen <> "" /\
  exists slots,
    get_available_slots (Demo.env no_faults Demo.silent) (Some Demo.chen) 30
      (Demo.world Demo.disk0) = (Ok slots, Demo.world Demo.disk0) /\
    (length slots <= 8)%nat /\
    Forall (fun s =>
              s ∈ schedule_rows Demo.disk0 /\
              Schedule.is_available s = true /\
              Schedule.doctor_name s = Demo.chen /\
              exists t, slot_datetime (Demo.env no_faults Demo.silent) s = Some t
                        /\ 202601050800 < t) slots /\
    StronglySorted (earliest_first (Demo.env no_faults Demo.silent)) slots.
Proof.
  split; [discriminate|].
  apply (get_available_slots_spec (Demo.env no_faults Demo.silent) Demo.chen
           30 (Demo.world Demo.disk0)).
  discriminate.
Defined.

Example get_available_slots_demo :
  (get_available_slots (Demo.env no_faults Demo.silent) (Some Demo.chen) 30
     (Demo.world Demo.disk0)).1
  = Ok [Demo.slot Demo.chen "2026-01-06" "09:00" true;
        Demo.slot Demo.chen "2026-01-06" "09:30" true;
        Demo.slot Demo.chen "2026-01-07" "09:00" true].
Proof. vm_compute. reflexivity. Qed.

(** ** Cancelling an unknown appointment *)

Lemma filter_no_match {A} (f : A -> bool) (l : list A) :
  (forall x, x ∈ l -> f x = false) -> List.filter f l = [].
Proof.
  induction l as [|a l IH]; simpl; intros H; [reflexivity|].
  rewrite (H a) by left. apply IH. intros x Hx. apply H. now right.
Qed.

(** C10: for an appointment id that does not occur in the ledger (a
    missing, blank or empty ledger file included) [cancel_appointment]
    returns [False] and leaves the three files as they are, whatever I/O
    faults occur. *)
Theorem cancel_unknown_appointment (env : Env) (appointment_id reason : string)
    (w : World) :
  (forall r, r ∈ ledger_rows (disk w) ->
             Appointments.appointment_id r <> appointment_id) ->
  cancel_appointment env appointment_id reason w = (Ok false, w).
Proof.
  destruct w as [[pf sf af] calls]. unfold ledger_rows. simpl. intros Hid.
  unfold cancel_appointment. run.
  destruct af as [| |df]; simpl.
  1,2: now destruct (read_appointments (faults env)).
  destruct (read_appointments (faults env)); simpl; [reflexivity|].
  destruct (df_empty df); simpl; [reflexivity|].
  rewrite filter_no_match; [reflexivity|].
  intros r Hr. apply String.eqb_neq. now apply Hid.
Qed.

Lemma cancel_unknown_appointment_witness :
  cancel_appointment (Demo.env no_faults Demo.silent) "0BADC0DE"
    "Patient requested cancellation via AI assistant" (Demo.world Demo.disk0)
  = (Ok false, Demo.world Demo.disk0).
Proof.
  apply (cancel_unknown_appointment (Demo.env no_faults Demo.silent)).
  simpl. intros r Hr. inversion Hr.
Defined.

(** ** Slot selection *)

(** C6: in [calendar_integration] with an offered list of [N] slots (empty
    or not), a message that parses as an integer outside [1..N] is
    answered with the re-prompt; the offered list, the stage and the
    appointment bag stay as they were and the files are not touched. *)
Theorem out_of_range_selection (env : Env) (state : SchedulingState)
    (w : World) (content : string) (n : Z) (offered : list Schedule.row) :
  current_stage state = Some "calendar_integration" ->
  available_slots state = Some offered ->
  last (messages state) = Some (HumanMessage content) ->
  Py.int (Py.strip content) = Some n ->
  n < 1 \/ Z.of_nat (length offered) < n ->
  _calendar_integration_node env state w
    = (Ok (reply (out_of_range_response offered) "calendar_integration"), w)
  /\ (let (state', w') := run_node (_calendar_integration_node env) state w in
      available_slots state' = available_slots state /\
      current_stage state' = current_stage state /\
      appointment_info state' = appointment_info state /\
      w' = w).
Proof.
  intros Hstage Hoffered Hlast Hint Hrange.
  assert (Hnode : _calendar_integration_node env state w
            = (Ok (reply (out_of_range_response offered)
                     "calendar_integration"), w)).
  { unfold _calendar_integration_node. rewrite Hlast, Hint, Hoffered. simpl.
    replace ((0 <=? n - 1) && (n - 1 <? Z.of_nat (length offered)))
      with false; [reflexivity|].
    symmetry. apply andb_false_iff.
    destruct Hrange; [left; apply Z.leb_gt | right; apply Z.ltb_ge]; lia. }
  split; [exact Hnode|].
  unfold run_node. rewrite Hnode. simpl. rewrite Hstage. auto.
Qed.

Lemma out_of_range_selection_witness :
  _calendar_integration_node (Demo.env no_faults Demo.silent)
    (booking_state "9" (Some five_slots) None "calendar_integration")
    (Demo.world Demo.disk0)
  = (Ok (reply "Please choose a valid slot number between 1 and 5."
           "calendar_integration"), Demo.world Demo.disk0)
  /\ (let (state', w') :=
        run_node (_calendar_integration_node (Demo.env no_faults Demo.silent))
          (booking_state "9" (Some five_slots) None "calendar_integration")
          (Demo.world Demo.disk0) in
      available_slots state' = Some five_slots /\
      current_stage state' = Some "calendar_integration" /\
      appointment_info state' = Some Demo.chosen_slot /\
      w' = Demo.world Demo.disk0).
Proof.
  apply (out_of_range_selection (Demo.env no_faults Demo.silent)
           (booking_state "9" (Some five_slots) None "calendar_integration")
           (Demo.world Demo.disk0) "9" 9 five_slots).
  - reflexivity.
  - reflexivity.
  - reflexivity.
  - reflexivity.
  - right. simpl. lia.
Defined.

(** ** Insurance collection *)

Lemma self_pay_lookup (info : gmap string string) :
  self_pay info !! "carrier" = Some "Self-Pay" /\
  self_pay info !! "member_id" = Some "N/A" /\
  self_pay info !! "group_number" = Some "N/A".
Proof. unfold self_pay. repeat split; now simplify_map_eq. Qed.

Lemma self_pay_filled (info : gmap string string) (field : string) :
  Py.filled (info !! field) = true -> Py.filled (self_pay info !! field) = true.
Proof.
  unfold self_pay. intros H.
  destruct (decide (field = "group_number")) as [->|]; [now simplify_map_eq|].
  destruct (decide (field = "member_id")) as [->|]; [now simplify_map_eq|].
  destruct (decide (field = "carrier")) as [->|]; now simplify_map_eq.
Qed.

(** C8: when the lowercased user message contains a self-pay keyword (the
    bare [no] among them, wherever it occurs) the step sets the carrier to
    [Self-Pay], member id and group number to [N/A], and moves to
    [appointment_confirmation]; the world is returned as it was, so no
    extraction call is recorded and the files are untouched. *)
Theorem self_pay_shortcut (env : Env) (state : SchedulingState) (w : World)
    (content keyword : string) :
  last (messages state) = Some (HumanMessage content) ->
  In keyword self_pay_keywords ->
  Py.contains keyword (Py.lower content) = true ->
  exists u,
    _insurance_collection_node env state w = (Ok u, w) /\
    bag (apply_update state u) !! "carrier" = Some "Self-Pay" /\
    bag (apply_update state u) !! "member_id" = Some "N/A" /\
    bag (apply_update state u) !! "group_number" = Some "N/A" /\
    current_stage (apply_update state u) = Some "appointment_confirmation".
Proof.
  intros Hlast Hin Hc. eexists. split.
  - unfold _insurance_collection_node.
    rewrite Hlast, (any_in_intro _ _ _ Hin Hc). reflexivity.
  - unfold bag. simpl.
    destruct (self_pay_lookup (default ∅ (insurance_info state)))
      as (H1 & H2 & H3). auto.
Qed.

Lemma self_pay_shortcut_witness :
  exists u,
    _insurance_collection_node (Demo.env no_faults blank_carrier)
      (booking_state "Aetna, I live up North" (Some five_slots) None
         "insurance_collection") (Demo.world Demo.disk0)
      = (Ok u, Demo.world Demo.disk0) /\
    bag (apply_update (booking_state "Aetna, I live up North"
           (Some five_slots) None "insurance_collection") u) !! "carrier"
      = Some "Self-Pay" /\
    bag (apply_update (booking_state "Aetna, I live up North"
           (Some five_slots) None "insurance_collection") u) !! "member_id"
      = Some "N/A" /\
    bag (apply_update (booking_state "Aetna, I live up North"
           (Some five_slots) None "insurance_collection") u) !! "group_number"
      = Some "N/A" /\
    current_stage (apply_update (booking_state "Aetna, I live up North"
           (Some five_slots) None "insurance_collection") u)
      = Some "appointment_confirmation".
Proof.
  apply (self_pay_shortcut (Demo.env no_faults blank_carrier)
           (booking_state "Aetna, I live up North" (Some five_slots) None
              "insurance_collection")
           (Demo.world Demo.disk0) "Aetna, I live up North" "no").
  - reflexivity.
  - simpl; tauto.
  - reflexivity.
Defined.

(** The message [I don't know] is taken for self-pay as well. *)
Example self_pay_i_dont_know :
  (_insurance_collection_node (Demo.env no_faults blank_carrier)
     (booking_state "I don't know" (Some five_slots) (Some aetna_bag)
        "insurance_collection") (Demo.world Demo.disk0)).1
  = Ok (with_insurance (reply self_pay_response "appointment_confirmation")
          (self_pay aetna_bag)).
Proof. reflexivity. Qed.

(** Outside the self-pay branch the extraction is invoked and recorded. *)
Lemma extraction_recorded (env : Env) (state : SchedulingState) (w : World)
    (content : string) :
  last (messages state) = Some (HumanMessage content) ->
  Py.any_in self_pay_keywords (Py.lower content) = false ->
  llm_calls (_insurance_collection_node env state w).2
    = (llm_calls w ++ [content])%list.
Proof.
  intros Hlast Hno. unfold _insurance_collection_node.
  rewrite Hlast, Hno. unfold extract_insurance, invoke_extraction. run.
  destruct (llm_insurance env content) as [[]|]; reflexivity.
Qed.

Lemma merge_extracted_filled (items : list (string * PyVal))
    (info : gmap string string) (field : string) :
  Py.filled (info !! field) = true ->
  Py.filled (merge_extracted items info !! field) = true.
Proof.
  revert info. induction items as [|[key value] items IH]; simpl; intros info H;
    [exact H|].
  destruct value; simpl;
    repeat match goal with
           | |- context [if ?b then _ else _] => destruct b eqn:?
           end; auto.
  apply IH. apply andb_true_iff in Heqb as [_ Hs].
  destruct (decide (key = field)) as [->|]; now simplify_map_eq.
Qed.

Lemma merge_extracted_blank (items : list (string * PyVal))
    (info : gmap string string) (field : string) :
  (forall v, (field, v) ∈ items -> exists s, v = PStr s /\ Py.strip s = "") ->
  merge_extracted items info !! field = info !! field.
Proof.
  revert info. induction items as [|[key value] items IH]; simpl; intros info H;
    [reflexivity|].
  assert (Hrest : forall v, (field, v) ∈ items ->
                            exists s, v = PStr s /\ Py.strip s = "").
  { intros v Hv. apply H. now right. }
  destruct (decide (key = field)) as [->|Hne].
  - destruct (H value) as (s & -> & Hs); [left|].
    rewrite Hs. simpl. rewrite andb_false_r. now apply IH.
  - destruct value; simpl;
      repeat match goal with
             | |- context [if ?b then _ else _] => destruct b eqn:?
             end; auto.
    rewrite IH by assumption. now simplify_map_eq.
Qed.

Lemma bag_check_required (state : SchedulingState)
    (info : gmap string string) :
  bag (apply_update state (check_required info)) = info.
Proof.
  unfold check_required. destruct (List.filter _ required); reflexivity.
Qed.

(** the insurance bag after one [insurance_collection] step *)
Lemma insurance_step_bag (env : Env) (state : SchedulingState) (w : World) :
  bag (run_node (_insurance_collection_node env) state w).1 =
    match last (messages state) with
    | Some (HumanMessage content) =>
        if Py.any_in self_pay_keywords (Py.lower content)
        then self_pay (bag state)
        else match llm_insurance env content with
             | Ok (PDict items) => merge_extracted items (bag state)
             | _ => bag state
             end
    | _ => bag state
    end.
Proof.
  unfold run_node, _insurance_collection_node. cbv zeta.
  destruct (last (messages state)) as [[content|content]|]; [| |reflexivity].
  - destruct (Py.any_in self_pay_keywords (Py.lower content)); [reflexivity|].
    unfold extract_insurance, invoke_extraction, try_except, bind, ret.
    destruct (llm_insurance env content) as [[]|]; cbv beta iota; cbn [fst];
      apply bag_check_required.
  - unfold ret. cbn [fst]. apply bag_check_required.
Qed.

(** C7: a field of the insurance bag that is filled before an
    [insurance_collection] step is filled after it; and when the
    extraction is invoked and returns only empty or whitespace-only
    strings for a field, the value of that field is the one held before. *)
Theorem insurance_fields_kept (env : Env) (state : SchedulingState)
    (w : World) (field : string) :
  let state' := (run_node (_insurance_collection_node env) state w).1 in
  (Py.filled (bag state !! field) = true ->
   Py.filled (bag state' !! field) = true) /\
  (forall content items,
     last (messages state) = Some (HumanMessage content) ->
     Py.any_in self_pay_keywords (Py.lower content) = false ->
     llm_insurance env content = Ok (PDict items) ->
     (forall v, (field, v) ∈ items ->
                exists s, v = PStr s /\ Py.strip s = "") ->
     bag state' !! field = bag state !! field).
Proof.
  cbv zeta. rewrite insurance_step_bag. split.
  - intros Hfilled.
    destruct (last (messages state)) as [[content|content]|]; auto.
    destruct (Py.any_in self_pay_keywords (Py.lower content)).
    + now apply self_pay_filled.
    + destruct (llm_insurance env content) as [[]|];
        auto using merge_extracted_filled.
  - intros content items Hlast Hno Hllm Hblank.
    rewrite Hlast, Hno, Hllm. now apply merge_extracted_blank.
Qed.

Lemma insurance_fields_kept_witness :
  let state := booking_state "my member id is 123456789" (Some five_slots)
                 (Some aetna_bag) "insurance_collection" in
  let state' :=
    (run_node (_insurance_collection_node (Demo.env no_faults blank_carrier))
       state (Demo.world Demo.disk0)).1 in
  Py.filled (bag state' !! "carrier") = true /\
  bag state' !! "carrier" = Some "Aetna".
Proof.
  intros state state'.
  destruct (insurance_fields_kept (Demo.env no_faults blank_carrier) state
              (Demo.world Demo.disk0) "carrier") as [Hkeep Hblank].
  split.
  - apply Hkeep. reflexivity.
  - apply (Hblank "my member id is 123456789"
             [("carrier", PStr "  "); ("member_id", PStr " 123456789 ");
              ("group_number", PStr "")]).
    + reflexivity.
    + reflexivity.
    + reflexivity.
    + intros v Hv. apply list_elem_of_In in Hv. simpl in Hv.
      destruct Hv as [Hv|[Hv|[Hv|[]]]]; inversion Hv; subst.
      exists "  ". split; reflexivity.
Defined.

(** ** What the store operations do to the files *)

Section StoreEffects.

Variable env : Env.

Lemma world_of_eta (w : World) :
  w = world_of (patients_file (disk w)) (schedule_file (disk w))
        (appointments_file (disk w)) (llm_calls w).
Proof. now destruct w as [[pf sf af] calls]. Qed.

Lemma update_schedule_effect (doctor date time : option string) (b : bool)
    pf sf af calls :
  exists sf',
    _update_schedule_availability env doctor date time b
      (world_of pf sf af calls) = (Ok tt, world_of pf sf' af calls) /\
    (sf' = sf \/
     sf' = Rows (set_availability doctor date time b (file_rows sf))) /\
    (schedule_io_ok env ->
     file_rows sf' = set_availability doctor date time b (file_rows sf)).
Proof.
  unfold _update_schedule_availability, schedule_io_ok, world_of. run.
  destruct sf as [| |df]; simpl.
  1,2: destruct (read_schedule (faults env)); eexists;
       (split; [reflexivity | split; [now left | reflexivity]]).
  destruct (read_schedule (faults env)) eqn:Hr; simpl.
  { eexists. split; [reflexivity|]. split; [now left | now intros [? ?]]. }
  destruct df as [|r df]; simpl.
  { eexists. split; [reflexivity|]. split; [now left | reflexivity]. }
  destruct (write_schedule (faults env)) eqn:Hw; simpl.
  { eexists. split; [reflexivity|]. split; [now left | now intros [? ?]]. }
  eexists. split; [reflexivity|]. split; [now right | reflexivity].
Qed.

Lemma add_new_patient_effect (p : PatientInfo.t) (i : gmap string string)
    pf sf af calls :
  exists pf',
    _add_new_patient env p i (world_of pf sf af calls)
      = (Ok tt, world_of pf' sf af calls) /\
    (pf' = pf \/
     exists id, pf' = Rows (file_rows pf ++ [new_patient id p i])).
Proof.
  unfold _add_new_patient, world_of. run.
  destruct (read_patients (faults env)); simpl;
    [eexists; split; [reflexivity | now left]|].
  destruct pf as [| |df]; simpl;
    (destruct (write_patients (faults env)); simpl;
     [eexists; split; [reflexivity | now left]
     |eexists; split; [reflexivity | right; eexists; reflexivity]]).
Qed.

Lemma save_appointment_effect (p : PatientInfo.t) (a : AppointmentInfo.t)
    (i : gmap string string) pf sf af calls :
  exists r pf' sf' af',
    save_appointment env p a i (world_of pf sf af calls)
      = (Ok r, world_of pf' sf' af' calls) /\
    (pf' = pf \/
     default false (PatientInfo.is_returning p) = false /\
     exists id, pf' = Rows (file_rows pf ++ [new_patient id p i])) /\
    ((r = "ERROR" /\ af' = af /\ sf' = sf) \/
     (r = uuid8 env /\
      af' = Rows (file_rows af ++ [appointment_data env p a i]) /\
      (sf' = sf \/ sf' = Rows (with_slot a false (file_rows sf))) /\
      (schedule_io_ok env ->
       file_rows sf' = with_slot a false (file_rows sf)))).
Proof.
  unfold save_appointment.
  assert (Hadd : exists pf',
    (if negb (default false (PatientInfo.is_returning p))
     then _add_new_patient env p i else ret tt) (world_of pf sf af calls)
      = (Ok tt, world_of pf' sf af calls) /\
    (pf' = pf \/
     default false (PatientInfo.is_returning p) = false /\
     exists id, pf' = Rows (file_rows pf ++ [new_patient id p i]))).
  { destruct (default false (PatientInfo.is_returning p)); simpl.
    - exists pf. split; [reflexivity | now left].
    - destruct (add_new_patient_effect p i pf sf af calls) as (pf' & H1 & H2).
      exists pf'. split; [exact H1|]. destruct H2; [now left | right; auto]. }
  destruct Hadd as (pf' & Hrun & Hpf).
  unfold bind at 1. rewrite Hrun.
  unfold try_except at 1. unfold bind at 1.
  assert (Hread :
    try_except (read_csv (read_appointments (faults env)) appointments_file)
      (fun e => match e with
                | FileNotFoundError | EmptyDataError => ret []
                | _ => raise e
                end) (world_of pf' sf af calls)
    = (if read_appointments (faults env) then Raise OSError
       else Ok (file_rows af), world_of pf' sf af calls)).
  { unfold world_of. run.
    destruct (read_appointments (faults env)); [reflexivity|].
    now destruct af. }
  rewrite Hread.
  destruct (read_appointments (faults env)).
  { exists "ERROR", pf', sf, af. split; [reflexivity|]. split; [exact Hpf|].
    now left. }
  unfold bind at 1. unfold to_csv.
  destruct (write_appointments (faults env)).
  { exists "ERROR", pf', sf, af. split; [reflexivity|]. split; [exact Hpf|].
    now left. }
  unfold bind at 1.
  destruct (update_schedule_effect (AppointmentInfo.doctor_name a)
              (AppointmentInfo.date a) (AppointmentInfo.time a) false
              pf' sf (Rows (file_rows af ++ [appointment_data env p a i]))
              calls) as (sf' & Hupd & Hsf & Hok).
  cbv [set_disk set_appointments_file disk llm_calls patients_file
       schedule_file appointments_file world_of] in Hupd |- *.
  rewrite Hupd.
  exists (uuid8 env), pf', sf',
    (Rows (file_rows af ++ [appointment_data env p a i])).
  split; [reflexivity|].
  split; [exact Hpf|]. right. auto.
Qed.

Lemma cancel_appointment_effect (appointment_id reason : string)
    pf sf af calls :
  (cancel_appointment env appointment_id reason (world_of pf sf af calls)
     = (Ok false, world_of pf sf af calls) /\
   (read_appointments (faults env) = true \/
    write_appointments (faults env) = true \/
    List.filter (with_id appointment_id) (file_rows af) = []))
  \/
  exists df appointment rest pf' sf',
    af = Rows df /\
    List.filter (with_id appointment_id) df = appointment :: rest /\
    cancel_appointment env appointment_id reason (world_of pf sf af calls)
      = (Ok true,
         world_of pf' sf'
           (Rows (map (fun r =>
                         if with_id appointment_id r
                         then Appointments.cancel_row reason (now_text env) r
                         else r) df)) calls) /\
    (schedule_io_ok env ->
     file_rows sf'
       = set_availability (Appointments.doctor_name appointment)
           (Appointments.appointment_date appointment)
           (Appointments.appointment_time appointment) true (file_rows sf)) /\
    (pf' = pf \/
     exists first last,
       pf' = Rows (without_patient first last
                     (Appointments.patient_dob appointment) (file_rows pf))) /\
    (patients_io_ok env ->
     was_new (Appointments.is_returning_patient appointment) = true ->
     forall first last,
       Appointments.patient_first_name appointment = Some first ->
       Appointments.patient_last_name appointment = Some last ->
       file_rows pf'
         = without_patient first last
             (Appointments.patient_dob appointment) (file_rows pf)).
Proof.
  destruct (cancel_appointment env appointment_id reason
              (world_of pf sf af calls)) as [res w'] eqn:E.
  unfold cancel_appointment in E. cbv zeta in E.
  unfold try_except at 1 in E. unfold bind at 1 in E.
  unfold path_exists, world_of in E. cbn [disk appointments_file] in E.
  destruct af as [| |df].
  { injection E as <- <-. left. auto. }
  { unfold bind, read_csv in E. cbn in E.
    destruct (read_appointments (faults env)); injection E as <- <-;
      left; auto. }
  cbn [negb] in E. unfold bind at 1 in E. unfold read_csv at 1 in E.
  cbn [disk appointments_file file_rows] in E |- *.
  destruct (read_appointments (faults env));
    [injection E as <- <-; left; auto|].
  destruct (df_empty df) eqn:Hempty.
  { injection E as <- <-. left. destruct df; [auto | discriminate]. }
  destruct (List.filter (with_id appointment_id) df)
    as [|appointment rest] eqn:Hfilter; [injection E as <- <-; left; auto|].
  unfold bind at 1 in E. unfold to_csv at 1 in E.
  destruct (write_appointments (faults env));
    [injection E as <- <-; left; auto|].
  right. exists df, appointment, rest.
  cbv [set_disk set_appointments_file disk llm_calls patients_file
       schedule_file appointments_file] in E.
  unfold bind at 1 in E.
  destruct (update_schedule_effect (Appointments.doctor_name appointment)
              (Appointments.appointment_date appointment)
              (Appointments.appointment_time appointment) true pf sf
              (Rows (map (fun r =>
                         if with_id appointment_id r
                         then Appointments.cancel_row reason (now_text env) r
                         else r) df)) calls) as (sf' & Hupd & _ & Hsf).
  unfold world_of in Hupd. rewrite Hupd in E. unfold bind at 1 in E.
  destruct (was_new (Appointments.is_returning_patient appointment)).
  2:{ injection E as <- <-. exists pf, sf'. repeat split; auto; discriminate. }
  unfold try_except, bind, read_csv, patients_io_ok in E |- *.
  cbn [disk patients_file] in E.
  destruct (read_patients (faults env)).
  { injection E as <- <-. exists pf, sf'. repeat split; auto.
    now intros [? ?]. }
  destruct pf as [| |rows].
  1,2: injection E as <- <-; eexists _, sf'; repeat split; auto;
       intros _ _ first last _ _; reflexivity.
  destruct (Appointments.patient_first_name appointment) as [first|].
  2:{ injection E as <- <-. exists (Rows rows), sf'. repeat split; auto.
      discriminate. }
  destruct (Appointments.patient_last_name appointment) as [last|].
  2:{ injection E as <- <-. exists (Rows rows), sf'. repeat split; auto.
      discriminate. }
  unfold to_csv in E. destruct (write_patients (faults env)).
  { injection E as <- <-. exists (Rows rows), sf'. repeat split; auto.
    now intros [? ?]. }
  injection E as <- <-.
  exists (Rows (without_patient first last
                  (Appointments.patient_dob appointment) rows)), sf'.
  repeat split; auto.
  - right. exists first, last. reflexivity.
  - intros _ _ f l [= <-] [= <-]. reflexivity.
Qed.

End StoreEffects.

(** ** The booking commit *)




(** The confirmation node commits through [save_appointment] and moves to
    [form_distribution] whatever the outcome. *)
Lemma confirmation_node_commit (env : Env) (state : SchedulingState)
    (w : World) (p : PatientInfo.t) (a : AppointmentInfo.t)
    (i : gmap string string) :
  patient_info state = Some p -> appointment_info state = Some a ->
  insurance_info state = Some i ->
  exists u,
    (_appointment_confirmation_node env state w).1 = Ok u /\
    (_appointment_confirmation_node env state w).2
      = (save_appointment env p a i w).2 /\
    (save_appointment env p a i w).1 = Ok (default "" (u_appointment_id u)) /\
    u_current_stage u = Some "form_distribution".
Proof.
  intros Hp Ha Hi. unfold _appointment_confirmation_node.
  rewrite Hp, Ha, Hi. unfold bind, ret.
  rewrite (world_of_eta w).
  destruct (save_appointment_effect env p a i (patients_file (disk w))
              (schedule_file (disk w)) (appointments_file (disk w))
              (llm_calls w)) as (r & pf' & sf' & af' & Hrun & _).
  rewrite Hrun. eexists. repeat split.
Qed.

(** ** The identity tuple of the patient directory *)

Lemma NoDup_map_filter {A B} (key : A -> B) (f : A -> bool) (l : list A) :
  NoDup (map key l) -> NoDup (map key (List.filter f l)).
Proof.
  induction l as [|x l IH]; simpl; intros H; [constructor|].
  apply NoDup_cons in H as [Hx Hl].
  destruct (f x); simpl; [|auto].
  apply NoDup_cons. split; [|auto].
  intros Hin. apply Hx. apply list_elem_of_fmap in Hin as (y & -> & Hy).
  apply list_elem_of_fmap. exists y. split; [reflexivity|].
  apply list_elem_of_In. apply list_elem_of_In in Hy.
  now apply filter_In in Hy as [Hy _].
Qed.

Lemma NoDup_map_snoc {A B} (key : A -> B) (x : A) (l : list A) :
  NoDup (map key l) -> key x ∉ map key l -> NoDup (map key (l ++ [x])).
Proof.
  intros Hl Hx. rewrite map_app. simpl. apply NoDup_app.
  repeat split; [exact Hl | | apply NoDup_singleton].
  intros y Hy Hy'. apply list_elem_of_singleton in Hy'. now subst.
Qed.

(** The directory the program itself creates holds records whose
    [is_returning] flag is false; [lookup_patient] classifies such a
    patient as new. *)
Lemma lookup_patient_false_flag (env : Env) (first last dob : string)
    (w : World) :
  Forall (fun r => Patients.is_returning r = Some false)
    (patient_rows (disk w)) ->
  lookup_patient env first last dob w = (Ok false, w).
Proof.
  destruct w as [[pf sf af] calls]. unfold patient_rows. simpl. intros Hall.
  unfold lookup_patient. run.
  destruct pf as [| |df]; simpl.
  1,2: now destruct (read_patients (faults env)).
  destruct (read_patients (faults env)); simpl; [reflexivity|].
  destruct (df_empty df); simpl; [reflexivity|].
  match goal with
  | |- context [List.filter ?f df] =>
      destruct (List.filter f df) as [|r rest] eqn:Hf; [reflexivity|]
  end.
  assert (Hr : In r df).
  { eapply proj1. apply filter_In. rewrite Hf. now left. }
  rewrite Forall_forall in Hall. apply list_elem_of_In in Hr.
  now rewrite (Hall r Hr).
Qed.

(** C2 as stated fails: Jane Smith is in the directory with
    [is_returning] false, so the lookup classifies her as new and the
    booking inserts a second record with her identity tuple. *)
Lemma patient_key_counterexample :
  let env := Demo.env no_faults Demo.silent in
  let w := Demo.world Demo.disk0 in
  unique_patients (patient_rows (disk w)) /\
  lookup_patient env "Jane" "Smith" "1990-07-22" w = (Ok false, w) /\
  ~ unique_patients
      (patient_rows
         (disk (save_appointment env Demo.jane Demo.chosen_slot
                  Demo.self_pay_bag w).2)).
Proof.
  cbv zeta. repeat split.
  - unfold unique_patients. simpl. apply NoDup_singleton.
  - intros H. vm_compute in H. apply NoDup_cons in H as [H _].
    apply H. left.
Qed.

(** C2 (amended): the removal performed by a cancellation preserves the
    uniqueness of the identity tuple for every starting table; the insert
    performed by a booking preserves it when the patient is flagged
    returning (nothing is inserted) or no record of the table has the
    identity tuple of the booked patient (the insert itself does not
    check this). *)
Theorem patient_key_preserved (env : Env) (w : World) :
  unique_patients (patient_rows (disk w)) ->
  (forall appointment_id reason,
     unique_patients
       (patient_rows
          (disk (cancel_appointment env appointment_id reason w).2))) /\
  (forall p a i,
     PatientInfo.is_returning p = Some true \/
     info_key p ∉ map patient_key (patient_rows (disk w)) ->
     unique_patients
       (patient_rows (disk (save_appointment env p a i w).2))).
Proof.
  rewrite (world_of_eta w). unfold patient_rows, unique_patients.
  cbn [world_of disk patients_file]. intros Huniq. split.
  - intros appointment_id reason.
    destruct (cancel_appointment_effect env appointment_id reason
                (patients_file (disk w)) (schedule_file (disk w))
                (appointments_file (disk w)) (llm_calls w))
      as [[Hrun _]|(df & ap & rest & pf' & sf' & _ & _ & Hrun & _ & Hpf & _)];
      rewrite Hrun; cbn [snd world_of disk patients_file]; [exact Huniq|].
    destruct Hpf as [->|(first & last & ->)]; [exact Huniq|].
    now apply NoDup_map_filter.
  - intros p a i Hfresh.
    destruct (save_appointment_effect env p a i (patients_file (disk w))
                (schedule_file (disk w)) (appointments_file (disk w))
                (llm_calls w)) as (r & pf' & sf' & af' & Hrun & Hpf & _).
    rewrite Hrun. cbn [snd world_of disk patients_file].
    destruct Hpf as [->|(Hnew & id & ->)]; [exact Huniq|].
    destruct Hfresh as [Hret|Hfresh]; [now rewrite Hret in Hnew|].
    now apply NoDup_map_snoc.
Qed.

Lemma patient_key_preserved_witness :
  let env := Demo.env no_faults Demo.silent in
  let w := Demo.world Demo.disk0 in
  unique_patients
    (patient_rows
       (disk (cancel_appointment env "1A2B3C4D" "" w).2)) /\
  unique_patients
    (patient_rows
       (disk (save_appointment env Demo.amy Demo.chosen_slot
                Demo.self_pay_bag w).2)).
Proof.
  intros env w.
  assert (Huniq : unique_patients (patient_rows (disk w))).
  { unfold unique_patients. simpl. apply NoDup_singleton. }
  destruct (patient_key_preserved env w Huniq) as [Hcancel Hsave].
  split; [apply Hcancel | apply Hsave].
  right. simpl. intros Hin. apply list_elem_of_singleton in Hin. discriminate Hin.
Defined.

(** ** Booking, then cancelling *)

Lemma slot_mask_set_is_available (doctor date time : option string)
    (b : bool) (r : Schedule.row) :
  slot_mask doctor date time (Schedule.set_is_available b r)
    = slot_mask doctor date time r.
Proof. reflexivity. Qed.

Lemma set_availability_twice (doctor date time : option string)
    (b1 b2 : bool) (rows : list Schedule.row) :
  set_availability doctor date time b2
    (set_availability doctor date time b1 rows)
  = set_availability doctor date time b2 rows.
Proof.
  unfold set_availability. rewrite map_map. apply map_ext. intros r.
  destruct (slot_mask doctor date time r) eqn:Hm.
  - now rewrite slot_mask_set_is_available, Hm.
  - now rewrite Hm.
Qed.

Lemma set_availability_all (doctor date time : option string) (b : bool)
    (rows : list Schedule.row) :
  Forall (fun r => slot_mask doctor date time r = true ->
                   Schedule.is_available r = b)
    (set_availability doctor date time b rows).
Proof.
  unfold set_availability. apply Forall_fmap, Forall_forall. intros r _.
  simpl. destruct (slot_mask doctor date time r) eqn:Hm.
  - reflexivity.
  - intros H. congruence.
Qed.

Lemma filter_fresh_id (appointment_id : string) (old : list Appointments.row)
    (data : Appointments.row) :
  Forall (fun r => Appointments.appointment_id r <> appointment_id) old ->
  Appointments.appointment_id data = appointment_id ->
  List.filter (with_id appointment_id) (old ++ [data]) = [data].
Proof.
  intros Hfresh Hid. rewrite List.filter_app, filter_no_match.
  - simpl. unfold with_id. rewrite Hid, String.eqb_refl. reflexivity.
  - rewrite Forall_forall in Hfresh. intros r Hr. unfold with_id.
    apply String.eqb_neq. now apply Hfresh.
Qed.

Lemma patient_mask_new_patient (env : Env) (id : Z) (p : PatientInfo.t)
    (i : gmap string string) (first last dob : string) :
  info_key p = (Some first, Some last, Some dob) ->
  patient_mask first last (Some dob) (new_patient id p i) = true.
Proof.
  unfold info_key, patient_mask, new_patient. intros [= -> -> ->]. simpl.
  now rewrite !String.eqb_refl.
Qed.

(** C3 as stated fails: Amy books the 09:00 slot of Dr. Chen and the
    appointment is cancelled under the id the booking returned.  The
    schedule cannot be written during the cancellation;
    [_update_schedule_availability] swallows the failure, so
    [cancel_appointment] returns [True], the appointment is Cancelled in
    the ledger, and the slot, available before the booking, stays
    unavailable. *)
Lemma book_then_cancel_counterexample :
  let env := Demo.env no_faults Demo.silent in
  let env' := Demo.env schedule_write_fails Demo.silent in
  let w := Demo.world Demo.disk0 in
  let booked :=
    save_appointment env Demo.amy Demo.chosen_slot Demo.self_pay_bag w in
  let cancelled := cancel_appointment env' "1A2B3C4D" "" booked.2 in
  booked.1 = Ok "1A2B3C4D" /\
  cancelled.1 = Ok true /\
  map Appointments.status (ledger_rows (disk cancelled.2)) = ["Cancelled"] /\
  Demo.slot Demo.chen "2026-01-06" "09:00" true ∈ schedule_rows (disk w) /\
  Demo.slot Demo.chen "2026-01-06" "09:00" false
    ∈ schedule_rows (disk cancelled.2) /\
  ~ Forall (fun r => booked_slot Demo.chosen_slot r = true ->
                     Schedule.is_available r = true)
      (schedule_rows (disk cancelled.2)).
Proof.
  cbv zeta. repeat split; try (vm_compute; reflexivity).
  - vm_compute. right. left.
  - vm_compute. right. left.
  - intros Hall. rewrite Forall_forall in Hall.
    specialize (Hall (Demo.slot Demo.chen "2026-01-06" "09:00" false)).
    discriminate Hall; [vm_compute; right; left | reflexivity].
Qed.

(** C3 (amended): a booking that returned an appointment id, followed by
    [cancel_appointment] on that id with no I/O failure during the
    cancellation, ends with [True] returned and the booked slot available
    again (every other row of the schedule as before the booking) and,
    for a patient flagged new, with no record of that patient's identity
    in the directory: the record the booking created is gone.  The id is
    one that no earlier row of the ledger carries (the cancellation acts
    on the first row with the id).  The id, the slot keys and the identity
    fields are cells that [read_csv] returns as the text written
    ([Csv.text]); nothing is stated for the others. *)
Theorem book_then_cancel (env1 env2 : Env) (p : PatientInfo.t)
    (a : AppointmentInfo.t) (i : gmap string string)
    (appointment_id reason : string) (w : World) :
  let booked := save_appointment env1 p a i w in
  let cancelled := cancel_appointment env2 appointment_id reason booked.2 in
  booked.1 = Ok appointment_id ->
  appointment_id <> "ERROR" ->
  Forall (fun r => Appointments.appointment_id r <> appointment_id)
    (ledger_rows (disk w)) ->
  faults env2 = no_faults ->
  Csv.text appointment_id = true ->
  Csv.stable (AppointmentInfo.doctor_name a) = true ->
  Csv.stable (AppointmentInfo.date a) = true ->
  Csv.stable (AppointmentInfo.time a) = true ->
  cancelled.1 = Ok true /\
  schedule_rows (disk cancelled.2) = with_slot a true (schedule_rows (disk w)) /\
  Forall (fun r => booked_slot a r = true -> Schedule.is_available r = true)
    (schedule_rows (disk cancelled.2)) /\
  (PatientInfo.is_returning p = Some false ->
   forall first last dob,
     info_key p = (Some first, Some last, Some dob) ->
     Csv.text first = true -> Csv.text last = true -> Csv.text dob = true ->
     Forall (fun r => patient_mask first last (Some dob) r = false)
       (patient_rows (disk cancelled.2)) /\
     forall id, new_patient id p i ∉ patient_rows (disk cancelled.2)).
Proof.
  cbv zeta. rewrite (world_of_eta w). unfold ledger_rows, schedule_rows,
    patient_rows. cbn [world_of disk appointments_file schedule_file].
  set (pf := patients_file (disk w)). set (sf := schedule_file (disk w)).
  set (af := appointments_file (disk w)). set (calls := llm_calls w).
  destruct (save_appointment_effect env1 p a i pf sf af calls)
    as (r & pf' & sf' & af' & Hrun & _ & Hcases).
  rewrite Hrun. cbn [fst snd].
  intros [= ->] Hok Hfresh Hfaults _ _ _ _.
  destruct Hcases as [(-> & _)|(-> & -> & Hsf' & _)]; [congruence|].
  assert (Hio : schedule_io_ok env2 /\ patients_io_ok env2).
  { unfold schedule_io_ok, patients_io_ok. rewrite Hfaults. now repeat split. }
  destruct Hio as [Hsio Hpio].
  pose proof (filter_fresh_id (uuid8 env1) (file_rows af)
                (appointment_data env1 p a i) Hfresh eq_refl) as Hfilter.
  destruct (cancel_appointment_effect env2 (uuid8 env1) reason pf' sf'
              (Rows (file_rows af ++ [appointment_data env1 p a i])) calls)
    as [[_ Hnot]|(df & ap & rest & pf'' & sf'' & [= <-] & Hfound & Hcancel
                  & Hsched & _ & Hpat)].
  { rewrite Hfaults in Hnot. cbn [file_rows] in Hnot. rewrite Hfilter in Hnot.
    destruct Hnot as [?|[?|?]]; discriminate. }
  rewrite Hfilter in Hfound. injection Hfound as <- <-.
  rewrite Hcancel. cbn [fst snd world_of disk schedule_file patients_file].
  specialize (Hsched Hsio). cbn [appointment_data Appointments.doctor_name
    Appointments.appointment_date Appointments.appointment_time] in Hsched.
  assert (Hrows : file_rows sf'' = with_slot a true (file_rows sf)).
  { rewrite Hsched. unfold with_slot.
    destruct Hsf' as [->| ->]; [reflexivity|].
    cbn [file_rows]. unfold with_slot. apply set_availability_twice. }
  split; [reflexivity|]. split; [exact Hrows|]. split.
  - rewrite Hrows. apply set_availability_all.
  - intros Hnew first last dob Hkey _ _ _.
    assert (Hgone : Forall (fun r => patient_mask first last (Some dob) r = false)
                      (file_rows pf'')).
    { pose proof Hkey as Hkey'. unfold info_key in Hkey'.
      injection Hkey' as Hf Hl Hd.
      rewrite (Hpat Hpio) with (first := first) (last := last).
      - cbn [appointment_data Appointments.patient_dob]. rewrite Hd.
        apply Forall_forall. intros x Hx. apply list_elem_of_In in Hx.
        unfold without_patient in Hx. apply filter_In in Hx as [_ Hx].
        now apply negb_true_iff in Hx.
      - cbn [appointment_data Appointments.is_returning_patient].
        now rewrite Hnew.
      - exact Hf.
      - exact Hl. }
    split; [exact Hgone|].
    intros id Hin. rewrite Forall_forall in Hgone.
    specialize (Hgone _ Hin).
    now rewrite (patient_mask_new_patient env1 id p i first last dob Hkey)
      in Hgone.
Qed.

Lemma book_then_cancel_witness :
  let env := Demo.env no_faults Demo.silent in
  let w := Demo.world Demo.disk0 in
  let booked :=
    save_appointment env Demo.amy Demo.chosen_slot Demo.self_pay_bag w in
  let cancelled :=
    cancel_appointment env "1A2B3C4D"
      "Patient requested cancellation via AI assistant" booked.2 in
  cancelled.1 = Ok true /\
  schedule_rows (disk cancelled.2) = schedule_rows (disk w) /\
  patient_rows (disk cancelled.2) = patient_rows (disk w) /\
  Forall (fun r => patient_mask "Amy" "Davis" (Some "1988-11-30") r = false)
    (patient_rows (disk cancelled.2)).
Proof.
  intros env w booked cancelled.
  destruct (book_then_cancel env env Demo.amy Demo.chosen_slot
              Demo.self_pay_bag "1A2B3C4D"
              "Patient requested cancellation via AI assistant" w)
    as (Hok & Hsched & _ & Hpat).
  - reflexivity.
  - discriminate.
  - constructor.
  - reflexivity.
  - reflexivity.
  - reflexivity.
  - reflexivity.
  - reflexivity.
  - split; [exact Hok|]. split; [|split].
    + fold booked cancelled in Hsched. rewrite Hsched. reflexivity.
    + vm_compute. reflexivity.
    + apply (Hpat eq_refl "Amy" "Davis" "1988-11-30" eq_refl eq_refl eq_refl
               eq_refl).
Defined.

(** The cancellation acts on the first row with the id.  When the id a
    booking draws is already in the ledger, cancelling under it marks
    both appointments Cancelled, frees the slot of the earlier one and
    leaves the newly booked slot unavailable. *)
Example cancel_first_row_with_id :
  let env := Demo.env no_faults Demo.silent in
  let w := (save_appointment env Demo.jane rodriguez_slot Demo.self_pay_bag
              (Demo.world Demo.disk0)).2 in
  let booked :=
    save_appointment env Demo.amy Demo.chosen_slot Demo.self_pay_bag w in
  let cancelled := cancel_appointment env "1A2B3C4D" "" booked.2 in
  map Appointments.appointment_id (ledger_rows (disk w)) = ["1A2B3C4D"] /\
  booked.1 = Ok "1A2B3C4D" /\
  cancelled.1 = Ok true /\
  map Appointments.status (ledger_rows (disk cancelled.2))
    = ["Cancelled"; "Cancelled"] /\
  Demo.slot Demo.rodriguez "2026-01-06" "09:00" true
    ∈ schedule_rows (disk cancelled.2) /\
  Demo.slot Demo.chen "2026-01-06" "09:00" false
    ∈ schedule_rows (disk cancelled.2).
Proof.
  cbv zeta. repeat split; try (vm_compute; reflexivity).
  - vm_compute. right. right. left.
  - vm_compute. right. left.
Qed.

(** The removal is by identity, not by record: for a patient who was in
    the directory with [is_returning] false, booking and cancelling
    removes the earlier record together with the one the booking added. *)
Example book_then_cancel_existing_patient :
  let env := Demo.env no_faults Demo.silent in
  let w := Demo.world Demo.disk0 in
  let booked :=
    save_appointment env Demo.jane Demo.chosen_slot Demo.self_pay_bag w in
  let cancelled := cancel_appointment env "1A2B3C4D" "" booked.2 in
  patient_rows (disk w) = [Demo.jane_row] /\
  length (patient_rows (disk booked.2)) = 2%nat /\
  patient_rows (disk cancelled.2) = [] /\
  schedule_rows (disk cancelled.2) = schedule_rows (disk w) /\
  map Appointments.status (ledger_rows (disk cancelled.2)) = ["Cancelled"].
Proof. cbv zeta. repeat split; vm_compute; reflexivity. Qed.


(** * Further properties of the store *)

(** ** The order on [created_at] *)

Lemma string_compare_refl (s : string) : String.compare s s = Eq.
Proof.
  induction s as [|c s IH]; simpl; [reflexivity|].
  unfold Ascii.compare. now rewrite N.compare_refl.
Qed.

Lemma string_leb_trans (s1 s2 s3 : string) :
  String.leb s1 s2 = true -> String.leb s2 s3 = true ->
  String.leb s1 s3 = true.
Proof.
  unfold String.leb. revert s2 s3.
  induction s1 as [|c1 s1 IH]; intros [|c2 s2] [|c3 s3]; simpl; try congruence.
  unfold Ascii.compare.
  destruct (N.compare_spec (N_of_ascii c1) (N_of_ascii c2)) as [H12|H12|H12];
    destruct (N.compare_spec (N_of_ascii c2) (N_of_ascii c3)) as [H23|H23|H23];
    try congruence.
  - rewrite H12, H23, N.compare_refl. apply IH.
  - rewrite H12. apply N.compare_lt_iff in H23. now rewrite H23.
  - rewrite <- H23. apply N.compare_lt_iff in H12. now rewrite H12.
  - assert (H13 : (N_of_ascii c1 < N_of_ascii c3)%N) by lia.
    apply N.compare_lt_iff in H13. now rewrite H13.
Qed.

#[global] Instance later_eq_trans : Transitive later_eq.
Proof.
  unfold later_eq. intros a b c Hab Hbc. eapply string_leb_trans; eassumption.
Qed.

#[global] Instance later_eq_total : Total later_eq.
Proof.
  unfold later_eq. intros a b.
  destruct (String.leb_total (Appointments.created_at b)
              (Appointments.created_at a)); auto.
Qed.

Lemma sort_latest_first_head (rows : list Appointments.row) :
  match sort_latest_first rows with
  | [] => rows = []
  | latest :: _ =>
      latest ∈ rows /\ forall r, r ∈ rows -> later_eq latest r
  end.
Proof.
  unfold sort_latest_first.
  pose proof (merge_sort_Permutation later_eq rows) as Hperm.
  pose proof (StronglySorted_merge_sort later_eq rows) as Hsorted.
  destruct (merge_sort later_eq rows) as [|latest rest].
  - now apply Permutation_nil in Hperm.
  - split.
    + rewrite <- Hperm. left.
    + intros r Hr. rewrite <- Hperm in Hr.
      apply StronglySorted_inv in Hsorted as [_ Hall].
      apply elem_of_cons in Hr as [->|Hr].
      * unfold later_eq. unfold String.leb. now rewrite string_compare_refl.
      * rewrite Forall_forall in Hall. now apply Hall.
Qed.


(** ** Finding an appointment *)

(** the appointments [find_appointment_by_patient] chooses from *)
Lemma find_appointment_value (env : Env) (p : PatientInfo.t) (w : World) :
  find_appointment_by_patient env p w
  = (Ok (if read_appointments (faults env) then None
         else head (sort_latest_first
                      (List.filter (appointment_mask env p)
                         (List.filter is_confirmed (ledger_rows (disk w)))))),
     w).
Proof.
  destruct w as [[pf sf af] calls]. unfold ledger_rows. cbn [disk appointments_file].
  unfold find_appointment_by_patient. run.
  destruct af as [| |df]; simpl.
  1,2: now destruct (read_appointments (faults env)).
  destruct (read_appointments (faults env)); simpl; [reflexivity|].
  destruct df as [|r df]; [reflexivity|].
  cbn [df_empty].
  destruct (List.filter is_confirmed (r :: df)) as [|c cs]; [reflexivity|].
  cbn [df_empty].
  now destruct (sort_latest_first (List.filter (appointment_mask env p) (c :: cs))).
Qed.

(** what is found is a Confirmed row of the ledger for that identity *)
Lemma found_is_confirmed (env : Env) (p : PatientInfo.t) (w : World)
    (found : Appointments.row) :
  (find_appointment_by_patient env p w).1 = Ok (Some found) ->
  found ∈ ledger_rows (disk w) /\ is_confirmed found = true /\
  appointment_mask env p found = true.
Proof.
  rewrite find_appointment_value. cbn [fst].
  destruct (read_appointments (faults env)); [discriminate|].
  pose proof (sort_latest_first_head
                (List.filter (appointment_mask env p)
                   (List.filter is_confirmed (ledger_rows (disk w)))))
    as Hhead.
  destruct (sort_latest_first _) as [|latest rest]; [discriminate|].
  intros [= ->]. destruct Hhead as [Hin _].
  apply list_elem_of_In in Hin. apply filter_In in Hin as [Hin Hm].
  apply filter_In in Hin as [Hin Hc]. apply list_elem_of_In in Hin. auto.
Qed.

(** X1: [find_appointment_by_patient] never changes the world; what it
    returns is a Confirmed row of the ledger that matches the identity
    (names compared without case, date of birth after normalisation) and
    whose [created_at] is not earlier than that of any other such row; it
    returns [None] only when reading the ledger fails or no Confirmed row
    matches. *)
Theorem find_appointment_latest (env : Env) (p : PatientInfo.t) (w : World) :
  exists found,
    find_appointment_by_patient env p w = (Ok found, w) /\
    match found with
    | Some latest =>
        latest ∈ ledger_rows (disk w) /\
        is_confirmed latest = true /\
        appointment_mask env p latest = true /\
        forall r, r ∈ ledger_rows (disk w) -> is_confirmed r = true ->
                  appointment_mask env p r = true ->
                  String.leb (Appointments.created_at r)
                    (Appointments.created_at latest) = true
    | None =>
        read_appointments (faults env) = true \/
        forall r, r ∈ ledger_rows (disk w) -> is_confirmed r = true ->
                  appointment_mask env p r = false
    end.
Proof.
  rewrite find_appointment_value. eexists. split; [reflexivity|].
  destruct (read_appointments (faults env)); [now left|].
  set (candidates := List.filter (appointment_mask env p)
                       (List.filter is_confirmed (ledger_rows (disk w)))).
  assert (Hcand : forall r, r ∈ candidates <->
            r ∈ ledger_rows (disk w) /\ is_confirmed r = true /\
            appointment_mask env p r = true).
  { intros r. subst candidates. rewrite !list_elem_of_In, !filter_In.
    tauto. }
  pose proof (sort_latest_first_head candidates) as Hhead.
  destruct (sort_latest_first candidates) as [|latest rest]; simpl.
  - right. intros r Hr Hc. destruct (appointment_mask env p r) eqn:Hm; [|reflexivity].
    assert (Hin : r ∈ candidates) by now apply Hcand.
    rewrite Hhead in Hin. inversion Hin.
  - destruct Hhead as [Hin Hmax]. apply Hcand in Hin as (H1 & H2 & H3).
    repeat split; try assumption.
    intros r Hr Hc Hm. apply (Hmax r). now apply Hcand.
Qed.

(** ** Cancelling *)

(** X2: when reading and writing the ledger do not fail,
    [cancel_appointment], asked for an id that is text ([Csv.text]: not a
    number, a boolean or a missing-value marker to [read_csv]), returns
    [True] exactly when the id occurs in the ledger; the status of the row
    is not consulted, so an appointment that is already Cancelled is
    cancelled again.  Nothing is stated for an id that reads as a number:
    a column of such ids is not a column of text. *)
Theorem cancel_succeeds_iff (env : Env) (appointment_id reason : string)
    (w : World) :
  read_appointments (faults env) = false ->
  write_appointments (faults env) = false ->
  Csv.text appointment_id = true ->
  ((cancel_appointment env appointment_id reason w).1 = Ok true <->
   exists r, r ∈ ledger_rows (disk w) /\
             Appointments.appointment_id r = appointment_id).
Proof.
  intros Hr Hw _. rewrite (world_of_eta w). unfold ledger_rows.
  cbn [world_of disk appointments_file].
  destruct (cancel_appointment_effect env appointment_id reason
              (patients_file (disk w)) (schedule_file (disk w))
              (appointments_file (disk w)) (llm_calls w))
    as [[Hrun Hwhy]|(df & ap & rest & pf' & sf' & Haf & Hfound & Hrun & _)];
    rewrite Hrun; cbn [fst].
  - split; [discriminate|]. intros (r & Hin & Hid). exfalso.
    destruct Hwhy as [H|[H|H]]; [congruence | congruence |].
    assert (Hr' : In r (List.filter (with_id appointment_id)
                         (file_rows (appointments_file (disk w))))).
    { apply filter_In. split; [now apply list_elem_of_In|].
      unfold with_id. now apply String.eqb_eq. }
    rewrite H in Hr'. destruct Hr'.
  - split; [|reflexivity]. intros _. exists ap. rewrite Haf. cbn [file_rows].
    assert (Hin : In ap (List.filter (with_id appointment_id) df)).
    { rewrite Hfound. now left. }
    apply filter_In in Hin as [Hin Hid]. split; [now apply list_elem_of_In|].
    unfold with_id in Hid. now apply String.eqb_eq.
Qed.

Lemma cancel_succeeds_iff_witness :
  let env := Demo.env no_faults Demo.silent in
  let w := (save_appointment env Demo.amy Demo.chosen_slot Demo.self_pay_bag
              (Demo.world Demo.disk0)).2 in
  let w' := (cancel_appointment env "1A2B3C4D" "" w).2 in
  (cancel_appointment env "1A2B3C4D" "again" w').1 = Ok true.
Proof.
  intros env w w'.
  apply (cancel_succeeds_iff env "1A2B3C4D" "again" w' eq_refl eq_refl
           eq_refl).
  eexists. split; [left | reflexivity].
Defined.

(** the ledger after a successful cancellation *)
Lemma cancel_ledger_after (env : Env) (appointment_id reason : string)
    (w : World) :
  (cancel_appointment env appointment_id reason w).1 = Ok true ->
  ledger_rows (disk (cancel_appointment env appointment_id reason w).2)
  = map (fun r => if with_id appointment_id r
                  then Appointments.cancel_row reason (now_text env) r
                  else r) (ledger_rows (disk w)).
Proof.
  rewrite (world_of_eta w). unfold ledger_rows.
  cbn [world_of disk appointments_file].
  destruct (cancel_appointment_effect env appointment_id reason
              (patients_file (disk w)) (schedule_file (disk w))
              (appointments_file (disk w)) (llm_calls w))
    as [[Hrun _]|(df & ap & rest & pf' & sf' & Haf & _ & Hrun & _)];
    rewrite Hrun; cbn [fst snd]; [discriminate|].
  intros _. now rewrite Haf.
Qed.

(** X3: a successful cancellation keeps every row of the ledger in place;
    the rows with the cancelled id get status [Cancelled] and the
    cancellation time, every other row is unchanged; whoever then looks
    for an appointment is never given a row with the cancelled id. *)
Theorem cancelled_never_found (env env' : Env)
    (appointment_id reason : string) (w : World) :
  let w' := (cancel_appointment env appointment_id reason w).2 in
  (cancel_appointment env appointment_id reason w).1 = Ok true ->
  length (ledger_rows (disk w')) = length (ledger_rows (disk w)) /\
  (forall r, r ∈ ledger_rows (disk w) ->
             Appointments.appointment_id r <> appointment_id ->
             r ∈ ledger_rows (disk w')) /\
  (forall r, r ∈ ledger_rows (disk w') ->
             Appointments.appointment_id r = appointment_id ->
             Appointments.status r = "Cancelled" /\
             Appointments.cancelled_at r = now_text env) /\
  (forall p found,
     (find_appointment_by_patient env' p w').1 = Ok (Some found) ->
     Appointments.appointment_id found <> appointment_id).
Proof.
  cbv zeta. intros Hok.
  pose proof (cancel_ledger_after env appointment_id reason w Hok) as Hafter.
  assert (Hcancelled : forall r,
            r ∈ ledger_rows (disk (cancel_appointment env appointment_id
                                     reason w).2) ->
            Appointments.appointment_id r = appointment_id ->
            Appointments.status r = "Cancelled" /\
            Appointments.cancelled_at r = now_text env).
  { intros r Hin Hid. rewrite Hafter in Hin.
    apply list_elem_of_fmap in Hin as (r0 & -> & _).
    destruct (with_id appointment_id r0) eqn:Hm; [now split|].
    unfold with_id in Hm. apply String.eqb_neq in Hm. contradiction. }
  repeat split.
  - rewrite Hafter. apply length_map.
  - intros r Hin Hid. rewrite Hafter. apply list_elem_of_fmap. exists r.
    split; [|exact Hin]. unfold with_id.
    apply String.eqb_neq in Hid. now rewrite Hid.
  - now apply Hcancelled.
  - now apply Hcancelled.
  - intros p found Hfind Hid.
    destruct (found_is_confirmed env' p _ found Hfind) as (Hin & Hconf & _).
    destruct (Hcancelled found Hin Hid) as [Hstatus _].
    unfold is_confirmed in Hconf. rewrite Hstatus in Hconf. discriminate.
Qed.

Lemma cancelled_never_found_witness :
  let env := Demo.env no_faults Demo.silent in
  let w := (save_appointment env Demo.amy Demo.chosen_slot Demo.self_pay_bag
              (Demo.world Demo.disk0)).2 in
  let w' := (cancel_appointment env "1A2B3C4D" "" w).2 in
  length (ledger_rows (disk w')) = 1%nat /\
  (find_appointment_by_patient env Demo.amy w).1
    = Ok (Some (appointment_data env Demo.amy Demo.chosen_slot
                  Demo.self_pay_bag)) /\
  (find_appointment_by_patient env Demo.amy w').1 = Ok None.
Proof.
  intros env w w'.
  destruct (cancelled_never_found env env "1A2B3C4D" "" w eq_refl)
    as (Hlen & _ & _ & Hfind).
  split; [exact Hlen|]. split; [vm_compute; reflexivity|].
  destruct (find_appointment_by_patient env Demo.amy w').1 as [[found|]|] eqn:E.
  - exfalso. apply (Hfind Demo.amy found E). vm_compute in E.
    discriminate E.
  - reflexivity.
  - vm_compute in E. discriminate E.
Defined.


(** ** Booking, then looking *)

Lemma eq_cell_lower_refl (name : string) :
  eq_cell_lower (Some name) name = true.
Proof. unfold eq_cell_lower. apply String.eqb_refl. Qed.

Lemma eq_cell_refl (s : string) : eq_cell (Some s) (Some s) = true.
Proof. unfold eq_cell. apply String.eqb_refl. Qed.

(** the ledger after a booking that returned an id *)
Lemma booked_ledger_after (env : Env) (p : PatientInfo.t)
    (a : AppointmentInfo.t) (i : gmap string string) (w : World)
    (appointment_id : string) :
  (save_appointment env p a i w).1 = Ok appointment_id ->
  appointment_id <> "ERROR" ->
  ledger_rows (disk (save_appointment env p a i w).2)
  = (ledger_rows (disk w) ++ [appointment_data env p a i])%list.
Proof.
  rewrite (world_of_eta w). unfold ledger_rows.
  cbn [world_of disk appointments_file].
  destruct (save_appointment_effect env p a i (patients_file (disk w))
              (schedule_file (disk w)) (appointments_file (disk w))
              (llm_calls w)) as (r & pf' & sf' & af' & Hrun & _ & Hcases).
  rewrite Hrun. cbn [fst snd world_of disk appointments_file].
  intros [= ->] Hok.
  destruct Hcases as [(-> & _)|(_ & -> & _)]; [congruence | reflexivity].
Qed.

(** X4: after a booking that returned an id, the patient's appointment
    can be found: for the booked identity (the stored date of birth being
    one that normalisation leaves as it is, and the three identity fields
    being text that [read_csv] returns as written, [Csv.text])
    [find_appointment_by_patient] returns a Confirmed appointment created
    no earlier than the booking. *)
Theorem booked_appointment_found (env env' : Env) (p : PatientInfo.t)
    (a : AppointmentInfo.t) (i : gmap string string) (w : World)
    (appointment_id first last dob : string) :
  (save_appointment env p a i w).1 = Ok appointment_id ->
  appointment_id <> "ERROR" ->
  info_key p = (Some first, Some last, Some dob) ->
  Csv.text first = true -> Csv.text last = true -> Csv.text dob = true ->
  _normalize_date_format env' dob = dob ->
  read_appointments (faults env') = false ->
  exists found,
    (find_appointment_by_patient env' p (save_appointment env p a i w).2).1
      = Ok (Some found) /\
    String.leb (now_text env) (Appointments.created_at found) = true.
Proof.
  intros Hbooked Hok Hkey _ _ _ Hnorm Hread.
  pose proof (booked_ledger_after env p a i w appointment_id Hbooked Hok)
    as Hledger.
  rewrite find_appointment_value, Hread, Hledger. cbn [fst].
  set (data := appointment_data env p a i).
  assert (Hdata : In data
            (List.filter (appointment_mask env' p)
               (List.filter is_confirmed (ledger_rows (disk w) ++ [data])))).
  { apply filter_In. split.
    - apply filter_In. split; [apply in_or_app; right; now left | reflexivity].
    - unfold info_key in Hkey. injection Hkey as Hf Hl Hd.
      unfold appointment_mask, data. cbn [appointment_data
        Appointments.patient_first_name Appointments.patient_last_name
        Appointments.patient_dob].
      rewrite Hf, Hl, Hd. cbn [from_option id]. rewrite Hnorm.
      now rewrite !eq_cell_lower_refl, eq_cell_refl. }
  pose proof (sort_latest_first_head
                (List.filter (appointment_mask env' p)
                   (List.filter is_confirmed
                      (ledger_rows (disk w) ++ [data])))) as Hhead.
  destruct (sort_latest_first _) as [|latest rest].
  - rewrite Hhead in Hdata. destruct Hdata.
  - exists latest. split; [reflexivity|].
    destruct Hhead as [_ Hmax]. apply (Hmax data). now apply list_elem_of_In.
Qed.

Lemma booked_appointment_found_witness :
  let env := Demo.env no_faults Demo.silent in
  exists found,
    (find_appointment_by_patient env Demo.amy
       (save_appointment env Demo.amy Demo.chosen_slot Demo.self_pay_bag
          (Demo.world Demo.disk0)).2).1 = Ok (Some found) /\
    String.leb "2026-01-05 08:00:00" (Appointments.created_at found) = true.
Proof.
  intros env.
  apply (booked_appointment_found env env Demo.amy Demo.chosen_slot
           Demo.self_pay_bag (Demo.world Demo.disk0) "1A2B3C4D"
           "Amy" "Davis" "1988-11-30");
    solve [reflexivity | discriminate].
Defined.

(** the slot query returns available rows of the schedule, whoever the
    doctor is *)
Lemma offered_slots_available (env : Env) (doctor : option string)
    (duration : Z) (w : World) (slots : list Schedule.row) :
  (get_available_slots env doctor duration w).1 = Ok slots ->
  Forall (fun s => s ∈ schedule_rows (disk w) /\
                   Schedule.is_available s = true) slots.
Proof.
  destruct w as [[pf sf af] calls].
  unfold get_available_slots, schedule_rows. run.
  destruct sf as [| |df]; simpl.
  1,2: destruct (read_schedule (faults env)); intros [= <-]; constructor.
  destruct (read_schedule (faults env)); simpl; [intros [= <-]; constructor|].
  destruct (df_empty df); simpl; [intros [= <-]; constructor|].
  destruct (datetime_column env df) as [col|] eqn:Hcol; simpl;
    [|intros [= <-]; constructor].
  intros [= <-].
  pose proof (datetime_column_cells env df col Hcol) as Hcells.
  apply Forall_fmap, Forall_take. unfold sort_values.
  rewrite merge_sort_Permutation.
  apply Forall_forall. intros rt Hin. apply list_elem_of_In in Hin.
  rewrite Forall_forall in Hcells.
  destruct (Py.truthy (default "" doctor)) eqn:Hd;
    (destruct doctor as [d|]; simpl in *;
     try rewrite Hd in Hin;
     repeat (apply filter_In in Hin as [Hin ?]);
     apply list_elem_of_In in Hin;
     (split; [now apply Hcells | assumption])).
Qed.

(** X5: once a booking has flipped the slot (the booking returned an id
    and the schedule I/O did not fail), no slot query offers that slot
    again, whichever doctor is asked for. *)
Theorem booked_slot_not_offered (env env' : Env) (p : PatientInfo.t)
    (a : AppointmentInfo.t) (i : gmap string string) (w : World)
    (appointment_id : string) (doctor : option string) (duration : Z)
    (slots : list Schedule.row) :
  (save_appointment env p a i w).1 = Ok appointment_id ->
  appointment_id <> "ERROR" ->
  schedule_io_ok env ->
  (get_available_slots env' doctor duration
     (save_appointment env p a i w).2).1 = Ok slots ->
  Forall (fun s => booked_slot a s = false) slots.
Proof.
  intros Hbooked Hok Hio Hslots.
  apply offered_slots_available in Hslots.
  eapply Forall_impl; [exact Hslots|]. intros s [Hin Hav].
  assert (Hsched : schedule_rows (disk (save_appointment env p a i w).2)
                   = with_slot a false (schedule_rows (disk w))).
  { revert Hbooked. rewrite (world_of_eta w). unfold schedule_rows.
    cbn [world_of disk schedule_file].
    destruct (save_appointment_effect env p a i (patients_file (disk w))
                (schedule_file (disk w)) (appointments_file (disk w))
                (llm_calls w)) as (r & pf' & sf' & af' & Hrun & _ & Hcases).
    rewrite Hrun. cbn [fst snd world_of disk schedule_file]. intros [= ->].
    destruct Hcases as [(-> & _)|(_ & _ & _ & Hflip)]; [congruence|].
    now apply Hflip. }
  rewrite Hsched in Hin. unfold with_slot in Hin.
  pose proof (set_availability_all (AppointmentInfo.doctor_name a)
                (AppointmentInfo.date a) (AppointmentInfo.time a) false
                (schedule_rows (disk w))) as Hall.
  rewrite Forall_forall in Hall. specialize (Hall s Hin).
  unfold booked_slot. destruct (slot_mask _ _ _ s); [|reflexivity].
  rewrite Hall in Hav by reflexivity. discriminate.
Qed.

Lemma booked_slot_not_offered_witness :
  let env := Demo.env no_faults Demo.silent in
  let w' := (save_appointment env Demo.amy Demo.chosen_slot Demo.self_pay_bag
               (Demo.world Demo.disk0)).2 in
  (get_available_slots env (Some Demo.chen) 30 w').1
    = Ok [Demo.slot Demo.chen "2026-01-06" "09:30" true;
          Demo.slot Demo.chen "2026-01-07" "09:00" true] /\
  Forall (fun s => booked_slot Demo.chosen_slot s = false)
    [Demo.slot Demo.chen "2026-01-06" "09:30" true;
     Demo.slot Demo.chen "2026-01-07" "09:00" true].
Proof.
  intros env w'.
  assert (Hq : (get_available_slots env (Some Demo.chen) 30 w').1
               = Ok [Demo.slot Demo.chen "2026-01-06" "09:30" true;
                     Demo.slot Demo.chen "2026-01-07" "09:00" true])
    by (vm_compute; reflexivity).
  split; [exact Hq|].
  apply (booked_slot_not_offered env env Demo.amy Demo.chosen_slot
           Demo.self_pay_bag (Demo.world Demo.disk0) "1A2B3C4D"
           (Some Demo.chen) 30).
  - reflexivity.
  - discriminate.
  - split; reflexivity.
  - exact Hq.
Defined.

(** X6: [save_appointment] does not look at the slot's availability:
    two bookings of the same slot whose ledger writes succeed leave two
    Confirmed records for that slot, one after the other. *)
Theorem booking_ignores_availability (env1 env2 : Env)
    (p1 p2 : PatientInfo.t) (a : AppointmentInfo.t)
    (i1 i2 : gmap string string) (w : World) (id1 id2 : string) :
  let first := save_appointment env1 p1 a i1 w in
  let second := save_appointment env2 p2 a i2 first.2 in
  first.1 = Ok id1 -> id1 <> "ERROR" ->
  second.1 = Ok id2 -> id2 <> "ERROR" ->
  exists r1 r2,
    ledger_rows (disk second.2) = (ledger_rows (disk w) ++ [r1; r2])%list /\
    Appointments.status r1 = "Confirmed" /\
    Appointments.status r2 = "Confirmed" /\
    Appointments.appointment_id r1 = id1 /\
    Appointments.appointment_id r2 = id2 /\
    (Appointments.doctor_name r1, Appointments.appointment_date r1,
     Appointments.appointment_time r1)
    = (Appointments.doctor_name r2, Appointments.appointment_date r2,
       Appointments.appointment_time r2).
Proof.
  cbv zeta. intros H1 Hok1 H2 Hok2.
  exists (appointment_data env1 p1 a i1), (appointment_data env2 p2 a i2).
  rewrite (booked_ledger_after env2 p2 a i2 _ id2 H2 Hok2).
  rewrite (booked_ledger_after env1 p1 a i1 w id1 H1 Hok1).
  rewrite <- app_assoc. repeat split.
  - revert H1. rewrite (world_of_eta w).
    destruct (save_appointment_effect env1 p1 a i1 (patients_file (disk w))
                (schedule_file (disk w)) (appointments_file (disk w))
                (llm_calls w)) as (r & pf' & sf' & af' & Hrun & _ & Hcases).
    rewrite Hrun. cbn [fst]. intros [= ->].
    destruct Hcases as [(-> & _)|(-> & _)]; [congruence | reflexivity].
  - revert H2.
    rewrite (world_of_eta (save_appointment env1 p1 a i1 w).2).
    destruct (save_appointment_effect env2 p2 a i2
                (patients_file (disk (save_appointment env1 p1 a i1 w).2))
                (schedule_file (disk (save_appointment env1 p1 a i1 w).2))
                (appointments_file (disk (save_appointment env1 p1 a i1 w).2))
                (llm_calls (save_appointment env1 p1 a i1 w).2))
      as (r & pf' & sf' & af' & Hrun & _ & Hcases).
    rewrite Hrun. cbn [fst]. intros [= ->].
    destruct Hcases as [(-> & _)|(-> & _)]; [congruence | reflexivity].
Qed.

Lemma booking_ignores_availability_witness :
  let env := Demo.env no_faults Demo.silent in
  let first :=
    save_appointment env Demo.amy Demo.chosen_slot Demo.self_pay_bag
      (Demo.world Demo.disk0) in
  let second :=
    save_appointment env Demo.jane Demo.chosen_slot Demo.self_pay_bag
      first.2 in
  exists r1 r2,
    ledger_rows (disk second.2) = [r1; r2] /\
    Appointments.status r1 = "Confirmed" /\
    Appointments.status r2 = "Confirmed" /\
    Appointments.appointment_time r1 = Appointments.appointment_time r2.
Proof.
  intros env first second.
  destruct (booking_ignores_availability env env Demo.amy Demo.jane
              Demo.chosen_slot Demo.self_pay_bag Demo.self_pay_bag
              (Demo.world Demo.disk0) "1A2B3C4D" "1A2B3C4D")
    as (r1 & r2 & Hledger & Hs1 & Hs2 & _ & _ & Hslot);
    try solve [reflexivity | discriminate].
  exists r1, r2. injection Hslot as _ _ Htime. auto.
Defined.


(** ** The patient directory *)

(** what [lookup_patient] answers *)
Lemma lookup_patient_value (env : Env) (first last dob : string) (w : World) :
  lookup_patient env first last dob w
  = (Ok (if read_patients (faults env) then false
         else match List.filter (identity_mask env first last dob)
                      (patient_rows (disk w)) with
              | r :: _ => flag_truthy (Patients.is_returning r)
              | [] => false
              end), w).
Proof.
  destruct w as [[pf sf af] calls]. unfold patient_rows.
  cbn [disk patients_file]. unfold lookup_patient. run.
  destruct pf as [| |df]; simpl.
  1,2: now destruct (read_patients (faults env)).
  destruct (read_patients (faults env)); simpl; [reflexivity|].
  destruct df as [|r df]; [reflexivity|]. cbn [df_empty].
  fold (identity_mask env first last dob).
  now destruct (List.filter (identity_mask env first last dob) (r :: df)).
Qed.

(** what [update_patient_email] does to the files *)
Lemma update_patient_email_effect (env : Env)
    (first last dob email : string) pf sf af calls :
  (update_patient_email env first last dob email (world_of pf sf af calls)
     = (Ok false, world_of pf sf af calls) /\
   (read_patients (faults env) = true \/ write_patients (faults env) = true \/
    existsb (identity_mask env first last dob) (file_rows pf) = false))
  \/
  (update_patient_email env first last dob email (world_of pf sf af calls)
     = (Ok true,
        world_of
          (Rows (map (fun r => if identity_mask env first last dob r
                               then set_email email r else r) (file_rows pf)))
          sf af calls) /\
   existsb (identity_mask env first last dob) (file_rows pf) = true).
Proof.
  unfold update_patient_email, world_of. run.
  destruct pf as [| |df]; simpl.
  1,2: destruct (read_patients (faults env)); left; auto.
  destruct (read_patients (faults env)); simpl; [left; auto|].
  destruct df as [|r df]; [left; auto|]. cbn [df_empty].
  destruct (existsb (identity_mask env first last dob) (r :: df)) eqn:Hex;
    [|left; auto].
  destruct (write_patients (faults env)); simpl; [left; auto|].
  right. auto.
Qed.

Lemma filter_map_same {A} (f : A -> bool) (g : A -> A) (l : list A) :
  (forall x, f (g x) = f x) ->
  List.filter f (map g l) = map g (List.filter f l).
Proof.
  intros Hfg. induction l as [|x l IH]; simpl; [reflexivity|].
  rewrite Hfg. destruct (f x); simpl; now rewrite IH.
Qed.

(** X7: [update_patient_email] touches only the patient file, and there
    only the email cell: the identity tuples and the returning flags stay
    row by row as they were.  When the patient I/O does not fail it
    returns [True] exactly when some record matches the identity, and then
    every matching record carries the new address. *)
Theorem update_patient_email_spec (env : Env)
    (first last dob email : string) (w : World) :
  let result := update_patient_email env first last dob email w in
  schedule_file (disk result.2) = schedule_file (disk w) /\
  appointments_file (disk result.2) = appointments_file (disk w) /\
  map patient_key (patient_rows (disk result.2))
    = map patient_key (patient_rows (disk w)) /\
  map Patients.is_returning (patient_rows (disk result.2))
    = map Patients.is_returning (patient_rows (disk w)) /\
  (result.1 = Ok true ->
   forall r, r ∈ patient_rows (disk result.2) ->
             identity_mask env first last dob r = true ->
             Patients.email r = Some email) /\
  (patients_io_ok env ->
   (result.1 = Ok true <->
    exists r, r ∈ patient_rows (disk w) /\
              identity_mask env first last dob r = true)).
Proof.
  cbv zeta. rewrite (world_of_eta w). unfold patient_rows, patients_io_ok.
  cbn [world_of disk patients_file schedule_file appointments_file].
  destruct (update_patient_email_effect env first last dob email
              (patients_file (disk w)) (schedule_file (disk w))
              (appointments_file (disk w)) (llm_calls w))
    as [[Hrun Hwhy]|[Hrun Hex]]; rewrite Hrun;
    cbn [fst snd world_of disk patients_file schedule_file appointments_file
         file_rows].
  - repeat split; try discriminate.
    intros (r & Hin & Hm). exfalso.
    destruct Hwhy as [?|[?|Hno]]; [intuition congruence..|].
    assert (Hex : existsb (identity_mask env first last dob)
                    (file_rows (patients_file (disk w))) = true).
    { apply existsb_exists. exists r. split; [now apply list_elem_of_In|auto]. }
    congruence.
  - repeat split.
    + rewrite map_map. apply map_ext. intros r. now destruct (identity_mask _ _ _ _ r).
    + rewrite map_map. apply map_ext. intros r. now destruct (identity_mask _ _ _ _ r).
    + intros _ r Hin Hm. apply list_elem_of_fmap in Hin as (r0 & -> & _).
      destruct (identity_mask env first last dob r0) eqn:Hm0; [reflexivity|].
      congruence.
    + intros _. apply existsb_exists in Hex as (r & Hin & Hm).
      exists r. split; [now apply list_elem_of_In | exact Hm].
Qed.

Lemma update_patient_email_spec_witness :
  let env := Demo.env no_faults Demo.silent in
  let result :=
    update_patient_email env "JANE" "smith" "07/22/1990" "jane@new.example"
      (Demo.world Demo.disk0) in
  result.1 = Ok true /\
  map Patients.email (patient_rows (disk result.2))
    = [Some "jane@new.example"].
Proof.
  intros env result.
  destruct (update_patient_email_spec env "JANE" "smith" "07/22/1990"
              "jane@new.example" (Demo.world Demo.disk0))
    as (_ & _ & _ & _ & _ & Hiff).
  split.
  - apply Hiff; [split; reflexivity|].
    exists Demo.jane_row. split; [left | vm_compute; reflexivity].
  - vm_compute. reflexivity.
Defined.

(** X8: changing an email address never changes how a patient is
    classified: [lookup_patient] answers the same before and after
    [update_patient_email], for every identity asked. *)
Theorem update_email_keeps_classification (env env' : Env)
    (first last dob email first' last' dob' : string) (w : World) :
  (lookup_patient env' first' last' dob'
     (update_patient_email env first last dob email w).2).1
  = (lookup_patient env' first' last' dob' w).1.
Proof.
  rewrite !lookup_patient_value. cbn [fst].
  destruct (read_patients (faults env')); [reflexivity|].
  rewrite (world_of_eta w). unfold patient_rows.
  destruct (update_patient_email_effect env first last dob email
              (patients_file (disk w)) (schedule_file (disk w))
              (appointments_file (disk w)) (llm_calls w))
    as [[Hrun _]|[Hrun _]]; rewrite Hrun;
    cbn [snd world_of disk patients_file file_rows]; [reflexivity|].
  rewrite filter_map_same.
  - destruct (List.filter (identity_mask env' first' last' dob') _)
      as [|r rest]; [reflexivity|]. cbn [map].
    now destruct (identity_mask env first last dob r).
  - intros r. now destruct (identity_mask env first last dob r).
Qed.



(** two records, one flagged new and one with an empty cell *)
Example patient_count_empty_flag :
  (get_patient_count (Demo.env no_faults Demo.silent)
     (Demo.world
        {| patients_file := Rows [Demo.jane_row; unflagged_row];
           schedule_file := Rows []; appointments_file := Rows [] |})).1
  = Ok {| returning := 0; new := 1; total := 2 |}.
Proof. reflexivity. Qed.

(** *** Frame rules of the store monad *)

Section Frame.

Context {X : Type} (observe : World -> X).

Lemma preserves_ret {A} (a : A) : preserves observe (ret a).
Proof. intros w. reflexivity. Qed.

Lemma preserves_raise {A} (e : Exception) : preserves observe (@raise A e).
Proof. intros w. reflexivity. Qed.

Lemma preserves_bind {A B} (c : M A) (k : A -> M B) :
  preserves observe c -> (forall a, preserves observe (k a)) ->
  preserves observe (bind c k).
Proof.
  intros Hc Hk w. unfold bind. specialize (Hc w).
  destruct (c w) as [[a|e] w1]; cbn [snd] in *; [|exact Hc].
  now rewrite Hk.
Qed.

Lemma preserves_try_except {A} (c : M A) (h : Exception -> M A) :
  preserves observe c -> (forall e, preserves observe (h e)) ->
  preserves observe (try_except c h).
Proof.
  intros Hc Hh w. unfold try_except. specialize (Hc w).
  destruct (c w) as [[a|e] w1]; cbn [snd] in *; [exact Hc|].
  now rewrite Hh.
Qed.

Lemma preserves_path_exists {A} (sel : Disk -> File A) :
  preserves observe (path_exists sel).
Proof. intros w. reflexivity. Qed.

Lemma preserves_read_csv {A} (fault : bool) (sel : Disk -> File A) :
  preserves observe (read_csv fault sel).
Proof.
  intros w. unfold read_csv. destruct fault; [reflexivity|].
  now destruct (sel (disk w)).
Qed.

Lemma preserves_to_csv {A} (fault : bool) (set : File A -> Disk -> Disk)
    (rows : list A) :
  (forall f w, observe (set_disk (set f (disk w)) w) = observe w) ->
  preserves observe (to_csv fault set rows).
Proof.
  intros Hset w. unfold to_csv. destruct fault; [reflexivity|]. apply Hset.
Qed.

End Frame.

Lemma update_schedule_keeps_patients (env : Env)
    (doctor date time : option string) (b : bool) :
  preserves patients_of (_update_schedule_availability env doctor date time b).
Proof.
  unfold _update_schedule_availability.
  apply preserves_try_except; [|intros; apply preserves_ret].
  apply preserves_bind; [apply preserves_path_exists|]. intros present.
  destruct present; [|apply preserves_ret]. cbn [negb].
  apply preserves_bind; [apply preserves_read_csv|]. intros df.
  destruct (df_empty df); [apply preserves_ret|].
  apply preserves_to_csv. reflexivity.
Qed.

Lemma add_new_patient_ok (env : Env) (p : PatientInfo.t)
    (i : gmap string string) (w : World) :
  patients_io_ok env ->
  exists id w',
    _add_new_patient env p i w = (Ok tt, w') /\
    patients_of w' = Rows (patient_rows (disk w) ++ [new_patient id p i]).
Proof.
  intros [Hr Hw]. destruct w as [[pf sf af] calls].
  unfold _add_new_patient, patients_of, patient_rows. run. rewrite Hr. simpl.
  destruct pf; simpl; rewrite Hw; simpl; eexists _, _; split; reflexivity.
Qed.

(** the patient file after the booking of a patient not flagged
    returning, when the patient I/O does not fail *)
Lemma save_appointment_adds_patient (env : Env) (p : PatientInfo.t)
    (a : AppointmentInfo.t) (i : gmap string string) (w : World) :
  PatientInfo.is_returning p <> Some true ->
  patients_io_ok env ->
  exists id,
    patient_rows (disk (save_appointment env p a i w).2)
    = (patient_rows (disk w) ++ [new_patient id p i])%list.
Proof.
  intros Hnew Hio.
  destruct (add_new_patient_ok env p i w Hio) as (id & w1 & Hadd & Hpf).
  exists id. unfold save_appointment. unfold bind at 1.
  assert (Hflag : negb (default false (PatientInfo.is_returning p)) = true).
  { destruct (PatientInfo.is_returning p) as [[]|]; [congruence|reflexivity..]. }
  rewrite Hflag, Hadd.
  match goal with
  | |- patient_rows (disk (?c w1).2) = _ =>
      assert (Hkeep : preserves patients_of c)
  end.
  { apply preserves_try_except; [|intros; apply preserves_ret].
    apply preserves_bind.
    - apply preserves_try_except; [apply preserves_read_csv|].
      intros []; first [apply preserves_ret | apply preserves_raise].
    - intros df. apply preserves_bind; [apply preserves_to_csv; reflexivity|].
      intros _. apply preserves_bind; [apply update_schedule_keeps_patients|].
      intros _. apply preserves_ret. }
  specialize (Hkeep w1). unfold patients_of in Hkeep, Hpf.
  unfold patient_rows at 1. now rewrite Hkeep, Hpf.
Qed.

(** X10: a new patient becomes a returning one.  After a booking for a
    patient not flagged returning, whose identity matched no record of the
    directory, and with the patient I/O not failing, [lookup_patient]
    answers [True] for that identity, in whatever case the names are
    written.  The three identity fields are text that [read_csv] returns
    as written ([Csv.text]). *)
Theorem new_patient_becomes_returning (env env' : Env) (p : PatientInfo.t)
    (a : AppointmentInfo.t) (i : gmap string string) (w : World)
    (first last dob first' last' dob' : string) :
  PatientInfo.is_returning p <> Some true ->
  info_key p = (Some first, Some last, Some dob) ->
  Csv.text first = true -> Csv.text last = true -> Csv.text dob = true ->
  patients_io_ok env ->
  read_patients (faults env') = false ->
  Py.lower first' = Py.lower first ->
  Py.lower last' = Py.lower last ->
  _normalize_date_format env' dob' = dob ->
  Forall (fun r => identity_mask env' first' last' dob' r = false)
    (patient_rows (disk w)) ->
  (lookup_patient env' first' last' dob' (save_appointment env p a i w).2).1
  = Ok true.
Proof.
  intros Hnew Hkey _ _ _ Hio Hr' Hf Hl Hd Hnone.
  rewrite lookup_patient_value, Hr'. cbn [fst]. f_equal.
  destruct (save_appointment_adds_patient env p a i w Hnew Hio) as (id & ->).
  rewrite List.filter_app, filter_no_match.
  - unfold info_key in Hkey. injection Hkey as Hfirst Hlast Hdob.
    cbn [app List.filter]. unfold identity_mask, new_patient.
    cbn [Patients.first_name Patients.last_name Patients.dob].
    rewrite Hfirst, Hlast, Hdob, Hd. unfold eq_cell_lower.
    rewrite Hf, Hl, !String.eqb_refl, eq_cell_refl. reflexivity.
  - rewrite Forall_forall in Hnone. exact Hnone.
Qed.

Lemma new_patient_becomes_returning_witness :
  let env := Demo.env no_faults Demo.silent in
  (lookup_patient env "AMY" "davis" "11/30/1988" (Demo.world Demo.disk0)).1
    = Ok false /\
  (lookup_patient env "AMY" "davis" "11/30/1988"
     (save_appointment env Demo.amy Demo.chosen_slot Demo.self_pay_bag
        (Demo.world Demo.disk0)).2).1 = Ok true.
Proof.
  intros env. split; [vm_compute; reflexivity|].
  apply (new_patient_becomes_returning env env Demo.amy Demo.chosen_slot
           Demo.self_pay_bag (Demo.world Demo.disk0) "Amy" "Davis"
           "1988-11-30").
  - discriminate.
  - reflexivity.
  - reflexivity.
  - reflexivity.
  - reflexivity.
  - split; reflexivity.
  - reflexivity.
  - reflexivity.
  - reflexivity.
  - vm_compute. reflexivity.
  - repeat constructor.
Defined.


(** ** Creating the data files *)

Lemma weekdays_in_two_weeks (t : Z) :
  length (List.filter (fun k => weekday (t + 1 + Z.of_nat k) <? 5) (seq 0 14))
  = 10%nat.
Proof.
  assert (Hw : forall k, weekday (t + 1 + Z.of_nat k)
                         = (t mod 7 + (7 + Z.of_nat k)) mod 7).
  { intros k. unfold weekday.
    replace (t + 1 + Z.of_nat k + 6) with (t + (7 + Z.of_nat k)) by lia.
    now rewrite Zplus_mod_idemp_l. }
  rewrite (List.filter_ext _ (fun k => (t mod 7 + (7 + Z.of_nat k)) mod 7 <? 5));
    [|intros k; now rewrite Hw].
  pose proof (Z.mod_pos_bound t 7 ltac:(lia)) as Hr.
  assert (Hcases : t mod 7 = 0 \/ t mod 7 = 1 \/ t mod 7 = 2 \/ t mod 7 = 3
                   \/ t mod 7 = 4 \/ t mod 7 = 5 \/ t mod 7 = 6) by lia.
  destruct Hcases as [->|[->|[->|[->|[->|[->| ->]]]]]]; reflexivity.
Qed.

Lemma length_flat_map_filter {A B} (f : A -> list B) (keep : A -> bool)
    (n : nat) (l : list A) :
  (forall x, length (f x) = n) ->
  length (flat_map (fun x => if keep x then f x else []) l)
  = (n * length (List.filter keep l))%nat.
Proof.
  intros Hn. induction l as [|x l IH]; simpl; [lia|].
  rewrite length_app, IH. destruct (keep x); simpl; [rewrite Hn|]; lia.
Qed.

(** X11: whatever the day the program is started on, the generated
    schedule has 320 rows: sixteen half-hour slots for each of the two
    doctors on each of the ten weekdays among the next fourteen days; all
    rows carry the same availability flag, the one draw made after the
    generator is re-seeded. *)
Theorem generated_schedule_size (host : Host) :
  length (generated_schedule host) = 320%nat /\
  Forall (fun r => Schedule.is_available r = seeded_draw host /\
                   In (Schedule.doctor_name r) doctors /\
                   exists k, (k < 14)%nat /\
                     Schedule.date r
                     = isoformat host (today host + 1 + Z.of_nat k) /\
                     weekday (today host + 1 + Z.of_nat k) < 5)
    (generated_schedule host).
Proof.
  unfold generated_schedule, schedule_day. split.
  - rewrite (length_flat_map_filter
               (fun k => flat_map
                           (fun doctor =>
                              doctor_day host doctor
                                (today host + 1 + Z.of_nat k)) doctors)
               (fun k => weekday (today host + 1 + Z.of_nat k) <? 5) 32).
    + now rewrite weekdays_in_two_weeks.
    + intros k. reflexivity.
  - apply Forall_forall. intros r Hr. apply list_elem_of_In in Hr.
    apply in_flat_map in Hr as (k & Hk & Hr). apply in_seq in Hk.
    destruct (weekday (today host + 1 + Z.of_nat k) <? 5) eqn:Hwd;
      [|destruct Hr].
    apply Z.ltb_lt in Hwd.
    apply in_flat_map in Hr as (doctor & Hdoc & Hr).
    unfold doctor_day in Hr. apply in_flat_map in Hr as (hour & _ & Hr).
    apply in_map_iff in Hr as (minute & <- & _). simpl.
    repeat split; [exact Hdoc|]. exists k. repeat split; [lia | exact Hwd].
Qed.

(** X12: [_ensure_data_files_exist] never rewrites a file that exists,
    and when it returns every one of the three files exists. *)
Theorem ensure_data_files (env : Env) (host : Host) (w : World) :
  let result := _ensure_data_files_exist env host w in
  (patients_file (disk w) <> Missing ->
   patients_file (disk result.2) = patients_file (disk w)) /\
  (schedule_file (disk w) <> Missing ->
   schedule_file (disk result.2) = schedule_file (disk w)) /\
  (appointments_file (disk w) <> Missing ->
   appointments_file (disk result.2) = appointments_file (disk w)) /\
  (result.1 = Ok tt ->
   patients_file (disk result.2) <> Missing /\
   schedule_file (disk result.2) <> Missing /\
   appointments_file (disk result.2) <> Missing).
Proof.
  destruct w as [[pf sf af] calls]. cbv zeta.
  unfold _ensure_data_files_exist, _create_sample_patients,
    _create_doctor_schedule, _create_appointments_file. run.
  destruct pf, sf, af, (faker host), (write_patients (faults env)),
    (write_schedule (faults env)), (write_appointments (faults env));
    simpl; repeat split; congruence.
Qed.

Lemma ensure_data_files_witness :
  let env := Demo.env no_faults Demo.silent in
  let host := {| today := 739622; isoformat := Py.str; seeded_draw := true;
                 faker := None |} in
  let result :=
    _ensure_data_files_exist env host
      (Demo.world {| patients_file := Rows [Demo.jane_row];
                     schedule_file := Missing;
                     appointments_file := Missing |}) in
  patients_file (disk result.2) = Rows [Demo.jane_row] /\
  length (schedule_rows (disk result.2)) = 320%nat /\
  appointments_file (disk result.2) = Rows [].
Proof.
  intros env host result.
  destruct (ensure_data_files env host
              (Demo.world {| patients_file := Rows [Demo.jane_row];
                             schedule_file := Missing;
                             appointments_file := Missing |}))
    as (Hp & _).
  split; [apply Hp; discriminate|].
  split; vm_compute; reflexivity.
Defined.


(** * Further properties of the conversation *)

(** ** Smart scheduling *)

(** X13: the duration chosen at [smart_scheduling] depends on the
    returning flag alone: 30 minutes when it is set and true, 60 minutes
    otherwise, whatever the message says and whether or not a doctor is
    recognised. *)
Theorem smart_scheduling_duration (state : SchedulingState)
    (p : PatientInfo.t) :
  patient_info state = Some p ->
  messages state <> [] ->
  exists u a,
    _smart_scheduling_node state = Ok u /\
    u_appointment_info u = Some a /\
    AppointmentInfo.duration a
      = Some (if default false (PatientInfo.is_returning p) then 30 else 60).
Proof.
  intros Hp Hmsgs. unfold _smart_scheduling_node. rewrite Hp.
  destruct (last (messages state)) as [m|] eqn:Hlast.
  2:{ apply last_None in Hlast. contradiction. }
  cbv zeta.
  match goal with
  | |- context [match ?chosen with Some _ => _ | None => _ end] =>
      destruct chosen as [doctor|]
  end.
  - destruct (Py.truthy doctor); eexists _, _; repeat split.
  - eexists _, _; repeat split.
Qed.

Lemma smart_scheduling_duration_witness :
  exists u a,
    _smart_scheduling_node
      (booking_state "I would like Dr. Chen" None None "smart_scheduling")
      = Ok u /\
    u_appointment_info u = Some a /\
    AppointmentInfo.duration a = Some 60.
Proof.
  apply (smart_scheduling_duration
           (booking_state "I would like Dr. Chen" None None "smart_scheduling")
           Demo.amy); [reflexivity | discriminate].
Defined.

(** X14: at [smart_scheduling] (the key [doctor] not being set) a user
    message moves the conversation to [calendar_integration] exactly when
    it names a doctor, and the doctor recorded is Dr. Emily Chen whenever
    the lowercased message contains [emily] or [chen], also when it names
    Dr. Rodriguez as well; otherwise the stage and the stored doctor stay
    as they were. *)
Theorem smart_scheduling_doctor (state : SchedulingState)
    (p : PatientInfo.t) (content : string) :
  patient_info state = Some p ->
  last (messages state) = Some (HumanMessage content) ->
  Py.filled (AppointmentInfo.doctor
               (default AppointmentInfo.empty (appointment_info state)))
    = false ->
  exists u a,
    _smart_scheduling_node state = Ok u /\
    u_appointment_info u = Some a /\
    match doctor_in (Py.lower content) with
    | Some d =>
        u_current_stage u = Some "calendar_integration" /\
        AppointmentInfo.doctor_name a = Some d /\
        (Py.contains "emily" (Py.lower content)
         || Py.contains "chen" (Py.lower content) = true ->
         d = "Dr. Emily Chen")
    | None =>
        u_current_stage u = Some "smart_scheduling" /\
        AppointmentInfo.doctor_name a
          = AppointmentInfo.doctor_name
              (default AppointmentInfo.empty (appointment_info state))
    end.
Proof.
  intros Hp Hlast Hdoc. unfold _smart_scheduling_node.
  rewrite Hp, Hlast. cbv zeta.
  cbn [set_duration AppointmentInfo.doctor]. rewrite Hdoc. cbn [negb].
  unfold doctor_in.
  destruct (Py.contains "emily" (Py.lower content)
            || Py.contains "chen" (Py.lower content)) eqn:Hchen.
  { eexists _, _. repeat split. }
  destruct (Py.contains "david" (Py.lower content)
            || Py.contains "rodriguez" (Py.lower content)).
  { eexists _, _. repeat split. discriminate. }
  destruct (AppointmentInfo.doctor
              (default AppointmentInfo.empty (appointment_info state)))
    as [d|] eqn:Hd.
  - simpl in Hdoc. rewrite Hdoc. eexists _, _. repeat split.
  - eexists _, _. repeat split.
Qed.

Lemma smart_scheduling_doctor_witness :
  exists u a,
    _smart_scheduling_node
      (booking_state "Not Dr. Rodriguez, I prefer Emily Chen" None None
         "smart_scheduling") = Ok u /\
    u_appointment_info u = Some a /\
    u_current_stage u = Some "calendar_integration" /\
    AppointmentInfo.doctor_name a = Some "Dr. Emily Chen".
Proof.
  destruct (smart_scheduling_doctor
              (booking_state "Not Dr. Rodriguez, I prefer Emily Chen" None None
                 "smart_scheduling") Demo.amy
              "Not Dr. Rodriguez, I prefer Emily Chen")
    as (u & a & Hu & Ha & Hd); [reflexivity..|].
  exists u, a. cbn in Hd. destruct Hd as (Hs & Hn & _). auto.
Defined.


(** ** Choosing a slot *)

(** X15: in [calendar_integration] a message that parses as an integer
    [n] within [1..N] binds the [n]-th offered slot: doctor, date and time
    of the appointment bag become those of that slot, the duration is
    kept, the stage becomes [insurance_collection]; the offered list and
    the files stay as they were. *)
Theorem in_range_selection (env : Env) (state : SchedulingState) (w : World)
    (content : string) (n : Z) (offered : list Schedule.row) :
  available_slots state = Some offered ->
  last (messages state) = Some (HumanMessage content) ->
  Py.int (Py.strip content) = Some n ->
  1 <= n <= Z.of_nat (length offered) ->
  exists slot a,
    offered !! Z.to_nat (n - 1) = Some slot /\
    run_node (_calendar_integration_node env) state w
      = (apply_update state
           (with_appointment_info
              (reply (selected_response slot) "insurance_collection") a), w) /\
    AppointmentInfo.doctor_name a = Some (Schedule.doctor_name slot) /\
    AppointmentInfo.date a = Some (Schedule.date slot) /\
    AppointmentInfo.time a = Some (Schedule.time slot) /\
    AppointmentInfo.duration a
      = AppointmentInfo.duration
          (default AppointmentInfo.empty (appointment_info state)) /\
    available_slots
      (run_node (_calendar_integration_node env) state w).1 = Some offered.
Proof.
  intros Hoffered Hlast Hint Hrange.
  destruct (lookup_lt_is_Some_2 offered (Z.to_nat (n - 1))) as [slot Hslot];
    [lia|].
  exists slot,
    (AppointmentInfo.update
       (default AppointmentInfo.empty (appointment_info state)) slot).
  split; [exact Hslot|].
  assert (Hnode : _calendar_integration_node env state w
            = (Ok (with_appointment_info
                     (reply (selected_response slot) "insurance_collection")
                     (AppointmentInfo.update
                        (default AppointmentInfo.empty
                           (appointment_info state)) slot)), w)).
  { unfold _calendar_integration_node. rewrite Hlast, Hint, Hoffered.
    cbn [default from_option id].
    replace ((0 <=? n - 1) && (n - 1 <? Z.of_nat (length offered))) with true.
    - now rewrite Hslot.
    - symmetry. apply andb_true_iff. split; [apply Z.leb_le | apply Z.ltb_lt];
        lia. }
  unfold run_node. rewrite Hnode. cbn [fst].
  repeat split. cbn. now rewrite Hoffered.
Qed.

Lemma in_range_selection_witness :
  exists slot a,
    five_slots !! Z.to_nat (3 - 1) = Some slot /\
    run_node (_calendar_integration_node (Demo.env no_faults Demo.silent))
      (booking_state " 3 " (Some five_slots) None "calendar_integration")
      (Demo.world Demo.disk0)
      = (apply_update
           (booking_state " 3 " (Some five_slots) None "calendar_integration")
           (with_appointment_info
              (reply (selected_response slot) "insurance_collection") a),
         Demo.world Demo.disk0) /\
    AppointmentInfo.date a = Some "2026-01-07".
Proof.
  destruct (in_range_selection (Demo.env no_faults Demo.silent)
              (booking_state " 3 " (Some five_slots) None
                 "calendar_integration")
              (Demo.world Demo.disk0) " 3 " 3 five_slots)
    as (slot & a & Hslot & Hrun & _ & Hdate & _);
    [reflexivity | reflexivity | reflexivity | simpl; lia |].
  exists slot, a. repeat split; [exact Hslot | exact Hrun |].
  rewrite Hdate. injection Hslot as <-. reflexivity.
Defined.

(** X16: in [calendar_integration] a message that is not an integer makes
    the node query the schedule: the list stored and shown is the result
    of [get_available_slots] for the chosen doctor, every slot in it an
    available row of the schedule; when the list is empty the doctor is
    dropped from the appointment bag and the stage goes back to
    [smart_scheduling], otherwise the stage stays.  The files are not
    touched. *)
Theorem slot_listing (env : Env) (state : SchedulingState) (w : World)
    (content : string) :
  last (messages state) = Some (HumanMessage content) ->
  Py.int (Py.strip content) = None ->
  let a := default AppointmentInfo.empty (appointment_info state) in
  exists slots u,
    (get_available_slots env (AppointmentInfo.doctor_name a)
       (default 30 (AppointmentInfo.duration a)) w).1 = Ok slots /\
    _calendar_integration_node env state w = (Ok u, w) /\
    u_available_slots u = Some slots /\
    Forall (fun s => s ∈ schedule_rows (disk w) /\
                     Schedule.is_available s = true) slots /\
    (slots = [] ->
     u_current_stage u = Some "smart_scheduling" /\
     u_appointment_info u = Some (AppointmentInfo.pop_doctor_name a)) /\
    (slots <> [] ->
     u_current_stage u = Some "calendar_integration" /\
     u_appointment_info u = Some a).
Proof.
  intros Hlast Hint a.
  destruct (get_available_slots env (AppointmentInfo.doctor_name a)
              (default 30 (AppointmentInfo.duration a)) w)
    as [res w1] eqn:Hquery.
  assert (Hw : w1 = w /\ exists slots, res = Ok slots).
  { revert Hquery. destruct w as [[pf sf af] calls].
    unfold get_available_slots. run.
    destruct sf as [| |df]; simpl.
    1,2: destruct (read_schedule (faults env)); intros [= <- <-]; eauto.
    destruct (read_schedule (faults env)); simpl; [intros [= <- <-]; eauto|].
    destruct (df_empty df); simpl; [intros [= <- <-]; eauto|].
    destruct (datetime_column env df); simpl; intros [= <- <-]; eauto. }
  destruct Hw as [-> (slots & ->)].
  pose proof (offered_slots_available env (AppointmentInfo.doctor_name a)
                (default 30 (AppointmentInfo.duration a)) w slots) as Hav.
  rewrite Hquery in Hav. specialize (Hav eq_refl).
  unfold _calendar_integration_node. rewrite Hlast, Hint.
  fold a. unfold show_available_slots, bind. rewrite Hquery.
  destruct slots as [|s slots]; cbn [df_empty negb]; eexists _, _;
    (split; [reflexivity|]); (split; [reflexivity|]);
    (split; [reflexivity|]); (split; [exact Hav|]);
    split; intros H; try congruence; split; reflexivity.
Qed.

Lemma slot_listing_witness :
  exists slots u,
    (get_available_slots (Demo.env no_faults Demo.silent)
       (Some Demo.chen) 60 (Demo.world Demo.disk0)).1 = Ok slots /\
    _calendar_integration_node (Demo.env no_faults Demo.silent)
      (booking_state "which days?" None None "calendar_integration")
      (Demo.world Demo.disk0) = (Ok u, Demo.world Demo.disk0) /\
    u_available_slots u = Some slots /\
    u_current_stage u = Some "calendar_integration".
Proof.
  destruct (slot_listing (Demo.env no_faults Demo.silent)
              (booking_state "which days?" None None "calendar_integration")
              (Demo.world Demo.disk0) "which days?")
    as (slots & u & Hq & Hnode & Hsl & _ & _ & Hne);
    [reflexivity | reflexivity |].
  exists slots, u. repeat split; try assumption.
  apply Hne. intros ->. vm_compute in Hq. discriminate Hq.
Defined.


(** ** Insurance, confirmation, forms *)

(** X17: an [insurance_collection] step that does not take the self-pay
    branch moves to [appointment_confirmation] exactly when carrier,
    member id and group number are all filled in the bag after the merge;
    otherwise the stage stays [insurance_collection]. *)
Theorem insurance_complete_iff (env : Env) (state : SchedulingState)
    (w : World) (content : string) :
  last (messages state) = Some (HumanMessage content) ->
  Py.any_in self_pay_keywords (Py.lower content) = false ->
  exists u info w',
    _insurance_collection_node env state w = (Ok u, w') /\
    disk w' = disk w /\
    u_insurance_info u = Some info /\
    (u_current_stage u = Some "appointment_confirmation" \/
     u_current_stage u = Some "insurance_collection") /\
    (u_current_stage u = Some "appointment_confirmation" <->
     Py.filled (info !! "carrier") = true /\
     Py.filled (info !! "member_id") = true /\
     Py.filled (info !! "group_number") = true).
Proof.
  intros Hlast Hno. unfold _insurance_collection_node. rewrite Hlast, Hno.
  unfold extract_insurance, invoke_extraction, try_except, bind, ret.
  assert (Hcheck : forall info,
            u_insurance_info (check_required info) = Some info /\
            (u_current_stage (check_required info)
               = Some "appointment_confirmation" \/
             u_current_stage (check_required info)
               = Some "insurance_collection") /\
            (u_current_stage (check_required info)
               = Some "appointment_confirmation" <->
             Py.filled (info !! "carrier") = true /\
             Py.filled (info !! "member_id") = true /\
             Py.filled (info !! "group_number") = true)).
  { intros info. unfold check_required, required. cbn [List.filter].
    destruct (Py.filled (info !! "carrier")),
      (Py.filled (info !! "member_id")),
      (Py.filled (info !! "group_number")); cbn [negb];
      (split; [reflexivity|]); (split; [auto|]);
      split; try discriminate; intuition discriminate. }
  destruct (llm_insurance env content) as [[]|]; eexists _, _, _;
    (split; [reflexivity|]); (split; [reflexivity|]); apply Hcheck.
Qed.

Lemma insurance_complete_iff_witness :
  exists u info w',
    _insurance_collection_node (Demo.env no_faults blank_carrier)
      (booking_state "my member id is 123456789" (Some five_slots)
         (Some aetna_bag) "insurance_collection") (Demo.world Demo.disk0)
      = (Ok u, w') /\
    u_insurance_info u = Some info /\
    Py.filled (info !! "group_number") = false /\
    u_current_stage u = Some "insurance_collection".
Proof.
  destruct (insurance_complete_iff (Demo.env no_faults blank_carrier)
              (booking_state "my member id is 123456789" (Some five_slots)
                 (Some aetna_bag) "insurance_collection")
              (Demo.world Demo.disk0) "my member id is 123456789")
    as (u & info & w' & Hrun & _ & Hinfo & Hstage & Hiff);
    [reflexivity | reflexivity |].
  exists u, info, w'.
  assert (Hgroup : Py.filled (info !! "group_number") = false).
  { vm_compute in Hrun. injection Hrun as <- _. injection Hinfo as <-.
    vm_compute. reflexivity. }
  repeat split; try assumption.
  destruct Hstage as [Hs|Hs]; [|exact Hs].
  apply Hiff in Hs. destruct Hs as (_ & _ & Hs). congruence.
Defined.

(** X18: the confirmation node reports a booking and moves to
    [form_distribution] also when the booking failed: when the ledger
    cannot be read or written the appointment id it stores is [ERROR] and
    the ledger and the schedule are as before. *)
Theorem confirmation_after_failure (env : Env) (state : SchedulingState)
    (w : World) (p : PatientInfo.t) (a : AppointmentInfo.t)
    (i : gmap string string) :
  patient_info state = Some p -> appointment_info state = Some a ->
  insurance_info state = Some i ->
  read_appointments (faults env) = true \/
  write_appointments (faults env) = true ->
  exists u w',
    _appointment_confirmation_node env state w = (Ok u, w') /\
    u_current_stage u = Some "form_distribution" /\
    u_appointment_id u = Some "ERROR" /\
    u_messages u = [AIMessage (confirmation_response p a i "ERROR")] /\
    appointments_file (disk w') = appointments_file (disk w) /\
    schedule_file (disk w') = schedule_file (disk w).
Proof.
  intros Hp Ha Hi Hfault. unfold _appointment_confirmation_node.
  rewrite Hp, Ha, Hi. unfold bind at 1.
  destruct (save_appointment env p a i w) as [res w'] eqn:Hsave.
  assert (Hres : res = Ok "ERROR" /\
                 appointments_file (disk w') = appointments_file (disk w) /\
                 schedule_file (disk w') = schedule_file (disk w)).
  { revert Hsave. unfold save_appointment. unfold bind at 1.
    destruct ((if negb (default false (PatientInfo.is_returning p))
               then _add_new_patient env p i else ret tt) w)
      as [r1 w1] eqn:Hadd.
    assert (Hw1 : r1 = Ok tt /\
                  appointments_file (disk w1) = appointments_file (disk w) /\
                  schedule_file (disk w1) = schedule_file (disk w)).
    { revert Hadd. rewrite (world_of_eta w).
      destruct (negb (default false (PatientInfo.is_returning p))).
      - destruct (add_new_patient_effect env p i (patients_file (disk w))
                    (schedule_file (disk w)) (appointments_file (disk w))
                    (llm_calls w)) as (pf' & -> & _).
        intros [= <- <-]. auto.
      - intros [= <- <-]. auto. }
    destruct Hw1 as (-> & Haf & Hsf). rewrite <- Haf, <- Hsf.
    destruct w1 as [[pf1 sf1 af1] calls1]. run.
    destruct Hfault as [Hf|Hf].
    - rewrite Hf. intros [= <- <-]. auto.
    - destruct (read_appointments (faults env)); [intros [= <- <-]; auto|].
      destruct af1; simpl; rewrite Hf; intros [= <- <-]; auto. }
  destruct Hres as (-> & Haf & Hsf). eexists _, _. repeat split; assumption.
Qed.

Lemma confirmation_after_failure_witness :
  exists u w',
    _appointment_confirmation_node (Demo.env ledger_write_fails Demo.silent)
      (booking_state "self-pay" (Some five_slots) (Some Demo.self_pay_bag)
         "appointment_confirmation") (Demo.world Demo.disk0) = (Ok u, w') /\
    u_current_stage u = Some "form_distribution" /\
    u_appointment_id u = Some "ERROR".
Proof.
  destruct (confirmation_after_failure
              (Demo.env ledger_write_fails Demo.silent)
              (booking_state "self-pay" (Some five_slots)
                 (Some Demo.self_pay_bag) "appointment_confirmation")
              (Demo.world Demo.disk0) Demo.amy Demo.chosen_slot
              Demo.self_pay_bag)
    as (u & w' & Hrun & Hs & Hid & _);
    [reflexivity | reflexivity | reflexivity | right; reflexivity |].
  exists u, w'. auto.
Defined.

(** X19: [form_distribution] sends the intake form only to a patient
    flagged new who has an email address, and then once, to that address
    under the patient's first and last name; a returning patient, or one
    whose flag is not set, is sent nothing.  Whenever the node returns,
    the stage is [completed]. *)
Theorem form_distribution_spec (chat : Chat) (state : SchedulingState)
    (u : Update) (sent : list (string * string)) :
  _form_distribution_node chat state = Ok (u, sent) ->
  u_current_stage u = Some "completed" /\
  (sent = [] \/
   exists p email first last,
     patient_info state = Some p /\
     PatientInfo.is_returning p = Some false /\
     PatientInfo.email p = Some email /\ email <> "" /\
     PatientInfo.first_name p = Some first /\
     PatientInfo.last_name p = Some last /\
     sent = [(email, first ++ " " ++ last)]).
Proof.
  unfold _form_distribution_node.
  destruct (patient_info state) as [p|]; [|discriminate].
  destruct (PatientInfo.is_returning p) as [[]|] eqn:Hret; cbn [default
    from_option id negb]; try (intros [= <- <-]; split; [reflexivity | now left]).
  destruct (PatientInfo.email p) as [email|] eqn:Hemail;
    [|intros [= <- <-]; split; [reflexivity | now left]].
  destruct (Py.truthy email) eqn:Htruthy;
    [|intros [= <- <-]; split; [reflexivity | now left]].
  destruct (PatientInfo.first_name p) as [first|] eqn:Hfirst; [|discriminate].
  destruct (PatientInfo.last_name p) as [last|] eqn:Hlast; [|discriminate].
  intros [= <- <-]. split; [reflexivity|]. right.
  exists p, email, first, last. repeat split; try assumption.
  intros ->. discriminate Htruthy.
Qed.

Lemma form_distribution_spec_witness :
  exists u,
    _form_distribution_node simulated_mail
      (booking_state "thanks" None None "form_distribution")
    = Ok (u, [("jane.smith@email.com", "Amy Davis")]) /\
    u_current_stage u = Some "completed".
Proof.
  eexists. split; [reflexivity|].
  eapply (proj1 (form_distribution_spec simulated_mail
                   (booking_state "thanks" None None "form_distribution")
                   _ _ eq_refl)).
Defined.


(** ** Collecting the patient's identity *)

Ltac fields :=
  unfold keeps_filled, patient_field, set_first_name, set_last_name, set_dob,
    set_location, set_patient_email, set_is_returning;
  cbn [PatientInfo.first_name PatientInfo.last_name PatientInfo.dob
       PatientInfo.location PatientInfo.email PatientInfo.phone_number
       PatientInfo.is_returning].

Lemma keeps_filled_refl (p : PatientInfo.t) : keeps_filled p p.
Proof. now intros f. Qed.

Lemma keeps_filled_first_name (v : string) (p : PatientInfo.t) :
  Py.filled (PatientInfo.first_name p) = false \/ Py.truthy v = true ->
  keeps_filled p (set_first_name v p).
Proof.
  fields. intros H f.
  destruct (String.eqb f "first_name"); [|auto].
  destruct H as [H|H]; [congruence | now intros _].
Qed.

Lemma keeps_filled_last_name (v : string) (p : PatientInfo.t) :
  Py.filled (PatientInfo.last_name p) = false \/ Py.truthy v = true ->
  keeps_filled p (set_last_name v p).
Proof.
  fields. intros H f.
  destruct (String.eqb f "first_name"); [auto|].
  destruct (String.eqb f "last_name"); [|auto].
  destruct H as [H|H]; [congruence | now intros _].
Qed.

Lemma keeps_filled_names (first last : string) (p : PatientInfo.t) :
  Py.filled (PatientInfo.first_name p) = false ->
  Py.truthy last = true ->
  keeps_filled p (set_last_name last (set_first_name first p)).
Proof.
  fields. intros H Hl f.
  destruct (String.eqb f "first_name"); [congruence|].
  destruct (String.eqb f "last_name"); auto.
Qed.

Lemma keeps_filled_dob (v : string) (p : PatientInfo.t) :
  Py.filled (PatientInfo.dob p) = false -> keeps_filled p (set_dob v p).
Proof.
  fields. intros H f.
  destruct (String.eqb f "first_name"); [auto|].
  destruct (String.eqb f "last_name"); [auto|].
  destruct (String.eqb f "dob"); [congruence | auto].
Qed.

Lemma keeps_filled_location (v : string) (p : PatientInfo.t) :
  Py.filled (PatientInfo.location p) = false ->
  keeps_filled p (set_location v p).
Proof.
  fields. intros H f.
  destruct (String.eqb f "first_name"); [auto|].
  destruct (String.eqb f "last_name"); [auto|].
  destruct (String.eqb f "dob"); [auto|].
  destruct (String.eqb f "location"); [congruence | auto].
Qed.

Lemma keeps_filled_email (v : string) (p : PatientInfo.t) :
  Py.filled (PatientInfo.email p) = false ->
  keeps_filled p (set_patient_email v p).
Proof.
  fields. intros H f.
  destruct (String.eqb f "first_name"); [auto|].
  destruct (String.eqb f "last_name"); [auto|].
  destruct (String.eqb f "dob"); [auto|].
  destruct (String.eqb f "location"); [auto|].
  destruct (String.eqb f "email"); [congruence | auto].
Qed.

(** the names the model returns are not empty, and asking it is recorded *)
Lemma llm_name_extraction_spec (chat : Chat) (text : string) (w : World) :
  exists found,
    _llm_name_extraction chat text w
      = (Ok found, {| disk := disk w; llm_calls := llm_calls w ++ [text] |}) /\
    match found with
    | Some (first, last) =>
        Py.truthy first = true /\
        forall l, last = Some l -> Py.truthy l = true
    | None => True
    end.
Proof.
  unfold _llm_name_extraction, invoke_names, try_except, bind.
  destruct (llm_names chat text) as [[| | | | |items]|];
    try (exists None; split; reflexivity).
  unfold stripped_entry.
  destruct (py_get "first_name" items) as [[| | |s1| |]|];
    try (exists None; split; reflexivity); unfold ret, raise.
  all: destruct (py_get "last_name" items) as [[| | |s2| |]|];
    try (exists None; split; reflexivity).
  all: match goal with
       | |- context [Py.truthy ?f && _ && _] =>
           destruct (Py.truthy f) eqn:Hf; cbn [andb];
           [|exists None; split; reflexivity]
       end.
  all: match goal with
       | |- context [if ?c then _ else _] =>
           destruct c; [|exists None; split; reflexivity]
       end.
  all: eexists (Some (_, _)); split; [reflexivity|]; split; [exact Hf|].
  all: intros l.
  all: match goal with
       | |- (if ?c then _ else _) = _ -> _ => destruct c eqn:Hl
       end; intros [= <-] || intros [=]; try exact Hl.
Qed.

Lemma extract_patient_field_spec (env : Env) (chat : Chat)
    (field input : string) (p : PatientInfo.t) (w : World) :
  Py.filled (patient_field field p) = false ->
  Py.truthy input = true ->
  exists p1 w1,
    extract_patient_field env chat field input p w = (Ok p1, w1) /\
    disk w1 = disk w /\
    keeps_filled p p1 /\
    PatientInfo.is_returning p1 = PatientInfo.is_returning p /\
    (llm_calls w1 = llm_calls w \/
     (field = "first_name" /\
      existsb (String.eqb (Py.lower input)) non_name_responses = false /\
      llm_calls w1 = (llm_calls w ++ [input])%list)).
Proof.
  intros Hmissing Hinput. unfold extract_patient_field.
  assert (Hllm : forall (Hfirst : Py.filled (PatientInfo.first_name p) = false)
                   (Hfield : field = "first_name"),
    exists p1 w1,
      (if negb (existsb (String.eqb (Py.lower input)) non_name_responses)
       then
         bind (_llm_name_extraction chat input)
           (fun extracted_names =>
              match extracted_names with
              | Some (first_name, Some last_name) =>
                  ret (set_last_name last_name (set_first_name first_name p))
              | Some (first_name, None) => ret (set_first_name first_name p)
              | None => ret (set_first_name input p)
              end)
       else ret p) w = (Ok p1, w1) /\
      disk w1 = disk w /\ keeps_filled p p1 /\
      PatientInfo.is_returning p1 = PatientInfo.is_returning p /\
      (llm_calls w1 = llm_calls w \/
       (field = "first_name" /\
        existsb (String.eqb (Py.lower input)) non_name_responses = false /\
        llm_calls w1 = (llm_calls w ++ [input])%list))).
  { intros Hfirst Hfield.
    destruct (existsb (String.eqb (Py.lower input)) non_name_responses)
      eqn:Hnon; cbn [negb].
    { exists p, w. repeat split; auto using keeps_filled_refl. }
    unfold bind.
    destruct (llm_name_extraction_spec chat input w) as (found & -> & Hfound).
    destruct found as [[first [last|]]|]; unfold ret; eexists _, _;
      (split; [reflexivity|]); (split; [reflexivity|]);
      (split; [|split; [reflexivity | right; auto]]).
    - apply keeps_filled_names; [exact Hfirst | now apply Hfound].
    - apply keeps_filled_first_name. now left.
    - apply keeps_filled_first_name. now left. }
  destruct (String.eqb_spec field "first_name") as [->|Hn1].
  { assert (Hfirst : Py.filled (PatientInfo.first_name p) = false)
      by exact Hmissing.
    destruct (_simple_name_extraction chat input) as [[first|] last];
      cbn [fst snd]; [|now apply Hllm].
    destruct (Py.truthy first) eqn:Hf; [|now apply Hllm].
    destruct last as [last|]; [destruct (Py.truthy last) eqn:Hl|];
      unfold ret; eexists _, _; (split; [reflexivity|]);
      (split; [reflexivity|]); (split; [|split; [reflexivity | now left]]).
    - now apply keeps_filled_names.
    - apply keeps_filled_first_name. now left.
    - apply keeps_filled_first_name. now left. }
  clear Hllm. unfold patient_field in Hmissing.
  apply String.eqb_neq in Hn1. rewrite Hn1 in Hmissing.
  destruct (String.eqb field "last_name").
  { destruct (Py.truthy input && _); unfold ret; eexists _, _;
      (split; [reflexivity|]); (split; [reflexivity|]);
      (split; [|split; [reflexivity | now left]]);
      [apply keeps_filled_last_name; now left | apply keeps_filled_refl]. }
  destruct (String.eqb field "dob").
  { unfold ret; eexists _, _; (split; [reflexivity|]);
      (split; [reflexivity|]); (split; [|split; [reflexivity | now left]]).
    now apply keeps_filled_dob. }
  destruct (String.eqb field "location").
  { unfold ret; eexists _, _; (split; [reflexivity|]);
      (split; [reflexivity|]); (split; [|split; [reflexivity | now left]]).
    now apply keeps_filled_location. }
  destruct (String.eqb field "email").
  { destruct (re_search chat email_pattern false input); unfold ret;
      eexists _, _; (split; [reflexivity|]); (split; [reflexivity|]);
      (split; [|split; [reflexivity | now left]]);
      now apply keeps_filled_email. }
  exists p, w. repeat split; auto using keeps_filled_refl.
Qed.

Lemma missing_field_unfilled (fields : list string) (p : PatientInfo.t)
    (field : string) (rest : list string) :
  missing_fields fields p = field :: rest ->
  Py.filled (patient_field field p) = false.
Proof.
  intros H. assert (Hin : In field (missing_fields fields p))
    by (rewrite H; now left).
  unfold missing_fields in Hin. apply filter_In in Hin as [_ Hin].
  now apply negb_true_iff in Hin.
Qed.

Lemma missing_fields_set_is_returning (fields : list string) (b : bool)
    (p : PatientInfo.t) :
  missing_fields fields (set_is_returning b p) = missing_fields fields p.
Proof. reflexivity. Qed.

(** the extraction step of Node 2 *)
Lemma patient_lookup_extraction (env : Env) (chat : Chat)
    (state : SchedulingState) (w : World) (m : BaseMessage) :
  last (messages state) = Some m ->
  exists p1 w1,
    disk w1 = disk w /\
    keeps_filled (stored_patient state) p1 /\
    PatientInfo.is_returning p1
      = PatientInfo.is_returning (stored_patient state) /\
    (llm_calls w1 = llm_calls w \/
     exists content,
       m = HumanMessage content /\
       Py.filled (PatientInfo.first_name (stored_patient state)) = false /\
       existsb (String.eqb (Py.lower (Py.strip content))) non_name_responses
         = false /\
       llm_calls w1 = (llm_calls w ++ [Py.strip content])%list) /\
    _patient_lookup_node env chat state w
    = match missing_fields required_fields p1 with
      | next_field :: _ =>
          (Ok (with_patient_info
                 (reply (progress required_fields p1
                         ++ field_question next_field) "patient_lookup") p1),
           w1)
      | [] =>
          bind (lookup_patient env (default "" (PatientInfo.first_name p1))
                  (default "" (PatientInfo.last_name p1))
                  (default "" (PatientInfo.dob p1)))
            (fun is_returning =>
               ret (with_patient_info
                      (reply (found_response
                                (set_is_returning is_returning p1)
                                is_returning) "smart_scheduling")
                      (set_is_returning is_returning p1))) w1
      end.
Proof.
  intros Hlast. unfold _patient_lookup_node. rewrite Hlast.
  fold (stored_patient state). set (p0 := stored_patient state).
  assert (Hskip : exists p1 w1,
            disk w1 = disk w /\ keeps_filled p0 p1 /\
            PatientInfo.is_returning p1 = PatientInfo.is_returning p0 /\
            (llm_calls w1 = llm_calls w \/
             exists content,
               m = HumanMessage content /\
               Py.filled (PatientInfo.first_name p0) = false /\
               existsb (String.eqb (Py.lower (Py.strip content)))
                 non_name_responses = false /\
               llm_calls w1 = (llm_calls w ++ [Py.strip content])%list) /\
            (p1, w1) = (p0, w)).
  { exists p0, w. repeat split; auto using keeps_filled_refl. }
  assert (Hdone : forall c : M PatientInfo.t,
    (exists p1 w1,
       disk w1 = disk w /\ keeps_filled p0 p1 /\
       PatientInfo.is_returning p1 = PatientInfo.is_returning p0 /\
       (llm_calls w1 = llm_calls w \/
        exists content,
          m = HumanMessage content /\
          Py.filled (PatientInfo.first_name p0) = false /\
          existsb (String.eqb (Py.lower (Py.strip content)))
            non_name_responses = false /\
          llm_calls w1 = (llm_calls w ++ [Py.strip content])%list) /\
       c w = (Ok p1, w1)) ->
    exists p1 w1,
      disk w1 = disk w /\ keeps_filled p0 p1 /\
      PatientInfo.is_returning p1 = PatientInfo.is_returning p0 /\
      (llm_calls w1 = llm_calls w \/
       exists content,
         m = HumanMessage content /\
         Py.filled (PatientInfo.first_name p0) = false /\
         existsb (String.eqb (Py.lower (Py.strip content)))
           non_name_responses = false /\
         llm_calls w1 = (llm_calls w ++ [Py.strip content])%list) /\
      bind c
        (fun current_patient_info =>
           match missing_fields required_fields current_patient_info with
           | next_field :: _ =>
               ret (with_patient_info
                      (reply (progress required_fields current_patient_info
                              ++ field_question next_field) "patient_lookup")
                      current_patient_info)
           | [] =>
               bind (lookup_patient env
                       (default "" (PatientInfo.first_name
                                      current_patient_info))
                       (default "" (PatientInfo.last_name
                                      current_patient_info))
                       (default "" (PatientInfo.dob current_patient_info)))
                 (fun is_returning =>
                    ret (with_patient_info
                           (reply (found_response
                                     (set_is_returning is_returning
                                        current_patient_info)
                                     is_returning) "smart_scheduling")
                           (set_is_returning is_returning
                              current_patient_info)))
           end) w
      = match missing_fields required_fields p1 with
        | next_field :: _ =>
            (Ok (with_patient_info
                   (reply (progress required_fields p1
                           ++ field_question next_field) "patient_lookup")
                   p1), w1)
        | [] =>
            bind (lookup_patient env (default "" (PatientInfo.first_name p1))
                    (default "" (PatientInfo.last_name p1))
                    (default "" (PatientInfo.dob p1)))
              (fun is_returning =>
                 ret (with_patient_info
                        (reply (found_response
                                  (set_is_returning is_returning p1)
                                  is_returning) "smart_scheduling")
                        (set_is_returning is_returning p1))) w1
        end).
  { intros c (p1 & w1 & H1 & H2 & H3 & H4 & Hc). exists p1, w1.
    repeat split; try assumption. unfold bind at 1. rewrite Hc.
    now destruct (missing_fields required_fields p1). }
  apply Hdone.
  destruct m as [content|content].
  2:{ destruct Hskip as (p1 & w1 & H1 & H2 & H3 & H4 & [= -> ->]).
      exists p0, w. repeat split; auto. }
  destruct (Py.truthy (Py.strip content)) eqn:Hcontent.
  2:{ exists p0, w. repeat split; auto using keeps_filled_refl. }
  destruct (missing_fields required_fields p0) as [|field rest] eqn:Hmiss.
  { exists p0, w. repeat split; auto using keeps_filled_refl. }
  pose proof (missing_field_unfilled _ _ _ _ Hmiss) as Hunfilled.
  destruct (extract_patient_field_spec env chat field (Py.strip content) p0 w
              Hunfilled Hcontent) as (p1 & w1 & Hrun & Hd & Hk & Hr & Hcalls).
  exists p1, w1. repeat split; try assumption.
  destruct Hcalls as [Hcalls|(-> & Hnon & Hcalls)]; [now left|].
  right. exists content. repeat split; auto.
Qed.

(** X20: one turn of [patient_lookup] never blanks a field that was
    filled and never touches the files.  It ends in [smart_scheduling]
    exactly when all five required fields are filled after the
    extraction, and then the returning flag stored is the answer of
    [lookup_patient] for the collected identity; otherwise the stage is
    [patient_lookup] and the flag is unchanged. *)
Theorem patient_lookup_progress (env : Env) (chat : Chat)
    (state : SchedulingState) (w : World) :
  messages state <> [] ->
  exists u p w',
    _patient_lookup_node env chat state w = (Ok u, w') /\
    disk w' = disk w /\
    u_patient_info u = Some p /\
    keeps_filled (stored_patient state) p /\
    match missing_fields required_fields p with
    | [] =>
        u_current_stage u = Some "smart_scheduling" /\
        exists is_returning,
          PatientInfo.is_returning p = Some is_returning /\
          (lookup_patient env (default "" (PatientInfo.first_name p))
             (default "" (PatientInfo.last_name p))
             (default "" (PatientInfo.dob p)) w).1 = Ok is_returning
    | _ :: _ =>
        u_current_stage u = Some "patient_lookup" /\
        PatientInfo.is_returning p
          = PatientInfo.is_returning (stored_patient state)
    end.
Proof.
  intros Hmsgs.
  destruct (last (messages state)) as [m|] eqn:Hlast.
  2:{ apply last_None in Hlast. contradiction. }
  destruct (patient_lookup_extraction env chat state w m Hlast)
    as (p1 & w1 & Hdisk & Hkeep & Hret & _ & ->).
  destruct (missing_fields required_fields p1) as [|field rest] eqn:Hmiss.
  - unfold bind, ret. rewrite lookup_patient_value. cbn [fst snd].
    eexists _, (set_is_returning _ p1), w1.
    split; [reflexivity|]. split; [exact Hdisk|]. split; [reflexivity|].
    split.
    { intros f Hf. apply Hkeep in Hf. exact Hf. }
    rewrite missing_fields_set_is_returning, Hmiss.
    split; [reflexivity|]. eexists. split; [reflexivity|].
    rewrite lookup_patient_value. cbn [fst]. unfold patient_rows.
    now rewrite Hdisk.
  - exists (with_patient_info
              (reply (progress required_fields p1 ++ field_question field)
                 "patient_lookup") p1), p1, w1.
    repeat split; try assumption. now rewrite Hmiss.
Qed.

Lemma patient_lookup_progress_witness :
  exists u p w',
    _patient_lookup_node (Demo.env no_faults Demo.silent) simulated_mail
      (state_of [HumanMessage "Hello"; AIMessage greeting_message;
                 HumanMessage "book"; AIMessage schedule_response;
                 HumanMessage "Amy Davis"]
         (Some "patient_lookup") (Some "schedule"))
      (Demo.world Demo.disk0) = (Ok u, w') /\
    u_patient_info u = Some p /\
    PatientInfo.first_name p = Some "Amy" /\
    PatientInfo.last_name p = Some "Davis" /\
    u_current_stage u = Some "patient_lookup".
Proof.
  destruct (patient_lookup_progress (Demo.env no_faults Demo.silent)
              simulated_mail
              (state_of [HumanMessage "Hello"; AIMessage greeting_message;
                         HumanMessage "book"; AIMessage schedule_response;
                         HumanMessage "Amy Davis"]
                 (Some "patient_lookup") (Some "schedule"))
              (Demo.world Demo.disk0))
    as (u & p & w' & Hrun & _ & Hp & _ & Hstage); [discriminate|].
  exists u, p, w'. vm_compute in Hrun. injection Hrun as <- <-.
  injection Hp as <-. repeat split.
Defined.

(** X21: one turn of [patient_lookup] asks the language model for names
    at most once, with the stripped message, and only while the first
    name is missing and the message is not one of the non-informative
    answers ([okay], [yes], ...); in every other case no call is made. *)
Theorem names_model_discipline (env : Env) (chat : Chat)
    (state : SchedulingState) (w : World) (content : string) :
  last (messages state) = Some (HumanMessage content) ->
  let w' := (_patient_lookup_node env chat state w).2 in
  (llm_calls w' = llm_calls w \/
   llm_calls w' = (llm_calls w ++ [Py.strip content])%list) /\
  (Py.filled (PatientInfo.first_name (stored_patient state)) = true ->
   llm_calls w' = llm_calls w) /\
  (In (Py.lower (Py.strip content)) non_name_responses ->
   llm_calls w' = llm_calls w).
Proof.
  intros Hlast.
  destruct (patient_lookup_extraction env chat state w _ Hlast)
    as (p1 & w1 & _ & _ & _ & Hcalls & ->).
  assert (Hw' : (match missing_fields required_fields p1 with
                 | next_field :: _ =>
                     (Ok (with_patient_info
                            (reply (progress required_fields p1
                                    ++ field_question next_field)
                               "patient_lookup") p1), w1)
                 | [] =>
                     bind (lookup_patient env
                             (default "" (PatientInfo.first_name p1))
                             (default "" (PatientInfo.last_name p1))
                             (default "" (PatientInfo.dob p1)))
                       (fun is_returning =>
                          ret (with_patient_info
                                 (reply (found_response
                                           (set_is_returning is_returning p1)
                                           is_returning) "smart_scheduling")
                                 (set_is_returning is_returning p1))) w1
                 end).2 = w1).
  { destruct (missing_fields required_fields p1); [|reflexivity].
    unfold bind, ret. now rewrite lookup_patient_value. }
  cbv zeta. rewrite Hw'.
  destruct Hcalls as [Hsame|(c & [= <-] & Hfirst & Hnon & Hcall)].
  - repeat split; auto.
  - repeat split; auto.
    + intros Hfilled. congruence.
    + intros Hin. exfalso.
      assert (Hex : existsb (String.eqb (Py.lower (Py.strip content)))
                      non_name_responses = true).
      { apply existsb_exists. eexists. split; [exact Hin|].
        apply String.eqb_refl. }
      congruence.
Qed.

Lemma names_model_discipline_witness :
  llm_calls
    (_patient_lookup_node (Demo.env no_faults Demo.silent) simulated_mail
       (state_of [HumanMessage "Hello"; AIMessage greeting_message;
                  HumanMessage "book"; AIMessage schedule_response;
                  HumanMessage " Okay "]
          (Some "patient_lookup") (Some "schedule"))
       (Demo.world Demo.disk0)).2 = [].
Proof.
  apply (names_model_discipline (Demo.env no_faults Demo.silent)
           simulated_mail
           (state_of [HumanMessage "Hello"; AIMessage greeting_message;
                      HumanMessage "book"; AIMessage schedule_response;
                      HumanMessage " Okay "]
              (Some "patient_lookup") (Some "schedule"))
           (Demo.world Demo.disk0) " Okay " eq_refl).
  simpl. tauto.
Defined.


(** ** The cancellation node *)

(** what the node does once the bag of the turn is known *)
Lemma cancellation_tail (env : Env) (turn : PatientInfo.t) (w : World) :
  match missing_fields cancellation_fields turn with
  | next_field :: _ =>
      ret (with_patient_info
             (reply (if no_key turn
                     then "To cancel your appointment, I need to verify your identity. What is your first name?"
                     else field_question next_field) "cancellation") turn)
  | [] =>
      bind (find_appointment_by_patient env turn)
        (fun appointment_to_cancel =>
           match appointment_to_cancel with
           | None => ret (reply (not_found_response turn) "completed")
           | Some appointment =>
               bind (cancel_appointment env
                       (Appointments.appointment_id appointment)
                       cancellation_reason)
                 (fun cancelled : bool =>
                    if cancelled
                    then ret (reply (cancelled_response appointment)
                                "completed")
                    else ret (reply (cancellation_error_response
                                       (Appointments.appointment_id
                                          appointment)) "completed"))
           end)
  end w
  = match missing_fields cancellation_fields turn with
    | next_field :: _ =>
        (Ok (with_patient_info
               (reply (if no_key turn
                       then "To cancel your appointment, I need to verify your identity. What is your first name?"
                       else field_question next_field) "cancellation")
               turn), w)
    | [] =>
        match (find_appointment_by_patient env turn w).1 with
        | Ok (Some appointment) =>
            let cancelled :=
              cancel_appointment env (Appointments.appointment_id appointment)
                cancellation_reason w in
            (Ok (reply (match cancelled.1 with
                        | Ok true => cancelled_response appointment
                        | _ => cancellation_error_response
                                 (Appointments.appointment_id appointment)
                        end) "completed"), cancelled.2)
        | _ => (Ok (reply (not_found_response turn) "completed"), w)
        end
    end.
Proof.
  destruct (missing_fields cancellation_fields turn); [|reflexivity].
  unfold bind at 1. rewrite find_appointment_value. cbn [fst].
  destruct (if read_appointments (faults env) then None else _)
    as [appointment|]; [|reflexivity].
  unfold bind.
  destruct (cancel_appointment env (Appointments.appointment_id appointment)
              cancellation_reason w) as [[[]|e] w1] eqn:Hcancel;
    cbn [fst snd]; try reflexivity.
  exfalso. rewrite (world_of_eta w) in Hcancel.
  destruct (cancel_appointment_effect env
              (Appointments.appointment_id appointment) cancellation_reason
              (patients_file (disk w)) (schedule_file (disk w))
              (appointments_file (disk w)) (llm_calls w))
    as [[Hrun _]|(df & ap & rest & pf' & sf' & _ & _ & Hrun & _)];
    rewrite Hrun in Hcancel; discriminate.
Qed.

(** the node, by the bag of the turn *)
Lemma cancellation_node_run (env : Env) (state : SchedulingState) (w : World) :
  messages state <> [] ->
  _cancellation_node env state w
  = match missing_fields cancellation_fields (cancellation_turn env state) with
    | next_field :: _ =>
        (Ok (with_patient_info
               (reply (if no_key (cancellation_turn env state)
                       then "To cancel your appointment, I need to verify your identity. What is your first name?"
                       else field_question next_field) "cancellation")
               (cancellation_turn env state)), w)
    | [] =>
        match (find_appointment_by_patient env (cancellation_turn env state)
                 w).1 with
        | Ok (Some appointment) =>
            let cancelled :=
              cancel_appointment env (Appointments.appointment_id appointment)
                cancellation_reason w in
            (Ok (reply (match cancelled.1 with
                        | Ok true => cancelled_response appointment
                        | _ => cancellation_error_response
                                 (Appointments.appointment_id appointment)
                        end) "completed"), cancelled.2)
        | _ => (Ok (reply (not_found_response (cancellation_turn env state))
                      "completed"), w)
        end
    end.
Proof.
  intros Hmsgs. rewrite <- cancellation_tail.
  unfold _cancellation_node, cancellation_turn. fold (stored_patient state).
  destruct (last (messages state)) as [m|] eqn:Hlast.
  2:{ apply last_None in Hlast. contradiction. }
  reflexivity.
Qed.

(** X22: a cancellation turn that has the three identity fields and finds
    no Confirmed appointment for them answers with the lookup-miss
    message, ends in [completed] and leaves the three files and the rest
    of the world as they were. *)
Theorem cancellation_miss (env : Env) (state : SchedulingState) (w : World) :
  messages state <> [] ->
  missing_fields cancellation_fields (cancellation_turn env state) = [] ->
  (forall r, r ∈ ledger_rows (disk w) -> is_confirmed r = true ->
             appointment_mask env (cancellation_turn env state) r = false) ->
  _cancellation_node env state w
  = (Ok (reply (not_found_response (cancellation_turn env state))
           "completed"), w).
Proof.
  intros Hmsgs Hfields Hnone.
  rewrite (cancellation_node_run env state w Hmsgs), Hfields.
  rewrite find_appointment_value. cbn [fst].
  destruct (read_appointments (faults env)); [reflexivity|].
  rewrite filter_no_match; [reflexivity|].
  intros r Hr. apply list_elem_of_In in Hr. apply filter_In in Hr as [Hr Hc].
  apply Hnone; [now apply list_elem_of_In | exact Hc].
Qed.

Lemma cancellation_miss_witness :
  let env := Demo.env no_faults Demo.silent in
  let state :=
    {| messages := [HumanMessage "Hello"; AIMessage greeting_message;
                    HumanMessage "cancel"; AIMessage cancel_response;
                    HumanMessage "09/05/1995"];
       current_stage := Some "cancellation"; intent := Some "cancel";
       patient_info :=
         Some (set_last_name "Brown" (set_first_name "Lisa" no_patient_info));
       appointment_info := None; insurance_info := None;
       available_slots := None; appointment_id := None |} in
  PatientInfo.dob (cancellation_turn env state) = Some "1995-09-05" /\
  _cancellation_node env state (Demo.world Demo.disk0)
  = (Ok (reply (not_found_response (cancellation_turn env state))
           "completed"), Demo.world Demo.disk0).
Proof.
  intros env state. split; [vm_compute; reflexivity|].
  apply (cancellation_miss env state (Demo.world Demo.disk0)).
  - discriminate.
  - vm_compute. reflexivity.
  - intros r Hr. inversion Hr.
Defined.

Lemma filter_unique_id (rows : list Appointments.row)
    (r : Appointments.row) :
  NoDup (map Appointments.appointment_id rows) -> r ∈ rows ->
  List.filter (with_id (Appointments.appointment_id r)) rows = [r].
Proof.
  induction rows as [|x rows IH]; intros Hnd Hin; [inversion Hin|].
  cbn [map] in Hnd. apply NoDup_cons in Hnd as [Hx Hnd]. cbn [List.filter].
  apply elem_of_cons in Hin as [->|Hin].
  - unfold with_id at 1. rewrite String.eqb_refl. f_equal.
    apply filter_no_match. intros y Hy. unfold with_id.
    apply String.eqb_neq. intros Heq. apply Hx. rewrite <- Heq.
    apply list_elem_of_fmap. eauto.
  - unfold with_id at 1.
    destruct (String.eqb_spec (Appointments.appointment_id x)
                (Appointments.appointment_id r)) as [Heq|_]; [|auto].
    exfalso. apply Hx. rewrite Heq. apply list_elem_of_fmap. eauto.
Qed.

(** X23: a cancellation turn that has the three identity fields and finds
    an appointment cancels it: with appointment ids distinct in the ledger
    and no I/O fault, the node ends in [completed] with the success
    message, the found appointment is Cancelled in the ledger and every
    schedule row of its slot is available again. *)
Theorem cancellation_success (env : Env) (state : SchedulingState)
    (w : World) (appointment : Appointments.row) :
  messages state <> [] ->
  missing_fields cancellation_fields (cancellation_turn env state) = [] ->
  (find_appointment_by_patient env (cancellation_turn env state) w).1
    = Ok (Some appointment) ->
  NoDup (map Appointments.appointment_id (ledger_rows (disk w))) ->
  faults env = no_faults ->
  exists w',
    _cancellation_node env state w
      = (Ok (reply (cancelled_response appointment) "completed"), w') /\
    (forall r, r ∈ ledger_rows (disk w') ->
               Appointments.appointment_id r
                 = Appointments.appointment_id appointment ->
               Appointments.status r = "Cancelled") /\
    length (ledger_rows (disk w')) = length (ledger_rows (disk w)) /\
    Forall (fun s => appointment_slot appointment s = true ->
                     Schedule.is_available s = true)
      (schedule_rows (disk w')).
Proof.
  intros Hmsgs Hfields Hfind Hunique Hfaults.
  rewrite (cancellation_node_run env state w Hmsgs), Hfields, Hfind.
  destruct (found_is_confirmed env _ w appointment Hfind) as (Hin & _).
  cbv zeta. revert Hin Hunique. rewrite (world_of_eta w).
  unfold ledger_rows, schedule_rows.
  cbn [world_of disk appointments_file]. intros Hin Hunique.
  destruct (cancel_appointment_effect env
              (Appointments.appointment_id appointment) cancellation_reason
              (patients_file (disk w)) (schedule_file (disk w))
              (appointments_file (disk w)) (llm_calls w))
    as [[_ Hwhy]|(df & ap & rest & pf' & sf' & Haf & Hfound & Hrun & Hsched & _)].
  { exfalso. rewrite Hfaults in Hwhy.
    rewrite (filter_unique_id _ _ Hunique Hin) in Hwhy.
    destruct Hwhy as [?|[?|?]]; discriminate. }
  rewrite Haf in Hin, Hunique. cbn [file_rows] in Hin, Hunique.
  rewrite (filter_unique_id _ _ Hunique Hin) in Hfound.
  injection Hfound as <- <-.
  rewrite Hrun. cbn [fst snd]. eexists. split; [reflexivity|].
  cbn [world_of disk appointments_file schedule_file file_rows].
  repeat split.
  - intros r Hr Hid. apply list_elem_of_fmap in Hr as (r0 & -> & _).
    destruct (with_id (Appointments.appointment_id appointment) r0) eqn:Hm;
      [reflexivity|].
    unfold with_id in Hm. apply String.eqb_neq in Hm. contradiction.
  - rewrite Haf. cbn [file_rows]. apply length_map.
  - rewrite Hsched by (unfold schedule_io_ok; rewrite Hfaults; now split).
    apply set_availability_all.
Qed.

Lemma cancellation_success_witness :
  let env := Demo.env no_faults Demo.silent in
  let w := (save_appointment env Demo.amy Demo.chosen_slot Demo.self_pay_bag
              (Demo.world Demo.disk0)).2 in
  let state :=
    {| messages := [HumanMessage "Hello"; AIMessage greeting_message;
                    HumanMessage "cancel"; AIMessage cancel_response;
                    HumanMessage "11/30/1988"];
       current_stage := Some "cancellation"; intent := Some "cancel";
       patient_info :=
         Some (set_last_name "davis" (set_first_name "AMY" no_patient_info));
       appointment_info := None; insurance_info := None;
       available_slots := None; appointment_id := None |} in
  exists w',
    (_cancellation_node env state w).2 = w' /\
    map Appointments.status (ledger_rows (disk w')) = ["Cancelled"] /\
    Forall (fun s => booked_slot Demo.chosen_slot s = true ->
                     Schedule.is_available s = true)
      (schedule_rows (disk w')).
Proof.
  intros env w state.
  destruct (cancellation_success env state w
              (appointment_data env Demo.amy Demo.chosen_slot
                 Demo.self_pay_bag))
    as (w' & Hrun & _ & _ & Hslot).
  - discriminate.
  - vm_compute. reflexivity.
  - vm_compute. reflexivity.
  - vm_compute. apply NoDup_singleton.
  - reflexivity.
  - exists w'. rewrite Hrun. split; [reflexivity|]. split; [|exact Hslot].
    assert (Hw' : w' = (_cancellation_node env state w).2) by now rewrite Hrun.
    rewrite Hw'. vm_compute. reflexivity.
Defined.

Lemma missing_after_assignment (env : Env) (input : string)
    (p : PatientInfo.t) (field : string) (rest : list string) :
  missing_fields cancellation_fields p = field :: rest ->
  (length (missing_fields cancellation_fields p)
   <= S (length (missing_fields cancellation_fields
                   (cancellation_field env field input p))))%nat.
Proof.
  unfold missing_fields, cancellation_fields, cancellation_field.
  cbn [List.filter].
  change (patient_field "first_name" p) with (PatientInfo.first_name p).
  change (patient_field "last_name" p) with (PatientInfo.last_name p).
  change (patient_field "dob" p) with (PatientInfo.dob p).
  destruct (Py.filled (PatientInfo.first_name p)) eqn:H1,
    (Py.filled (PatientInfo.last_name p)) eqn:H2,
    (Py.filled (PatientInfo.dob p)) eqn:H3; cbn [negb];
    intros [= <- <-];
    match goal with
    | |- context [if String.eqb ?a ?b then _ else _] =>
        change (String.eqb a b) with true
        || (change (String.eqb a b) with false;
            match goal with
            | |- context [if String.eqb ?c ?d then _ else _] =>
                change (String.eqb c d) with true
                || (change (String.eqb c d) with false;
                    match goal with
                    | |- context [if String.eqb ?e ?f then _ else _] =>
                        change (String.eqb e f) with true
                    end)
            end)
    | _ => idtac
    end; cbv iota;
    match goal with
    | |- context [patient_field _ ?q] =>
        change (patient_field "first_name" q) with (PatientInfo.first_name q);
        change (patient_field "last_name" q) with (PatientInfo.last_name q);
        change (patient_field "dob" q) with (PatientInfo.dob q)
    | _ => idtac
    end;
    cbn [set_first_name set_last_name set_dob PatientInfo.first_name
         PatientInfo.last_name PatientInfo.dob];
    rewrite ?H1, ?H2, ?H3; cbn [negb];
    repeat match goal with
           | |- context [Py.filled ?v] => destruct (Py.filled v)
           end; cbn [negb length]; lia.
Qed.

(** X24: a cancellation turn fills at most one identity field.  While
    two or more of first name, last name and date of birth are missing,
    the turn only asks the next question: the stage stays [cancellation],
    nothing is looked up and the world is unchanged; a message such as a
    full name therefore supplies the first name alone. *)
Theorem cancellation_one_field_per_turn (env : Env) (state : SchedulingState)
    (w : World) :
  messages state <> [] ->
  (2 <= length (missing_fields cancellation_fields (stored_patient state)))%nat ->
  exists u p,
    _cancellation_node env state w = (Ok u, w) /\
    u_current_stage u = Some "cancellation" /\
    u_patient_info u = Some p /\
    (length (missing_fields cancellation_fields (stored_patient state))
     <= S (length (missing_fields cancellation_fields p)))%nat.
Proof.
  intros Hmsgs Htwo.
  rewrite (cancellation_node_run env state w Hmsgs).
  assert (Hturn : (length (missing_fields cancellation_fields
                             (stored_patient state))
                   <= S (length (missing_fields cancellation_fields
                                   (cancellation_turn env state))))%nat).
  { unfold cancellation_turn.
    destruct (last (messages state)) as [[content|content]|]; try lia.
    destruct (missing_fields cancellation_fields (stored_patient state))
      as [|field rest] eqn:Hmiss; [simpl; lia|].
    rewrite <- Hmiss. now apply missing_after_assignment with (rest := rest). }
  destruct (missing_fields cancellation_fields (cancellation_turn env state))
    as [|next rest] eqn:Hnext; [cbn [length] in Hturn; lia|].
  eexists _, _. split; [reflexivity|]. repeat split. rewrite Hnext. exact Hturn.
Qed.

Lemma cancellation_one_field_per_turn_witness :
  let env := Demo.env no_faults Demo.silent in
  let state :=
    state_of [HumanMessage "Hello"; AIMessage greeting_message;
              HumanMessage "cancel"; AIMessage cancel_response;
              HumanMessage "Lisa Brown"]
      (Some "cancellation") (Some "cancel") in
  exists u p,
    _cancellation_node env state (Demo.world Demo.disk0)
      = (Ok u, Demo.world Demo.disk0) /\
    u_current_stage u = Some "cancellation" /\
    u_patient_info u = Some p /\
    PatientInfo.first_name p = Some "Lisa" /\
    PatientInfo.last_name p = None.
Proof.
  intros env state.
  destruct (cancellation_one_field_per_turn env state (Demo.world Demo.disk0))
    as (u & p & Hrun & Hstage & Hp & _); [discriminate | simpl; lia |].
  exists u, p. repeat split; try assumption.
  all: vm_compute in Hrun; injection Hrun as <-; injection Hp as <-;
    reflexivity.
Defined.



(** ** The graph and [process_message] *)

Lemma router_later_turn (state : SchedulingState) (m : BaseMessage) :
  messages state <> [] ->
  router (add_message state m)
  = if String.eqb (default "" (intent state)) "cancel" then "cancellation"
    else if String.eqb (default "" (intent state)) "schedule"
         then default "patient_lookup" (current_stage state)
         else default "greeting" (current_stage state).
Proof.
  intros Hne. unfold router. cbn [add_message messages intent current_stage].
  destruct (messages state) as [|m0 [|m1 ms]]; [congruence| reflexivity..].
Qed.

Lemma add_message_nonempty (state : SchedulingState) (m : BaseMessage) :
  messages (add_message state m) <> [].
Proof. cbn [add_message messages]. now destruct (messages state). Qed.

Lemma cancel_keeps_ledger_size (env : Env) (appointment_id reason : string)
    (w : World) :
  length (ledger_rows (disk (cancel_appointment env appointment_id reason w).2))
    = length (ledger_rows (disk w)) /\
  llm_calls (cancel_appointment env appointment_id reason w).2 = llm_calls w.
Proof.
  rewrite (world_of_eta w).
  destruct (cancel_appointment_effect env appointment_id reason
              (patients_file (disk w)) (schedule_file (disk w))
              (appointments_file (disk w)) (llm_calls w))
    as [[Hrun _]|(df & ap & rest & pf' & sf' & Haf & _ & Hrun & _)];
    rewrite Hrun; cbn [snd]; [now split|].
  unfold ledger_rows. cbn [world_of disk appointments_file llm_calls file_rows].
  rewrite Haf. cbn [file_rows]. split; [apply length_map | reflexivity].
Qed.

(** X25: a thread whose intent is [cancel] never leaves the cancellation
    node.  Whatever its stage (also [completed]) and whatever the next
    message says, [process_message] answers from the cancellation node
    without raising: the intent stays [cancel], the stage is
    [cancellation] or [completed], no form is sent, no row is added to the
    appointment ledger and the language model is not called. *)
Theorem cancel_intent_is_final (env : Env) (chat : Chat)
    (state : SchedulingState) (user_message : string) (w : World) :
  intent state = Some "cancel" -> messages state <> [] ->
  exists answer result w',
    process_message env chat state user_message w
      = ((answer, Some (result, [])), w') /\
    intent result = Some "cancel" /\
    (current_stage result = Some "cancellation" \/
     current_stage result = Some "completed") /\
    length (ledger_rows (disk w')) = length (ledger_rows (disk w)) /\
    llm_calls w' = llm_calls w.
Proof.
  intros Hintent Hne. unfold process_message, invoke. fold (incoming user_message).
  rewrite (router_later_turn state _ Hne), Hintent.
  change (String.eqb (default "" (Some "cancel")) "cancel") with true.
  cbv iota.
  change (run_branch env chat "cancellation"
            (add_message state (incoming user_message)))
    with (bind (_cancellation_node env
                  (add_message state (incoming user_message)))
            (fun u => ret (Some u, @nil (string * string)))).
  unfold bind at 1 2.
  rewrite (cancellation_node_run env _ w (add_message_nonempty state _)).
  set (st := add_message state (incoming user_message)).
  assert (Hst : intent st = Some "cancel") by exact Hintent.
  destruct (missing_fields cancellation_fields (cancellation_turn env st))
    as [|next rest].
  2:{ unfold ret. cbn [fst snd]. eexists _, _, _. split; [reflexivity|].
      cbn [apply_update intent current_stage with_patient_info reply
           u_intent u_current_stage overwrite].
      auto. }
  destruct (find_appointment_by_patient env (cancellation_turn env st) w).1
    as [[appointment|]|e].
  2,3: unfold ret; cbn [fst snd]; eexists _, _, _; (split; [reflexivity|]);
       cbn [apply_update intent current_stage reply u_intent u_current_stage
            overwrite]; auto.
  cbv zeta. unfold ret. cbn [fst snd].
  destruct (cancel_keeps_ledger_size env
              (Appointments.appointment_id appointment) cancellation_reason w)
    as [Hsize Hcalls].
  eexists _, _, _. split; [reflexivity|].
  cbn [apply_update intent current_stage reply u_intent u_current_stage
       overwrite].
  auto.
Qed.

Lemma cancel_intent_is_final_witness :
  let env := Demo.env no_faults Demo.silent in
  exists answer result w',
    process_message env simulated_mail cancelled_thread
      "I would like to book a new appointment" (Demo.world Demo.disk0)
      = ((answer, Some (result, [])), w') /\
    intent result = Some "cancel" /\
    (current_stage result = Some "cancellation" \/
     current_stage result = Some "completed") /\
    length (ledger_rows (disk w'))
      = length (ledger_rows (disk (Demo.world Demo.disk0))) /\
    llm_calls w' = llm_calls (Demo.world Demo.disk0).
Proof.
  intros env.
  apply (cancel_intent_is_final env simulated_mail cancelled_thread
           "I would like to book a new appointment" (Demo.world Demo.disk0));
    [reflexivity | discriminate].
Defined.

Lemma last_reply_human (msgs : list BaseMessage) (content : string) :
  last_reply (msgs ++ [HumanMessage content]) = last_reply msgs.
Proof.
  unfold last_reply. rewrite omap_app. cbn [omap option_bind mbind].
  now rewrite app_nil_r.
Qed.

(** X26: a thread that reached [completed] without the intent [cancel]
    is over.  Every further message runs the final node only:
    [process_message] repeats the last non-blank assistant message of the
    history (or the default line), the world is untouched, no form is
    sent, and the state gains the user's message and nothing else. *)
Theorem completed_thread_repeats (env : Env) (chat : Chat)
    (state : SchedulingState) (user_message : string) (w : World) :
  current_stage state = Some "completed" ->
  intent state <> Some "cancel" ->
  messages state <> [] ->
  process_message env chat state user_message w
  = ((default default_reply (last_reply (messages state)),
      Some (add_message state (incoming user_message), [])), w).
Proof.
  intros Hstage Hintent Hne. unfold process_message, invoke.
  fold (incoming user_message).
  rewrite (router_later_turn state _ Hne), Hstage.
  assert (Hcancel : String.eqb (default "" (intent state)) "cancel" = false).
  { apply String.eqb_neq. intros Heq. apply Hintent.
    destruct (intent state) as [i|]; [now rewrite <- Heq | discriminate]. }
  rewrite Hcancel.
  assert (Hroute :
    (if String.eqb (default "" (intent state)) "schedule"
     then default "patient_lookup" (Some "completed")
     else default "greeting" (Some "completed")) = "completed")
    by now destruct (String.eqb _ "schedule").
  rewrite Hroute.
  change (run_branch env chat "completed"
            (add_message state (incoming user_message)))
    with (ret (Some (_end_conversation_node
                       (add_message state (incoming user_message))),
               @nil (string * string))).
  unfold bind, ret. cbn [fst snd].
  assert (Hsame :
    apply_update (add_message state (incoming user_message))
      (_end_conversation_node (add_message state (incoming user_message)))
    = add_message state (incoming user_message)).
  { unfold apply_update, _end_conversation_node, add_message.
    cbn [messages current_stage intent patient_info appointment_info
         insurance_info available_slots appointment_id u_messages
         u_current_stage u_intent u_patient_info u_appointment_info
         u_insurance_info u_available_slots u_appointment_id overwrite].
    rewrite app_nil_r, Hstage. reflexivity. }
  rewrite Hsame. cbn [add_message messages]. unfold incoming at 1.
  rewrite last_reply_human.
  reflexivity.
Qed.

Lemma completed_thread_repeats_witness :
  let env := Demo.env no_faults Demo.silent in
  process_message env simulated_mail booked_thread
    "I would like to book another appointment" (Demo.world Demo.disk0)
  = (("See you then.",
      Some (add_message booked_thread
              (HumanMessage "I would like to book another appointment"), [])),
     Demo.world Demo.disk0).
Proof.
  intros env.
  apply (completed_thread_repeats env simulated_mail booked_thread
           "I would like to book another appointment" (Demo.world Demo.disk0));
    [reflexivity | discriminate | discriminate].
Defined.

(** X27: the first message of a thread is not read.  On an empty history
    [process_message] answers any text with the greeting, records no
    intent, sets the stage [greeting], sends no form and leaves the world
    untouched: a request made in the first message has to be repeated. *)
Theorem first_message_only_greeted (env : Env) (chat : Chat)
    (state : SchedulingState) (user_message : string) (w : World) :
  messages state = [] ->
  exists result,
    process_message env chat state user_message w
      = ((greeting_message, Some (result, [])), w) /\
    messages result = [incoming user_message; AIMessage greeting_message] /\
    intent result = intent state /\
    current_stage result = Some "greeting".
Proof.
  intros Hempty. unfold process_message, invoke. fold (incoming user_message).
  assert (Hroute : router (add_message state (incoming user_message))
                   = "greeting").
  { unfold router. cbn [add_message messages]. now rewrite Hempty. }
  rewrite Hroute.
  change (run_branch env chat "greeting"
            (add_message state (incoming user_message)))
    with (ret (_greeting_node
                          (add_message state (incoming user_message)),
                        @nil (string * string))).
  assert (Hnode : _greeting_node (add_message state (incoming user_message))
                  = Some (reply greeting_message "greeting")).
  { unfold _greeting_node. cbn [add_message messages]. now rewrite Hempty. }
  rewrite Hnode. unfold bind, ret. cbn [fst snd].
  eexists. split.
  - f_equal. f_equal.
    cbn [apply_update add_message messages reply u_messages].
    rewrite Hempty. vm_compute. reflexivity.
  - cbn [apply_update add_message messages intent current_stage reply
         u_messages u_intent u_current_stage overwrite].
    rewrite Hempty. auto.
Qed.

Lemma first_message_only_greeted_witness :
  let env := Demo.env no_faults Demo.silent in
  exists result,
    process_message env simulated_mail initial_state
      "Please cancel my appointment" (Demo.world Demo.disk0)
      = ((greeting_message, Some (result, [])), Demo.world Demo.disk0) /\
    messages result = [HumanMessage "Please cancel my appointment";
                       AIMessage greeting_message] /\
    intent result = None /\
    current_stage result = Some "greeting".
Proof.
  intros env.
  apply (first_message_only_greeted env simulated_mail initial_state
           "Please cancel my appointment" (Demo.world Demo.disk0)).
  reflexivity.
Defined.



(** *** What an operation returns *)

Section Returns.

Context {A : Type} (P : A -> Prop).

Lemma returns_ret (a : A) : P a -> returns P (ret a).
Proof. intros Ha w a' w' [= <- _]. exact Ha. Qed.

Lemma returns_raise (e : Exception) : returns P (raise e).
Proof. intros w a w' [=]. Qed.

Lemma returns_lift (r : Result A) :
  (forall a, r = Ok a -> P a) -> returns P (lift r).
Proof. intros Hr w a w' [= -> _]. now apply Hr. Qed.

Lemma returns_bind {B} (Q : B -> Prop) (c : M B) (k : B -> M A) :
  returns Q c -> (forall b, Q b -> returns P (k b)) -> returns P (bind c k).
Proof.
  intros Hc Hk w a w'. unfold bind.
  destruct (c w) as [[b|e] w1] eqn:Hrun; [|discriminate].
  apply Hk. exact (Hc w b w1 Hrun).
Qed.

Lemma returns_then {B} (c : M B) (k : B -> M A) :
  (forall b, returns P (k b)) -> returns P (bind c k).
Proof.
  intros Hk. apply returns_bind with (Q := fun _ => True); [easy | auto].
Qed.

End Returns.

(** *** The stages the nodes set *)

Lemma greeting_sets_branch (state : SchedulingState) (u : Update) :
  _greeting_node state = Some u -> sets_branch u = true.
Proof.
  unfold _greeting_node.
  destruct (length (messages state) <=? 1)%nat; [now intros [= <-]|].
  destruct (last (messages state)) as [[content|content]|]; [|discriminate..].
  destruct (Py.any_in cancel_keywords (Py.lower content));
    [now intros [= <-]|].
  destruct (Py.any_in schedule_keywords (Py.lower content));
    now intros [= <-].
Qed.

Lemma patient_lookup_sets_branch (env : Env) (chat : Chat)
    (state : SchedulingState) :
  returns (fun u => sets_branch u = true) (_patient_lookup_node env chat state).
Proof.
  unfold _patient_lookup_node.
  destruct (last (messages state)); [|apply returns_raise].
  apply returns_then. intros p.
  destruct (missing_fields required_fields p);
    [|now apply returns_ret].
  apply returns_then. intros found. now apply returns_ret.
Qed.

Lemma smart_scheduling_sets_branch (state : SchedulingState) (u : Update) :
  _smart_scheduling_node state = Ok u -> sets_branch u = true.
Proof.
  unfold _smart_scheduling_node.
  destruct (patient_info state) as [p|]; [|discriminate].
  destruct (last (messages state)) as [m|]; [|discriminate].
  cbv zeta.
  match goal with
  | |- match ?doctor with _ => _ end = _ -> _ =>
      destruct doctor as [chosen|]; [destruct (Py.truthy chosen)|]
  end; now intros [= <-].
Qed.

Lemma show_available_slots_sets_branch (env : Env) (a : AppointmentInfo.t) :
  returns (fun u => sets_branch u = true) (show_available_slots env a).
Proof.
  unfold show_available_slots. apply returns_then. intros slots.
  destruct (negb (df_empty slots)); now apply returns_ret.
Qed.

Lemma calendar_integration_sets_branch (env : Env) (state : SchedulingState) :
  returns (fun u => sets_branch u = true)
    (_calendar_integration_node env state).
Proof.
  unfold _calendar_integration_node.
  destruct (last (messages state)) as [[content|content]|];
    [|apply show_available_slots_sets_branch | apply returns_raise].
  destruct (Py.int (Py.strip content)) as [n|];
    [|apply show_available_slots_sets_branch].
  cbv zeta.
  destruct ((0 <=? n - 1)
            && (n - 1 <? Z.of_nat (length (default [] (available_slots state)))));
    [|now apply returns_ret].
  destruct (default [] (available_slots state) !! Z.to_nat (n - 1));
    [now apply returns_ret | apply show_available_slots_sets_branch].
Qed.

Lemma check_required_sets_branch (info : gmap string string) :
  sets_branch (check_required info) = true.
Proof.
  unfold check_required. cbv zeta.
  now destruct (List.filter _ required).
Qed.

Lemma insurance_collection_sets_branch (env : Env) (state : SchedulingState) :
  returns (fun u => sets_branch u = true)
    (_insurance_collection_node env state).
Proof.
  unfold _insurance_collection_node.
  destruct (last (messages state)) as [[content|content]|];
    [| apply returns_ret, check_required_sets_branch | apply returns_raise].
  cbv zeta.
  destruct (Py.any_in self_pay_keywords (Py.lower content));
    [now apply returns_ret|].
  apply returns_then. intros info.
  apply returns_ret, check_required_sets_branch.
Qed.

Lemma appointment_confirmation_sets_branch (env : Env)
    (state : SchedulingState) :
  returns (fun u => sets_branch u = true)
    (_appointment_confirmation_node env state).
Proof.
  unfold _appointment_confirmation_node.
  destruct (patient_info state), (appointment_info state),
    (insurance_info state); try apply returns_raise.
  apply returns_then. intros id. now apply returns_ret.
Qed.

Lemma form_distribution_sets_branch (chat : Chat) (state : SchedulingState)
    (r : Update * list (string * string)) :
  _form_distribution_node chat state = Ok r -> sets_branch r.1 = true.
Proof.
  unfold _form_distribution_node.
  destruct (patient_info state) as [p|]; [|discriminate].
  destruct (negb (default true (PatientInfo.is_returning p)));
    [|now intros [= <-]].
  destruct (PatientInfo.email p) as [email|]; [|now intros [= <-]].
  destruct (Py.truthy email); [|now intros [= <-]].
  destruct (PatientInfo.first_name p), (PatientInfo.last_name p);
    try discriminate.
  now intros [= <-].
Qed.

Lemma cancellation_sets_branch (env : Env) (state : SchedulingState) :
  returns (fun u => sets_branch u = true) (_cancellation_node env state).
Proof.
  unfold _cancellation_node.
  destruct (last (messages state)) as [m|]; [|apply returns_raise].
  cbv zeta.
  match goal with
  | |- returns _ (match missing_fields _ ?turn with _ => _ end) =>
      destruct (missing_fields cancellation_fields turn)
  end; [|now apply returns_ret].
  apply returns_then. intros [appointment|]; [|now apply returns_ret].
  apply returns_then. intros []; now apply returns_ret.
Qed.

Lemma run_branch_sets_branch (env : Env) (chat : Chat) (name : string)
    (state : SchedulingState) :
  returns (fun r => match r.1 with
                    | Some u => sets_branch u = true
                    | None => True
                    end) (run_branch env chat name state).
Proof.
  unfold run_branch.
  repeat match goal with
         | |- returns _ (if ?test then _ else _) => destruct test
         end; try apply returns_raise.
  - apply returns_ret. cbn [fst].
    destruct (_greeting_node state) as [u|] eqn:Hnode; [|exact I].
    exact (greeting_sets_branch state u Hnode).
  - eapply returns_bind; [apply patient_lookup_sets_branch|].
    intros u Hu. now apply returns_ret.
  - eapply returns_bind;
      [apply returns_lift, smart_scheduling_sets_branch|].
    intros u Hu. now apply returns_ret.
  - eapply returns_bind; [apply calendar_integration_sets_branch|].
    intros u Hu. now apply returns_ret.
  - eapply returns_bind; [apply insurance_collection_sets_branch|].
    intros u Hu. now apply returns_ret.
  - eapply returns_bind; [apply appointment_confirmation_sets_branch|].
    intros u Hu. now apply returns_ret.
  - eapply returns_bind;
      [apply returns_lift, form_distribution_sets_branch|].
    intros u Hu. now apply returns_ret.
  - eapply returns_bind; [apply cancellation_sets_branch|].
    intros u Hu. now apply returns_ret.
  - now apply returns_ret.
Qed.

(** X28: routing never fails.  The stage a node stores is always one of
    the nine keys of the conditional edges: if the stored stage is a key
    (or not set), the router sends the next message to a node of the
    graph, and the state [process_message] leaves behind again stores a
    key (or none). *)
Theorem stage_always_routable (env : Env) (chat : Chat)
    (state : SchedulingState) :
  routable state = true ->
  (forall m, is_branch (router (add_message state m)) = true) /\
  (forall user_message w answer result forms w',
     process_message env chat state user_message w
       = ((answer, Some (result, forms)), w') ->
     routable result = true).
Proof.
  intros Hstate. split.
  - intros m. unfold router.
    cbn [add_message messages intent current_stage].
    unfold routable in Hstate.
    destruct (length (messages state ++ [m]) <=? 1)%nat; [reflexivity|].
    destruct (String.eqb (default "" (intent state)) "cancel");
      [reflexivity|].
    destruct (String.eqb (default "" (intent state)) "schedule");
      destruct (current_stage state); (exact Hstate || reflexivity).
  - intros user_message w answer result forms w'.
    unfold process_message, invoke. fold (incoming user_message).
    unfold bind.
    destruct (run_branch env chat
                (router (add_message state (incoming user_message)))
                (add_message state (incoming user_message)) w)
      as [[r|e] w1] eqn:Hrun; [|discriminate].
    apply run_branch_sets_branch in Hrun.
    unfold ret. cbn [fst snd]. intros [= _ <- _ _].
    destruct r.1 as [u|]; [|exact Hstate].
    unfold routable, sets_branch in *.
    cbn [apply_update add_message current_stage].
    destruct (u_current_stage u); [exact Hrun | exact Hstate].
Qed.

Lemma stage_always_routable_witness :
  let env := Demo.env no_faults Demo.silent in
  routable reschedule_state = true /\
  (forall m, is_branch (router (add_message reschedule_state m)) = true) /\
  (forall user_message w answer result forms w',
     process_message env simulated_mail reschedule_state user_message w
       = ((answer, Some (result, forms)), w') ->
     routable result = true).
Proof.
  intros env. split; [reflexivity|].
  apply (stage_always_routable env simulated_mail reschedule_state).
  reflexivity.
Defined.
